(** * The Bayesian optimization loop of RoBO (robo/solver/bayesian_optimization.py)

    A shallow embedding of the class [BayesianOptimization]: the solver
    object is a record, its methods are computations in a state-and-exception
    monad, and every collaborator the loop calls (task, model, acquisition
    function, maximizer, recommendation strategy, random generator, clock,
    checkpoint writer) is a function on a hidden environment of an arbitrary
    type [E].  The calls to collaborators and to the logger are recorded in
    a trace, so that what was called, how often and with which arguments
    can be stated.

    Numbers: the source computes with floating-point arrays.  Here a
    coordinate and a time stamp are exact integers ([Z]); an objective
    value, as the task, the posterior optimizer or a strategy returns it,
    is a [float64]: an exact integer or NaN, the one value on which
    [np.argmin] does not follow the order of the numbers.  A
    two-dimensional array is the list of its rows, and [Y], an array with
    one column, the list of its entries.

    Time: [time.time()] reads a clock that is part of the environment; the
    collaborators advance it, the statements of the loop itself take no
    time. *)

From Stdlib Require Import ZArith String List Bool Lia.
Import ListNotations.
Local Open Scope Z_scope.

Set Implicit Arguments.

(** ** Data *)

(** A point of the domain: one row of [X]. *)
Definition point := list Z.

(** An objective value: a number or NaN. *)
Inductive float64 : Type :=
| Num (z : Z)
| NaN.

(** An array of numbers. *)
Definition nums (l : list Z) : list float64 := map Num l.

Definition is_nan (v : float64) : bool :=
  match v with NaN => true | Num _ => false end.

(** The array holds numbers only. *)
Definition no_nan (l : list float64) : Prop := ~ In NaN l.

(** [a <= b] and [a < b] on floats: false as soon as one side is NaN. *)
Definition fle (a b : float64) : Prop :=
  match a, b with
  | Num x, Num y => x <= y
  | _, _ => False
  end.

Definition flt (a b : float64) : Prop :=
  match a, b with
  | Num x, Num y => x < y
  | _, _ => False
  end.

(** The exceptions the loop can end with.  The first three are raised by
    collaborators, the others by the interpreter or NumPy. *)
Inductive exn : Type :=
| EvaluationFailure      (* task.evaluate raised *)
| TrainingFailure        (* model.train raised *)
| RecommendationFailure  (* the recommendation strategy raised *)
| AttributeError
| TypeError
| IndexError
| ValueError
| ZeroDivisionError.

Inductive result (A : Type) : Type :=
| Ok (a : A)
| Raise (e : exn).
Arguments Ok {A} a.
Arguments Raise {A} e.

(** The arguments of the [logger.info] calls, one constructor per message. *)
Inductive message : Type :=
| MsgPerformance (y : float64)               (* "Configuration achieved a performance of %f " *)
| MsgEvalTime (t : Z)                  (* "Evaluation of this configuration took %f seconds" *)
| MsgStartIteration (it : Z)           (* "Start iteration %d ... " *)
| MsgBestSeen                          (* "Use best point seen so far as incumbent." *)
| MsgOptimizePosterior                 (* "Optimize the posterior mean and std to find a new incumbent" *)
| MsgNewIncumbent (inc : option point) (dt : Z) (v : float64)
                                       (* "New incumbent %s found in %f seconds with estimated performance %f" *)
| MsgOverhead (t : Z)                  (* "Optimization overhead was %f seconds" *)
| MsgEvaluateCandidate (x : list point)(* "Evaluate candidate %s" *)
| MsgReturn (inc : option point) (v : float64)
                                       (* "Return %s as incumbent with predicted performance %f" *)
| MsgTrainModel                        (* "Train model..." *)
| MsgTrainTime (t : Z)                 (* "Time to train the model: %f" *)
| MsgNotTrained                        (* "Model could not be trained" *)
| MsgMaximize                          (* "Maximize acquisition function..." *)
| MsgMaximizeTime (t : Z).             (* "Time to maximize the acquisition function: %f" *)

(** The attributes of a [BayesianOptimization] object that the methods
    assign.  [None] is Python's [None]; for [incumbent_value] and
    [time_start], which [__init__] does not create, it is the absent
    attribute. *)
Record solver : Type := {
  X : option (list point);
  Y : option (list float64);
  time_func_eval : option (list Z);
  time_optimization_overhead : option (list Z);
  model_untrained : bool;
  incumbent : option point;
  incumbent_value : option float64;
  time_start : option Z
}.

(** The object [__init__] leaves behind. *)
Definition new_solver : solver :=
  {| X := None; Y := None; time_func_eval := None;
     time_optimization_overhead := None; model_untrained := true;
     incumbent := None; incumbent_value := None; time_start := None |}.

Definition set_X v (o : solver) : solver :=
  {| X := v; Y := Y o; time_func_eval := time_func_eval o;
     time_optimization_overhead := time_optimization_overhead o;
     model_untrained := model_untrained o; incumbent := incumbent o;
     incumbent_value := incumbent_value o; time_start := time_start o |}.
Definition set_Y v (o : solver) : solver :=
  {| X := X o; Y := v; time_func_eval := time_func_eval o;
     time_optimization_overhead := time_optimization_overhead o;
     model_untrained := model_untrained o; incumbent := incumbent o;
     incumbent_value := incumbent_value o; time_start := time_start o |}.
Definition set_time_func_eval v (o : solver) : solver :=
  {| X := X o; Y := Y o; time_func_eval := v;
     time_optimization_overhead := time_optimization_overhead o;
     model_untrained := model_untrained o; incumbent := incumbent o;
     incumbent_value := incumbent_value o; time_start := time_start o |}.
Definition set_time_optimization_overhead v (o : solver) : solver :=
  {| X := X o; Y := Y o; time_func_eval := time_func_eval o;
     time_optimization_overhead := v;
     model_untrained := model_untrained o; incumbent := incumbent o;
     incumbent_value := incumbent_value o; time_start := time_start o |}.
Definition set_model_untrained v (o : solver) : solver :=
  {| X := X o; Y := Y o; time_func_eval := time_func_eval o;
     time_optimization_overhead := time_optimization_overhead o;
     model_untrained := v; incumbent := incumbent o;
     incumbent_value := incumbent_value o; time_start := time_start o |}.
Definition set_incumbent v (o : solver) : solver :=
  {| X := X o; Y := Y o; time_func_eval := time_func_eval o;
     time_optimization_overhead := time_optimization_overhead o;
     model_untrained := model_untrained o; incumbent := v;
     incumbent_value := incumbent_value o; time_start := time_start o |}.
Definition set_incumbent_value v (o : solver) : solver :=
  {| X := X o; Y := Y o; time_func_eval := time_func_eval o;
     time_optimization_overhead := time_optimization_overhead o;
     model_untrained := model_untrained o; incumbent := incumbent o;
     incumbent_value := v; time_start := time_start o |}.
Definition set_time_start v (o : solver) : solver :=
  {| X := X o; Y := Y o; time_func_eval := time_func_eval o;
     time_optimization_overhead := time_optimization_overhead o;
     model_untrained := model_untrained o; incumbent := incumbent o;
     incumbent_value := incumbent_value o; time_start := v |}.

(** ** NumPy and Python primitives *)

(** [np.argmin] scanning the rest [l] of a sequence from index [cur], with
    the least number so far and its index: a later number replaces the
    running minimum only when strictly smaller, so the first index of the
    minimum is returned; the scan stops at the first NaN and returns its
    index. *)
Fixpoint argmin_from (best : Z) (best_idx cur : nat) (l : list float64) : nat :=
  match l with
  | [] => best_idx
  | NaN :: _ => cur
  | Num y :: l' =>
      if y <? best then argmin_from y cur (S cur) l'
      else argmin_from best best_idx (S cur) l'
  end.

(** [np.argmin(l)]; [None] stands for the [ValueError] on an empty array. *)
Definition np_argmin (l : list float64) : option nat :=
  match l with
  | [] => None
  | NaN :: _ => Some 0%nat
  | Num y :: l' => Some (argmin_from y 0%nat 1%nat l')
  end.

(** [np.zeros([n])]. *)
Definition np_zeros (n : nat) : list Z := repeat 0 n.

(** [a[i] = v] on an existing array; [None] is the [IndexError]. *)
Fixpoint list_set {A : Type} (i : nat) (v : A) (l : list A) : option (list A) :=
  match l, i with
  | [], _ => None
  | _ :: l', O => Some (v :: l')
  | a :: l', S i' =>
      match list_set i' v l' with
      | Some r => Some (a :: r)
      | None => None
      end
  end.

(** [range(lo, hi)]. *)
Definition py_range (lo hi : Z) : list Z :=
  map (fun k => lo + Z.of_nat k) (seq 0 (Z.to_nat (hi - lo))).

(** ** Collaborators *)

(** Everything outside the class, as functions on the hidden environment
    [E] (random generator state, clock, model, files ...).  [H] is the type
    of the model's hyperparameters.  A collaborator that the specification
    lets fail returns [None] for the exception it raises. *)
Record collaborators (E H : Type) : Type := {
  now : E -> Z;                                   (* time.time() *)
  n_dims : nat;                                   (* task.n_dims *)
  uniform : E -> point * E;
     (* np.random.uniform(task.X_lower, task.X_upper, task.n_dims) *)
  task_evaluate : list point -> E -> option (list float64) * E;   (* task.evaluate(x) *)
  model_train : list point -> list float64 -> bool -> E -> option unit * E;
     (* model.train(X, Y, do_optimize) *)
  acquisition_update : E -> E;                    (* acquisition_func.update(model) *)
  maximize : E -> list point * E;                 (* maximize_func.maximize() *)
  optimize_posterior_mean_and_std :
    list point -> bool -> E -> option (point * float64) * E;
     (* the function imported from robo.recommendation.optimize_posterior,
        called with startpoint=... and with_gradients=... *)
  acquisition_func : list point -> E -> Z * E;    (* acquisition_func(new_x) *)
  model_hypers : E -> H;                          (* model.hypers *)
  save_iteration : Z -> option H -> Z -> E -> E   (* BaseSolver.save_iteration *)
}.

(** What [recommendation_strategy] can hold besides [None]: the imported
    function itself (the [is] test of the source), or any other callable,
    which is called with a single [startpoint]. *)
Inductive strategy (E : Type) : Type :=
| PosteriorMeanAndStd
| OtherStrategy (f : point -> E -> option (point * float64) * E).
Arguments PosteriorMeanAndStd {E}.

(** The constructor arguments that the methods read. *)
Record config (E : Type) : Type := {
  save_dir : option string;
  recommendation_strategy : option (strategy E);
  num_save : Z;
  train_intervall : Z;
  n_restarts : nat
}.

(** The calls to collaborators and to the logger, in the order issued. *)
Inductive event (H : Type) : Type :=
| EvUniform (p : point)
| EvEvaluate (x : list point) (r : option (list float64))
| EvTrain (xs : list point) (ys : list float64) (do_optimize : bool)
          (r : option unit)
| EvUpdate
| EvMaximize (x : list point)
| EvPosterior (startpoints : list point) (with_gradients : bool)
              (r : option (point * float64))
| EvStrategy (startpoint : point) (r : option (point * float64))
| EvAcquisition (x : list point) (v : Z)
| EvSave (it : Z) (hypers : option H) (acquisition_value : Z)
| EvLog (m : message).
Arguments EvUniform {H} p.
Arguments EvEvaluate {H} x r.
Arguments EvTrain {H} xs ys do_optimize r.
Arguments EvUpdate {H}.
Arguments EvMaximize {H} x.
Arguments EvPosterior {H} startpoints with_gradients r.
Arguments EvStrategy {H} startpoint r.
Arguments EvAcquisition {H} x v.
Arguments EvLog {H} m.

(** ** The monad *)

(** The solver object, the environment and the calls issued so far. *)
Record state (E H : Type) : Type := {
  self : solver;
  env : E;
  trace : list (event H)
}.

Module M.
Section Monad.
Context {E H : Type}.

Definition t (A : Type) : Type := state E H -> result A * state E H.

Definition ret {A} (a : A) : t A := fun s => (Ok a, s).

Definition raise {A} (e : exn) : t A := fun s => (Raise e, s).

Definition bind {A B} (c : t A) (k : A -> t B) : t B :=
  fun s =>
    match c s with
    | (Ok a, s') => k a s'
    | (Raise e, s') => (Raise e, s')
    end.

(** Read an attribute of [self]. *)
Definition attr {A} (f : solver -> A) : t A := fun s => (Ok (f (self s)), s).

(** Assign an attribute of [self]. *)
Definition assign (f : solver -> solver) : t unit :=
  fun s => (Ok tt, {| self := f (self s); env := env s; trace := trace s |}).

(** Call a collaborator and record the call. *)
Definition call {A} (f : E -> A * E) (ev : A -> event H) : t A :=
  fun s =>
    let (a, e') := f (env s) in
    (Ok a, {| self := self s; env := e'; trace := trace s ++ [ev a] |}).

(** Read something off the environment without changing it. *)
Definition peek {A} (f : E -> A) : t A := fun s => (Ok (f (env s)), s).

(** [logger.info]. *)
Definition log (m : message) : t unit :=
  fun s => (Ok tt, {| self := self s; env := env s;
                      trace := trace s ++ [EvLog m] |}).

(** A Python value that must not be [None] / an index that must exist. *)
Definition expect {A} (e : exn) (o : option A) : t A :=
  match o with
  | Some a => ret a
  | None => raise e
  end.

(** A collaborator's optional result, [None] being its exception. *)
Definition or_raise {A} (e : exn) (c : t (option A)) : t A :=
  bind c (expect e).
End Monad.
End M.

Notation "x <- c ;; k" := (M.bind c (fun x => k))
(at level 61, c at next level, right associativity).
Notation "c ;;; k" := (M.bind c (fun _ => k))
(at level 61, right associativity).

Section Loops.
Context {E H : Type}.

(** [for a in l: body(a)]. *)
Fixpoint for_each {A} (l : list A) (body : A -> M.t (E:=E) (H:=H) unit)
  : M.t (E:=E) (H:=H) unit :=
  match l with
  | [] => M.ret tt
  | a :: l' => body a ;;; for_each l' body
  end.

(** [[f(a) for a in l]]. *)
Fixpoint map_m {A B} (f : A -> M.t (E:=E) (H:=H) B) (l : list A)
  : M.t (E:=E) (H:=H) (list B) :=
  match l with
  | [] => M.ret []
  | a :: l' => b <- f a ;; bs <- map_m f l' ;; M.ret (b :: bs)
  end.
End Loops.

(** ** The methods of [BayesianOptimization] *)

Section Solver.
Context {E H : Type}.
Variable C : collaborators E H.
Variable cfg : config E.

Local Abbreviation M := (M.t (E:=E) (H:=H)).

(** [time.time()]. *)
Definition time_time : M Z := M.peek (now C).

(** One [np.random.uniform(X_lower, X_upper, n_dims)]. *)
Definition draw_uniform : M point := M.call (uniform C) EvUniform.

(** [task.evaluate(x)]. *)
Definition evaluate (x : list point) : M (list float64) :=
  M.or_raise EvaluationFailure (M.call (task_evaluate C x) (EvEvaluate x)).

(** [self.save_iteration(it, hyperparameters=h, acquisition_value=a)]. *)
Definition save (it : Z) (h : option H) (a : Z) : M unit :=
  M.call (fun e => (tt, save_iteration C it h a e)) (fun _ => EvSave it h a).

(** [a % b == 0] on Python integers. *)
Definition divides (b a : Z) : M bool :=
  if b =? 0 then M.raise ZeroDivisionError else M.ret (a mod b =? 0).

(** [np.append(a, b)] where [a] is an attribute holding an array.  In a run
    the attribute is assigned before the loop reads it; on [None] the model
    answers [TypeError]. *)
Definition np_append {A} (a : option (list A)) (b : list A) : M (list A) :=
  xs <- M.expect TypeError a ;; M.ret (xs ++ b).

(** Lines 87-88: [if self.save_dir is not None and (0) % self.num_save == 0:
    self.save_iteration(i, hyperparameters=None, acquisition_value=0)]. *)
Definition seed_checkpoint (i : nat) : M unit :=
  match save_dir cfg with
  | Some _ =>
      due <- divides (num_save cfg) 0 ;;
      if due then save (Z.of_nat i) None 0 else M.ret tt
  | None => M.ret tt
  end.

(** Lines 169-171: [if self.save_dir is not None and (it) % self.num_save == 0:]
    read the hyperparameters and save the iteration with the acquisition
    value at [new_x]. *)
Definition checkpoint (it : Z) (new_x : list point) : M unit :=
  match save_dir cfg with
  | Some _ =>
      due <- divides (num_save cfg) it ;;
      if due then
        hypers <- M.peek (model_hypers C) ;;
        a <- M.call (acquisition_func C new_x) (EvAcquisition new_x) ;;
        save it (Some hypers) a
      else M.ret tt
  | None => M.ret tt
  end.

(** Body of the loop of [initialize], lines 64-88. *)
Definition init_body (i : nat) : M unit :=
  start_time <- time_time ;;
  p <- draw_uniform ;;
  let x := [p] in
  t <- time_time ;;
  overhead <- M.attr time_optimization_overhead ;;
  overhead <- M.expect TypeError overhead ;;
  overhead <- M.expect IndexError (list_set i (t - start_time) overhead) ;;
  M.assign (set_time_optimization_overhead (Some overhead)) ;;;
  start_time <- time_time ;;
  y <- evaluate x ;;
  t <- time_time ;;
  tfe <- M.attr time_func_eval ;;
  tfe <- M.expect TypeError tfe ;;
  tfe <- M.expect IndexError (list_set i (t - start_time) tfe) ;;
  M.assign (set_time_func_eval (Some tfe)) ;;;
  xs <- M.attr X ;;
  ys <- M.attr Y ;;
  (if Nat.eqb i 0 then
     xs <- M.expect TypeError xs ;;
     xs <- M.expect IndexError (list_set i p xs) ;;
     M.assign (set_X (Some xs)) ;;;
     y0 <- M.expect IndexError (nth_error y 0) ;;
     ys <- M.expect TypeError ys ;;
     ys <- M.expect IndexError (list_set i y0 ys) ;;
     M.assign (set_Y (Some ys))
   else
     xs <- np_append xs x ;;
     M.assign (set_X (Some xs)) ;;;
     ys <- np_append ys y ;;
     M.assign (set_Y (Some ys))) ;;;
  ys <- M.attr Y ;;
  ys <- M.expect TypeError ys ;;
  yi <- M.expect IndexError (nth_error ys i) ;;
  M.log (MsgPerformance yi) ;;;
  tfe <- M.attr time_func_eval ;;
  tfe <- M.expect TypeError tfe ;;
  ti <- M.expect IndexError (nth_error tfe i) ;;
  M.log (MsgEvalTime ti) ;;;
  best_idx <- M.expect ValueError (np_argmin ys) ;;
  xs <- M.attr X ;;
  xs <- M.expect TypeError xs ;;
  inc <- M.expect IndexError (nth_error xs best_idx) ;;
  M.assign (set_incumbent (Some inc)) ;;;
  inc_value <- M.expect IndexError (nth_error ys best_idx) ;;
  M.assign (set_incumbent_value (Some inc_value)) ;;;
  seed_checkpoint i.

(** Lines 58-61 of [initialize]: the timing arrays get their final size at
    once, [X] and [Y] start as one row of zeros. *)
Definition init_arrays (n_init_points : nat) : M unit :=
  M.assign (set_time_func_eval (Some (np_zeros n_init_points))) ;;;
  M.assign (set_time_optimization_overhead (Some (np_zeros n_init_points))) ;;;
  M.assign (set_X (Some [np_zeros (n_dims C)])) ;;;
  M.assign (set_Y (Some [Num 0])).

(** [initialize(n_init_points)], lines 54-88. *)
Definition initialize (n_init_points : nat) : M unit :=
  init_arrays n_init_points ;;;
  for_each (seq 0 n_init_points) init_body.

(** [choose_next(X, Y, do_optimize)], lines 177-204. *)
Definition choose_next (xs : option (list point))
    (ys : option (list float64))
    (do_optimize : bool) : M (list point) :=
  match xs, ys with
  | Some xs, Some ys =>
      M.log MsgTrainModel ;;;
      t <- time_time ;;
      r <- M.call (model_train C xs ys do_optimize) (EvTrain xs ys do_optimize) ;;
      match r with
      | Some _ => t' <- time_time ;; M.log (MsgTrainTime (t' - t))
      | None => M.log MsgNotTrained ;;; M.raise TrainingFailure
      end ;;;
      M.assign (set_model_untrained false) ;;;
      M.call (fun e => (tt, acquisition_update C e)) (fun _ => EvUpdate) ;;;
      M.log MsgMaximize ;;;
      t <- time_time ;;
      x <- M.call (maximize C) EvMaximize ;;
      t' <- time_time ;;
      M.log (MsgMaximizeTime (t' - t)) ;;;
      M.ret x
  | _, _ =>
      initialize 3 ;;;
      x <- M.attr X ;;
      M.expect TypeError x
  end.

(** [[np.random.uniform(...) for i in range(self.n_restarts)]]. *)
Definition draw_startpoints : M (list point) :=
  map_m (fun _ => draw_uniform) (seq 0 (n_restarts cfg)).

(** [self.X[np.argmin(self.Y)]] together with the index. *)
Definition best_observed : M (nat * point) :=
  ys <- M.attr Y ;;
  ys <- M.expect TypeError ys ;;
  best_idx <- M.expect ValueError (np_argmin ys) ;;
  xs <- M.attr X ;;
  xs <- M.expect TypeError xs ;;
  p <- M.expect IndexError (nth_error xs best_idx) ;;
  M.ret (best_idx, p).

(** [x_opt[i] = p] for a row [x_opt[i]] of [n] entries: NumPy takes a point
    of [n] entries as it is, broadcasts a point of one entry, and raises
    [ValueError] on any other length. *)
Definition np_set_row (n : nat) (p : point) : option point :=
  if Nat.eqb (length p) n then Some p
  else match p with
       | [c] => Some (repeat c n)
       | _ => None
       end.

(** Lines 142-143, from index [i] on: [for i, startpoint in
    enumerate(startpoints): x_opt[i], fval[i] =
    self.recommendation_strategy(..., startpoint=startpoint)]. *)
Fixpoint local_searches (f : point -> E -> option (point * float64) * E)
    (i : nat) (startpoints : list point)
    (x_opt : list point) (fval : list float64)
  : M (list point * list float64) :=
  match startpoints with
  | [] => M.ret (x_opt, fval)
  | startpoint :: rest =>
      r <- M.or_raise RecommendationFailure
             (M.call (f startpoint) (EvStrategy startpoint)) ;;
      row <- M.expect ValueError (np_set_row (n_dims C) (fst r)) ;;
      x_opt <- M.expect IndexError (list_set i row x_opt) ;;
      fval <- M.expect IndexError (list_set i (snd r) fval) ;;
      local_searches f (S i) rest x_opt fval
  end.

(** The three branches on [self.recommendation_strategy], lines 124-147. *)
Definition recommend : M unit :=
  match recommendation_strategy cfg with
  | None =>
      M.log MsgBestSeen ;;;
      bp <- best_observed ;;
      M.assign (set_incumbent (Some (snd bp))) ;;;
      ys <- M.attr Y ;;
      ys <- M.expect TypeError ys ;;
      v <- M.expect IndexError (nth_error ys (fst bp)) ;;
      M.assign (set_incumbent_value (Some v))
  | Some PosteriorMeanAndStd =>
      M.log MsgOptimizePosterior ;;;
      startpoints <- draw_startpoints ;;
      bp <- best_observed ;;
      let startpoints := startpoints ++ [snd bp] in
      r <- M.or_raise RecommendationFailure
             (M.call (optimize_posterior_mean_and_std C startpoints true)
                     (EvPosterior startpoints true)) ;;
      M.assign (set_incumbent (Some (fst r))) ;;;
      M.assign (set_incumbent_value (Some (snd r)))
  | Some (OtherStrategy f) =>
      startpoints <- draw_startpoints ;;
      let x_opt := repeat (np_zeros (n_dims C)) (length startpoints) in
      let fval := repeat (Num 0) (length startpoints) in
      arrays <- local_searches f 0 startpoints x_opt fval ;;
      let x_opt := fst arrays in
      let fval := snd arrays in
      best <- M.expect ValueError (np_argmin fval) ;;
      inc <- M.expect IndexError (nth_error x_opt best) ;;
      M.assign (set_incumbent (Some inc)) ;;;
      v <- M.expect IndexError (nth_error fval best) ;;
      M.assign (set_incumbent_value (Some v))
  end.

(** Body of the main loop of [run], lines 113-171. *)
Definition iteration (it : Z) : M unit :=
  M.log (MsgStartIteration it) ;;;
  start_time <- time_time ;;
  do_optimize <- divides (train_intervall cfg) it ;;
  xs <- M.attr X ;;
  ys <- M.attr Y ;;
  new_x <- choose_next xs ys do_optimize ;;
  start_time_inc <- time_time ;;
  recommend ;;;
  inc <- M.attr incumbent ;;
  t <- time_time ;;
  v <- M.attr incumbent_value ;;
  v <- M.expect AttributeError v ;;
  M.log (MsgNewIncumbent inc (t - start_time_inc) v) ;;;
  t <- time_time ;;
  let time_overhead := t - start_time in
  overhead <- M.attr time_optimization_overhead ;;
  overhead <- np_append overhead [time_overhead] ;;
  M.assign (set_time_optimization_overhead (Some overhead)) ;;;
  M.log (MsgOverhead (last overhead 0)) ;;;
  M.log (MsgEvaluateCandidate new_x) ;;;
  start_time <- time_time ;;
  new_y <- evaluate new_x ;;
  t <- time_time ;;
  tfe <- M.attr time_func_eval ;;
  tfe <- np_append tfe [t - start_time] ;;
  M.assign (set_time_func_eval (Some tfe)) ;;;
  y00 <- M.expect IndexError (nth_error new_y 0) ;;
  M.log (MsgPerformance y00) ;;;
  M.log (MsgEvalTime (last tfe 0)) ;;;
  xs <- M.attr X ;;
  xs <- np_append xs new_x ;;
  M.assign (set_X (Some xs)) ;;;
  ys <- M.attr Y ;;
  ys <- np_append ys new_y ;;
  M.assign (set_Y (Some ys)) ;;;
  checkpoint it new_x.

(** Lines 101-109 of [run]: the start time and the choice between random
    initialization and the caller's history. *)
Definition setup (X0 : option (list point)) (Y0 : option (list float64))
  : M unit :=
  t <- time_time ;;
  M.assign (set_time_start (Some t)) ;;;
  match X0, Y0 with
  | None, None => initialize 3
  | _, _ =>
      M.assign (set_X X0) ;;;
      M.assign (set_Y Y0) ;;;
      xs <- M.attr X ;;
      xs <- M.expect AttributeError xs ;;
      M.assign (set_time_func_eval (Some (np_zeros (length xs)))) ;;;
      xs <- M.attr X ;;
      xs <- M.expect AttributeError xs ;;
      M.assign (set_time_optimization_overhead (Some (np_zeros (length xs))))
  end.

(** Lines 111-171 of [run]: [for it in range(n_init_points, num_iterations)]
    with the local [n_init_points = 3]. *)
Definition main_loop (num_iterations : Z) : M unit :=
  let n_init_points := 3 in
  for_each (py_range n_init_points num_iterations) iteration.

(** [run(num_iterations, X, Y)], lines 90-175. *)
Definition run (num_iterations : Z) (X0 : option (list point))
    (Y0 : option (list float64)) : M (option point * float64) :=
  setup X0 Y0 ;;;
  main_loop num_iterations ;;;
  inc <- M.attr incumbent ;;
  v <- M.attr incumbent_value ;;
  v <- M.expect AttributeError v ;;
  M.log (MsgReturn inc v) ;;;
  M.ret (inc, v).

End Solver.

(** ** What the collaborators answer when called in a row *)

Section Answers.
Context {E H : Type}.
Variable C : collaborators E H.

(** The points that [n] draws in a row return, and the environment they
    leave. *)
Fixpoint draws (n : nat) (e : E) : list point * E :=
  match n with
  | O => ([], e)
  | S n' =>
      let (p, e1) := uniform C e in
      let (ps, e2) := draws n' e1 in
      (p :: ps, e2)
  end.

(** The answers of [f] on the start points in turn, up to the first call
    that raises, and the environment after the last call made. *)
Fixpoint answers (f : point -> E -> option (point * float64) * E)
    (startpoints : list point) (e : E)
  : option (list (point * float64)) * E :=
  match startpoints with
  | [] => (Some [], e)
  | startpoint :: rest =>
      match f startpoint e with
      | (Some r, e1) =>
          match answers f rest e1 with
          | (Some rs, e2) => (Some (r :: rs), e2)
          | (None, e2) => (None, e2)
          end
      | (None, e1) => (None, e1)
      end
  end.
End Answers.

(** ** Reading traces *)

Section Traces.
Context {H : Type}.

(** What [choose_next] logs and calls when the model can be fitted. *)
Definition choose_next_trace (xs : list point) (ys : list float64) (b : bool)
    (u : unit) (x : list point) (dt_train dt_max : Z) : list (event H) :=
  [EvLog MsgTrainModel; EvTrain xs ys b (Some u); EvLog (MsgTrainTime dt_train);
   EvUpdate; EvLog MsgMaximize; EvMaximize x; EvLog (MsgMaximizeTime dt_max)].

(** What an iteration logs and calls between the recommendation step and
    the checkpoint. *)
Definition evaluation_trace (inc : option point) (dt_inc : Z) (v : float64)
    (dt_overhead : Z) (new_x : list point) (new_y : list float64)
    (y00 : float64) (dt_eval : Z) : list (event H) :=
  [EvLog (MsgNewIncumbent inc dt_inc v); EvLog (MsgOverhead dt_overhead);
   EvLog (MsgEvaluateCandidate new_x); EvEvaluate new_x (Some new_y);
   EvLog (MsgPerformance y00); EvLog (MsgEvalTime dt_eval)].

Definition is_evaluate (ev : event H) : bool :=
  match ev with EvEvaluate _ _ => true | _ => false end.
Definition is_maximize (ev : event H) : bool :=
  match ev with EvMaximize _ => true | _ => false end.
Definition is_posterior (ev : event H) : bool :=
  match ev with EvPosterior _ _ _ => true | _ => false end.
Definition is_strategy (ev : event H) : bool :=
  match ev with EvStrategy _ _ => true | _ => false end.
Definition is_save (ev : event H) : bool :=
  match ev with EvSave _ _ _ => true | _ => false end.

(** The points an event of the maximizer or of the task carries. *)
Definition event_points (ev : event H) : list point :=
  match ev with
  | EvMaximize x => x
  | EvEvaluate x _ => x
  | _ => []
  end.

(** The events of a recommendation step. *)
Definition is_recommendation (ev : event H) : bool :=
  match ev with
  | EvLog _ | EvUniform _ | EvPosterior _ _ _ | EvStrategy _ _ => true
  | _ => false
  end.

(** The events of a random initialization. *)
Definition is_seed_event (ev : event H) : bool :=
  match ev with
  | EvUniform _ | EvEvaluate _ _ | EvLog _ | EvSave _ _ _ => true
  | _ => false
  end.

End Traces.

(** The lengths of [X], [Y], [time_func_eval] and
    [time_optimization_overhead], when all four are arrays. *)
Definition lengths (o : solver) : option (nat * nat * nat * nat) :=
  match X o, Y o, time_func_eval o, time_optimization_overhead o with
  | Some xs, Some ys, Some tfe, Some ovh =>
      Some (length xs, length ys, length tfe, length ovh)
  | _, _, _, _ => None
  end.

(** History alignment: the four sequences have the same length [n]. *)
Definition aligned (n : nat) (o : solver) : Prop :=
  lengths o = Some (n, n, n, n).

(** The number of seed points [run] starts its loop with: three random
    ones without arguments, the caller's when [X] and [Y] come with the same
    number of rows. *)
Definition seed_length (X0 : option (list point))
    (Y0 : option (list float64))
  : option nat :=
  match X0, Y0 with
  | None, None => Some 3%nat
  | Some xs, Some ys =>
      if Nat.eqb (length xs) (length ys) then Some (length xs) else None
  | _, _ => None
  end.

(** ** Contracts of the collaborators *)

(** The task answers a batch with one value per point. *)
Definition one_value_per_point {E H} (C : collaborators E H) : Prop :=
  forall x e ys e', task_evaluate C x e = (Some ys, e') -> length ys = length x.

(** The maximizer returns a single point (one row). *)
Definition one_candidate {E H} (C : collaborators E H) : Prop :=
  forall e, length (fst (maximize C e)) = 1%nat.

(** ** Collaborators that do not see the recommendation step

    The recommendation step draws from the random generator that every
    collaborator can reach, and hands the model to the strategy.  [view]
    selects the part of the environment on which the collaborators of the
    search itself depend. *)

Section Views.
Context {E H V : Type}.
Variable view : E -> V.

(** [f] reads and writes the environment through [view] only. *)
Definition reads_view {A} (f : E -> A * E) : Prop :=
  forall e1 e2, view e1 = view e2 ->
    fst (f e1) = fst (f e2) /\ view (snd (f e1)) = view (snd (f e2)).

(** [f] leaves what [view] shows as it is. *)
Definition keeps_view {A} (f : E -> A * E) : Prop :=
  forall e, view (snd (f e)) = view e.

(** Model, acquisition function, maximizer, task and checkpoint writer
    work on the view; drawing start points and optimizing the posterior
    leave it alone. *)
Record policy_blind (C : collaborators E H) : Prop := {
  blind_train : forall xs ys b, reads_view (model_train C xs ys b);
  blind_update : forall e1 e2, view e1 = view e2 ->
    view (acquisition_update C e1) = view (acquisition_update C e2);
  blind_maximize : reads_view (maximize C);
  blind_evaluate : forall x, reads_view (task_evaluate C x);
  blind_acquisition : forall x e1 e2, view e1 = view e2 ->
    view (snd (acquisition_func C x e1)) = view (snd (acquisition_func C x e2));
  blind_save : forall it h1 h2 a1 a2 e1 e2, view e1 = view e2 ->
    view (save_iteration C it h1 a1 e1) = view (save_iteration C it h2 a2 e2);
  blind_uniform : keeps_view (uniform C);
  blind_posterior : forall startpoints g,
    keeps_view (optimize_posterior_mean_and_std C startpoints g)
}.

(** The configured strategy, if it is a callable of its own, leaves the
    view alone. *)
Definition strategy_keeps_view (cfg : config E) : Prop :=
  match recommendation_strategy cfg with
  | Some (OtherStrategy f) => forall startpoint, keeps_view (f startpoint)
  | _ => True
  end.
End Views.

(** ** What the checkpoint writer has written

    [written] reads off the environment the checkpoints on disk, in the
    order in which they were written, each with its iteration index, its
    hyperparameters and its acquisition value: [save_iteration] adds one,
    and no other collaborator touches them. *)

Section Store.
Context {E H : Type}.
Variable written : E -> list (Z * option H * Z).

Record checkpoint_store (C : collaborators E H) : Prop := {
  store_save : forall it h a e,
    written (save_iteration C it h a e) = written e ++ [(it, h, a)];
  store_uniform : keeps_view written (uniform C);
  store_evaluate : forall x, keeps_view written (task_evaluate C x);
  store_train : forall xs ys b, keeps_view written (model_train C xs ys b);
  store_update : forall e, written (acquisition_update C e) = written e;
  store_maximize : keeps_view written (maximize C);
  store_posterior : forall startpoints g,
    keeps_view written (optimize_posterior_mean_and_std C startpoints g);
  store_acquisition : forall x, keeps_view written (acquisition_func C x)
}.
End Store.

(** The checkpoint of a seed point: its index, no hyperparameters, the
    acquisition value 0. *)
Definition seed_entry {H : Type} (i : nat) : Z * option H * Z :=
  (Z.of_nat i, None, 0).

(** The iteration index of a checkpoint. *)
Definition entry_index {H : Type} (w : Z * option H * Z) : Z := fst (fst w).

(** Two configurations that differ in the recommendation policy only. *)
Definition same_but_policy {E} (cfg1 cfg2 : config E) : Prop :=
  save_dir cfg1 = save_dir cfg2 /\ num_save cfg1 = num_save cfg2 /\
  train_intervall cfg1 = train_intervall cfg2.

(** ** A scripted environment

    Concrete collaborators on which the definitions can be run: the random
    generator hands out 0, 1, 2, ... as one-dimensional points, the task
    answers with the next entries of a table of objective values, the
    maximizer proposes the point [[5]] (or, when [maximizer_random] is set,
    draws its proposal from the same random generator, as a stochastic
    maximizer does), and every collaborator advances the clock by a fixed
    amount. *)

Record script : Type := {
  rng : Z;            (* state of np.random *)
  clock : Z;          (* what time.time() returns *)
  evaluated : nat;    (* number of points evaluated so far *)
  trained : nat;      (* number of fits of the model *)
  saved : list (Z * option (list Z) * Z)
                      (* what save_iteration has written, in order *)
}.

(** What the scripted model, task and fixed maximizer depend on. *)
Definition script_view (e : script) : nat * nat := (evaluated e, trained e).

Definition tick (d : Z) (e : script) : script :=
  {| rng := rng e; clock := clock e + d; evaluated := evaluated e;
     trained := trained e; saved := saved e |}.

Definition script_uniform (e : script) : point * script :=
  ([rng e], {| rng := rng e + 1; clock := clock e + 1;
               evaluated := evaluated e; trained := trained e;
               saved := saved e |}).

Definition script_evaluate (table : list float64) (x : list point)
    (e : script) : option (list float64) * script :=
  (Some (map (fun k => nth (evaluated e + k) table (Num 0))
             (seq 0 (length x))),
   {| rng := rng e; clock := clock e + 10;
      evaluated := evaluated e + length x; trained := trained e;
      saved := saved e |}).

Definition script_train (xs : list point) (ys : list float64)
    (do_optimize : bool)
    (e : script) : option unit * script :=
  (Some tt, {| rng := rng e; clock := clock e + 2; evaluated := evaluated e;
               trained := S (trained e); saved := saved e |}).

Definition script_maximize (maximizer_random : bool) (e : script)
  : list point * script :=
  if maximizer_random then
    ([[rng e]], {| rng := rng e + 1; clock := clock e + 3;
                   evaluated := evaluated e; trained := trained e;
               saved := saved e |})
  else ([[5]], tick 3 e).

(** Returns its first start point with the estimate 42. *)
Definition script_posterior (startpoints : list point) (with_gradients : bool)
    (e : script) : option (point * float64) * script :=
  (Some (hd [] startpoints, Num 42), tick 7 e).

(** A local search that returns its start point [[p]] with the estimate
    [100 - p]. *)
Definition script_local_search (startpoint : point) (e : script)
  : option (point * float64) * script :=
  (Some (startpoint, Num (100 - hd 0 startpoint)), tick 7 e).

(** A task that answers [limit] points and raises from then on. *)
Definition script_evaluate_until (limit : nat) (table : list float64)
    (x : list point) (e : script) : option (list float64) * script :=
  if Nat.ltb (evaluated e) limit then script_evaluate table x e
  else (None, tick 10 e).

(** The checkpoint writer of the script appends to [saved]. *)
Definition script_save (it : Z) (h : option (list Z)) (a : Z) (e : script)
  : script :=
  {| rng := rng e; clock := clock e; evaluated := evaluated e;
     trained := trained e; saved := saved e ++ [(it, h, a)] |}.

Definition scripted (table : list float64) (maximizer_random : bool)
  : collaborators script (list Z) :=
  {| now := clock;
     n_dims := 1;
     uniform := script_uniform;
     task_evaluate := script_evaluate table;
     model_train := script_train;
     acquisition_update := tick 0;
     maximize := script_maximize maximizer_random;
     optimize_posterior_mean_and_std := script_posterior;
     acquisition_func := fun x e => (7, e);
     model_hypers := fun e => [Z.of_nat (trained e)];
     save_iteration := script_save |}.

Definition scripted_start : state script (list Z) :=
  {| self := new_solver;
     env := {| rng := 0; clock := 0; evaluated := 0; trained := 0;
              saved := [] |};
     trace := [] |}.

(** The state [run] reaches after its setup when called with the seed
    [X = [[1], [9]]], [Y = [[20], [10]]]. *)
Definition scripted_seeded : state script (list Z) :=
  {| self :=
       {| X := Some [[1]; [9]]; Y := Some (nums [20; 10]);
          time_func_eval := Some [0; 0];
          time_optimization_overhead := Some [0; 0];
          model_untrained := true; incumbent := None;
          incumbent_value := None; time_start := Some 0 |};
     env := {| rng := 0; clock := 0; evaluated := 0; trained := 0;
              saved := [] |};
     trace := [] |}.

(** The scripted collaborators with a task that fails after [limit]
    points. *)
Definition scripted_failing (limit : nat) (table : list float64)
  : collaborators script (list Z) :=
  {| now := clock;
     n_dims := 1;
     uniform := script_uniform;
     task_evaluate := script_evaluate_until limit table;
     model_train := script_train;
     acquisition_update := tick 0;
     maximize := script_maximize false;
     optimize_posterior_mean_and_std := script_posterior;
     acquisition_func := fun x e => (7, e);
     model_hypers := fun e => [Z.of_nat (trained e)];
     save_iteration := script_save |}.

(** Configurations: the three policies, without and with a save directory. *)
Definition policy_A : config script :=
  {| save_dir := None; recommendation_strategy := None;
     num_save := 1; train_intervall := 1; n_restarts := 1 |}.

Definition policy_B (restarts : nat) : config script :=
  {| save_dir := None; recommendation_strategy := Some PosteriorMeanAndStd;
     num_save := 1; train_intervall := 1; n_restarts := restarts |}.

Definition policy_C (restarts : nat) : config script :=
  {| save_dir := None;
     recommendation_strategy := Some (OtherStrategy script_local_search);
     num_save := 1; train_intervall := 1; n_restarts := restarts |}.

Definition policy_A_saving (every : Z) : config script :=
  {| save_dir := Some "runs"%string; recommendation_strategy := None;
     num_save := every; train_intervall := 1; n_restarts := 1 |}.

(** ** Further vocabulary and scripted collaborators *)

(** The fit an event of the model carries: history and [do_optimize]. *)
Definition event_training {H} (ev : event H)
  : list (list point * list float64 * bool) :=
  match ev with
  | EvTrain xs ys b _ => [(xs, ys, b)]
  | _ => []
  end.

(** The iteration index an event of the checkpoint writer carries. *)
Definition event_saved {H} (ev : event H) : list Z :=
  match ev with
  | EvSave it _ _ => [it]
  | _ => []
  end.

(** The scripted collaborators with a model that cannot be fitted. *)
Definition scripted_untrainable (table : list float64)
  : collaborators script (list Z) :=
  {| now := clock;
     n_dims := 1;
     uniform := script_uniform;
     task_evaluate := script_evaluate table;
     model_train := fun _ _ _ e => (None, tick 2 e);
     acquisition_update := tick 0;
     maximize := script_maximize false;
     optimize_posterior_mean_and_std := script_posterior;
     acquisition_func := fun x e => (7, e);
     model_hypers := fun e => [Z.of_nat (trained e)];
     save_iteration := script_save |}.

(** A local search that raises. *)
Definition script_failing_search (startpoint : point) (e : script)
  : option (point * float64) * script :=
  (None, tick 7 e).

Definition policy_C_failing (restarts : nat) : config script :=
  {| save_dir := None;
     recommendation_strategy := Some (OtherStrategy script_failing_search);
     num_save := 1; train_intervall := 1; n_restarts := restarts |}.

(** Policy A with training every [every]-th iteration. *)
Definition policy_A_training (every : Z) : config script :=
  {| save_dir := None; recommendation_strategy := None;
     num_save := 1; train_intervall := every; n_restarts := 1 |}.

(** The state [run] reaches after its setup when called with [X] only. *)
Definition scripted_only_X : state script (list Z) :=
  {| self :=
       {| X := Some [[1]; [9]]; Y := None;
          time_func_eval := Some [0; 0];
          time_optimization_overhead := Some [0; 0];
          model_untrained := true; incumbent := None;
          incumbent_value := None; time_start := Some 0 |};
     env := {| rng := 0; clock := 0; evaluated := 0; trained := 0;
              saved := [] |};
     trace := [] |}.

(** A state with an empty history: [X] and [Y] without rows. *)
Definition scripted_empty_history : state script (list Z) :=
  {| self :=
       {| X := Some []; Y := Some [];
          time_func_eval := Some [];
          time_optimization_overhead := Some [];
          model_untrained := true; incumbent := None;
          incumbent_value := None; time_start := Some 0 |};
     env := {| rng := 0; clock := 0; evaluated := 0; trained := 0;
              saved := [] |};
     trace := [] |}.

Unset Implicit Arguments.

(** ** Facts about the primitives *)

Lemma no_nan_cons (y : float64) (l : list float64) :
  no_nan (y :: l) <-> y <> NaN /\ no_nan l.
Proof.
  unfold no_nan. cbn. split.
  - intros Hn. split; [intros ->; apply Hn; left; reflexivity|].
    intros Hin. apply Hn. right. assumption.
  - intros (Hy & Hl) [Heq|Hin]; [apply Hy; assumption|auto].
Qed.

Lemma no_nan_app (l1 l2 : list float64) :
  no_nan (l1 ++ l2) <-> no_nan l1 /\ no_nan l2.
Proof.
  unfold no_nan. split.
  - intros Hn. split; intros Hin; apply Hn, in_or_app; auto.
  - intros (H1 & H2) Hin. apply in_app_or in Hin. destruct Hin; auto.
Qed.

Lemma no_nan_nums (l : list Z) : no_nan (nums l).
Proof.
  unfold no_nan, nums. intros Hin. apply in_map_iff in Hin.
  destruct Hin as (z & Hz & _). discriminate.
Qed.

Lemma argmin_from_spec (l pre : list float64) (best : Z) (bi : nat) :
  nth_error pre bi = Some (Num best) ->
  no_nan pre ->
  (forall y, In (Num y) pre -> best <= y) ->
  (forall j y, (j < bi)%nat -> nth_error pre j = Some (Num y) -> best < y) ->
  let r := argmin_from best bi (length pre) l in
  exists v, nth_error (pre ++ l) r = Some v /\
    (no_nan l ->
     exists z, v = Num z /\
       (forall y, In (Num y) (pre ++ l) -> z <= y) /\
       (forall j y, (j < r)%nat -> nth_error (pre ++ l) j = Some (Num y) ->
                    z < y)) /\
    (In NaN l ->
     v = NaN /\ forall j, (j < r)%nat -> nth_error (pre ++ l) j <> Some NaN).
Proof.
  revert pre best bi.
  induction l as [|y l IH]; intros pre best bi Hbi Hnn Hmin Hfirst; cbn.
  - exists (Num best). rewrite app_nil_r. split; [assumption|]. split.
    + intros _. exists best. auto.
    + intros [].
  - assert (Hbound : (bi < length pre)%nat)
      by (apply nth_error_Some; congruence).
    destruct y as [y|].
    + assert (Hlen : length (pre ++ [Num y]) = S (length pre))
        by (rewrite length_app; cbn; lia).
      assert (Hnn' : no_nan (pre ++ [Num y])).
      { apply no_nan_app. split; [assumption|].
        intros [Heq|[]]. discriminate. }
      replace (pre ++ Num y :: l) with ((pre ++ [Num y]) ++ l)
        by (rewrite <- app_assoc; reflexivity).
      rewrite <- Hlen.
      assert (Hstep : forall best' bi',
        nth_error (pre ++ [Num y]) bi' = Some (Num best') ->
        (forall z, In (Num z) (pre ++ [Num y]) -> best' <= z) ->
        (forall j z, (j < bi')%nat ->
           nth_error (pre ++ [Num y]) j = Some (Num z) -> best' < z) ->
        exists v,
          nth_error ((pre ++ [Num y]) ++ l)
            (argmin_from best' bi' (length (pre ++ [Num y])) l) = Some v /\
          (no_nan (Num y :: l) ->
           exists z, v = Num z /\
             (forall y0, In (Num y0) ((pre ++ [Num y]) ++ l) -> z <= y0) /\
             (forall j y0,
                (j < argmin_from best' bi' (length (pre ++ [Num y])) l)%nat ->
                nth_error ((pre ++ [Num y]) ++ l) j = Some (Num y0) ->
                z < y0)) /\
          (Num y = NaN \/ In NaN l ->
           v = NaN /\
           forall j,
             (j < argmin_from best' bi' (length (pre ++ [Num y])) l)%nat ->
             nth_error ((pre ++ [Num y]) ++ l) j <> Some NaN)).
      { intros best' bi' H1 H2 H3.
        destruct (IH (pre ++ [Num y]) best' bi' H1 Hnn' H2 H3)
          as (v & Hv & Hnum & Hnan).
        exists v. split; [assumption|]. split.
        - intros Hl. apply no_nan_cons in Hl. apply Hnum. apply Hl.
        - intros [Heq|Hin]; [discriminate|]. apply Hnan. assumption. }
      destruct (Z.ltb_spec y best) as [Hlt|Hge].
      * apply Hstep.
        -- rewrite nth_error_app2 by lia. rewrite Nat.sub_diag. reflexivity.
        -- intros z Hz. apply in_app_or in Hz. destruct Hz as [Hz|[Hz|[]]].
           ++ specialize (Hmin z Hz). lia.
           ++ injection Hz as ->. lia.
        -- intros j z Hj Hz. rewrite nth_error_app1 in Hz by lia.
           assert (Hin : In (Num z) pre) by (eapply nth_error_In; eauto).
           specialize (Hmin z Hin). lia.
      * apply Hstep.
        -- rewrite nth_error_app1 by lia. assumption.
        -- intros z Hz. apply in_app_or in Hz. destruct Hz as [Hz|[Hz|[]]].
           ++ auto.
           ++ injection Hz as ->. lia.
        -- intros j z Hj Hz. rewrite nth_error_app1 in Hz by lia. eauto.
    + exists NaN. split.
      * rewrite nth_error_app2 by lia. rewrite Nat.sub_diag. reflexivity.
      * split.
        -- intros Hl. apply no_nan_cons in Hl. destruct Hl as [Hl _].
           contradiction.
        -- intros _. split; [reflexivity|].
           intros j Hj Hnth. rewrite nth_error_app1 in Hnth by lia.
           apply Hnn. eapply nth_error_In. eassumption.
Qed.

(** [np.argmin] returns the first index of the least element of an array
    of numbers, and the index of the first NaN of an array that holds
    one. *)
Lemma np_argmin_spec (l : list float64) (i : nat) :
  np_argmin l = Some i ->
  exists v, nth_error l i = Some v /\
    (no_nan l ->
     (forall y, In y l -> fle v y) /\
     (forall j y, (j < i)%nat -> nth_error l j = Some y -> flt v y)) /\
    (In NaN l ->
     v = NaN /\ forall j, (j < i)%nat -> nth_error l j <> Some NaN).
Proof.
  destruct l as [|[y|] l]; cbn [np_argmin]; [discriminate| |].
  - intros Hi. injection Hi as <-.
    destruct (argmin_from_spec l [Num y] y 0) as (v & Hv & Hnum & Hnan).
    + reflexivity.
    + intros [Heq|[]]. discriminate.
    + intros z [Hz|[]]. injection Hz as ->. lia.
    + intros j z Hj. lia.
    + exists v. split; [exact Hv|]. split.
      * intros Hl. apply no_nan_cons in Hl. destruct Hl as [_ Hl].
        destruct (Hnum Hl) as (z & -> & Hmin & Hfirst).
        assert (Hnn : no_nan (Num y :: l))
          by (apply no_nan_cons; split; [discriminate|assumption]).
        split.
        -- intros [w|] Hw; [cbn; apply Hmin; exact Hw|].
           exfalso. apply Hnn. exact Hw.
        -- intros j [w|] Hj Hw; [cbn; eapply Hfirst; eassumption|].
           exfalso. apply Hnn. eapply nth_error_In. eassumption.
      * intros [Heq|Hin]; [discriminate|]. apply Hnan. exact Hin.
  - intros Hi. injection Hi as <-. exists NaN. split; [reflexivity|]. split.
    + intros Hl. exfalso. apply Hl. left. reflexivity.
    + intros _. split; [reflexivity|]. intros j Hj. lia.
Qed.

Lemma list_set_length {A} (i : nat) (v : A) (l r : list A) :
  list_set i v l = Some r -> length r = length l.
Proof.
  revert i r. induction l as [|a l IH]; intros [|i] r; cbn; try discriminate.
  - intros Hr. injection Hr as <-. reflexivity.
  - destruct (list_set i v l) eqn:Hs; [|discriminate].
    intros Hr. injection Hr as <-. cbn. f_equal. eauto.
Qed.

Lemma py_range_length (lo hi : Z) : length (py_range lo hi) = Z.to_nat (hi - lo).
Proof. unfold py_range. rewrite length_map, length_seq. reflexivity. Qed.

(** ** Running the monad inside a proof *)

(** Unfold the primitive operations in [H] and reduce the projections of
    states that are now explicit. *)
Ltac m_unfold H :=
  cbv beta iota zeta delta
    [M.bind M.ret M.raise M.attr M.assign M.call M.peek M.log M.expect
     M.or_raise time_time draw_uniform evaluate save divides np_append] in H;
  cbn [self env trace fst snd
       X Y time_func_eval time_optimization_overhead model_untrained
       incumbent incumbent_value time_start
       set_X set_Y set_time_func_eval set_time_optimization_overhead
       set_model_untrained set_incumbent set_incumbent_value set_time_start]
    in H.

(** Reduce the projections of explicit states and objects in the goal. *)
Ltac m_simpl :=
  cbn [self env trace fst snd
       X Y time_func_eval time_optimization_overhead model_untrained
       incumbent incumbent_value time_start
       set_X set_Y set_time_func_eval set_time_optimization_overhead
       set_model_untrained set_incumbent set_incumbent_value set_time_start].

(** One step: split on the innermost scrutinee that blocks [H]. *)
Ltac m_case H :=
  match type of H with
  | context [match ?x with _ => _ end] =>
      lazymatch x with
      | context [match _ with _ => _ end] => fail
      | _ => let Hx := fresh "Hx" in destruct x eqn:Hx
      end
  | context [if ?x then _ else _] =>
      lazymatch x with
      | context [match _ with _ => _ end] => fail
      | _ => let Hx := fresh "Hx" in destruct x eqn:Hx
      end
  end.

Ltac m_run H := m_unfold H; repeat (m_case H; m_unfold H; try discriminate H).

Section Blocks.
Context {E H : Type}.
Variable C : collaborators E H.
Variable cfg : config E.

(** An exception in the first pass of a loop ends the loop with it. *)
Lemma for_each_raise {A} (a : A) (l : list A)
    (body : A -> M.t (E:=E) (H:=H) unit) s e s' :
  body a s = (Raise e, s') -> for_each (a :: l) body s = (Raise e, s').
Proof. intros Ha. cbn. unfold M.bind. rewrite Ha. reflexivity. Qed.

(** The random start points: [n_restarts] draws, nothing else. *)
Lemma map_m_draw {A} (l : list A) s :
  exists ps e',
    map_m (fun _ => draw_uniform C) l s =
      (Ok ps, {| self := self s; env := e';
                 trace := trace s ++ map EvUniform ps |}) /\
    length ps = length l /\
    draws C (length l) (env s) = (ps, e').
Proof.
  revert s. induction l as [|a l IH]; intros s; cbn.
  - exists [], (env s). rewrite app_nil_r. destruct s; auto.
  - destruct (uniform C (env s)) as [p e1] eqn:Hu.
    destruct (IH {| self := self s; env := e1;
                    trace := trace s ++ [EvUniform p] |})
      as (ps & e' & Hps & Hlen & Hdraws).
    exists (p :: ps), e'.
    unfold M.bind at 1. unfold draw_uniform at 1, M.call. rewrite Hu.
    unfold M.bind, M.ret. rewrite Hps. cbn. cbn in Hdraws. rewrite Hdraws.
    rewrite <- app_assoc. auto.
Qed.

Lemma draw_startpoints_eq s :
  exists ps e',
    draw_startpoints C cfg s =
      (Ok ps, {| self := self s; env := e';
                 trace := trace s ++ map EvUniform ps |}) /\
    length ps = n_restarts cfg /\
    draws C (n_restarts cfg) (env s) = (ps, e').
Proof.
  unfold draw_startpoints.
  destruct (map_m_draw (seq 0 (n_restarts cfg)) s)
    as (ps & e' & Hps & Hlen & Hdraws).
  exists ps, e'. rewrite length_seq in Hlen, Hdraws. auto.
Qed.

Lemma list_set_app {A} (pre : list A) (z v : A) (post : list A) :
  list_set (length pre) v (pre ++ z :: post) = Some (pre ++ v :: post).
Proof.
  induction pre as [|a pre IH]; cbn; [reflexivity|]. rewrite IH. reflexivity.
Qed.

(** The loop over the start points calls the strategy and nothing else,
    and does not touch the object; it never ends with the task's or the
    model's exception. *)
Lemma local_searches_frame (f : point -> E -> option (point * float64) * E)
    (sps : list point) : forall i x_opt fval (s : state E H) r s',
  local_searches C f i sps x_opt fval s = (r, s') ->
  self s' = self s /\
  (exists tr, trace s' = trace s ++ tr /\ forallb is_strategy tr = true) /\
  r <> Raise EvaluationFailure /\ r <> Raise TrainingFailure.
Proof.
  induction sps as [|sp sps IH]; intros i x_opt fval s r s' Hrun;
    cbn [local_searches] in Hrun.
  - injection Hrun as <- <-. split; [reflexivity|]. split.
    + exists []. rewrite app_nil_r. auto.
    + split; discriminate.
  - m_unfold Hrun.
    destruct (f sp (env s)) as [[q|] e1]; m_unfold Hrun.
    + destruct (np_set_row (n_dims C) (fst q)) as [row|]; m_unfold Hrun.
      * destruct (list_set i row x_opt) as [x1|]; m_unfold Hrun.
        -- destruct (list_set i (snd q) fval) as [f1|]; m_unfold Hrun.
           ++ apply IH in Hrun. cbn [self trace] in Hrun.
              destruct Hrun as (Hself & (tr & Htr & Hall) & Hne).
              split; [assumption|]. split; [|assumption].
              exists (EvStrategy sp (Some q) :: tr).
              rewrite Htr, <- app_assoc. cbn. auto.
           ++ injection Hrun as <- <-. split; [reflexivity|]. split.
              ** exists [EvStrategy sp (Some q)]. auto.
              ** split; discriminate.
        -- injection Hrun as <- <-. split; [reflexivity|]. split.
           ++ exists [EvStrategy sp (Some q)]. auto.
           ++ split; discriminate.
      * injection Hrun as <- <-. split; [reflexivity|]. split.
        -- exists [EvStrategy sp (Some q)]. auto.
        -- split; discriminate.
    + injection Hrun as <- <-. split; [reflexivity|]. split.
      * exists [EvStrategy sp None]. auto.
      * split; discriminate.
Qed.

(** When the strategy raises, so does the loop, after that call. *)
Lemma local_searches_raise (f : point -> E -> option (point * float64) * E)
    (sps : list point) : forall i x_opt fval (s : state E H) s',
  local_searches C f i sps x_opt fval s = (Raise RecommendationFailure, s') ->
  fst (answers f sps (env s)) = None /\ snd (answers f sps (env s)) = env s'.
Proof.
  induction sps as [|sp sps IH]; intros i x_opt fval s s' Hrun;
    cbn [local_searches] in Hrun.
  - discriminate.
  - m_unfold Hrun. cbn [answers].
    destruct (f sp (env s)) as [[q|] e1]; m_unfold Hrun.
    + destruct (np_set_row (n_dims C) (fst q)) as [row|]; m_unfold Hrun;
        [|discriminate].
      destruct (list_set i row x_opt) as [x1|]; m_unfold Hrun;
        [|discriminate].
      destruct (list_set i (snd q) fval) as [f1|]; m_unfold Hrun;
        [|discriminate].
      apply IH in Hrun. cbn [env] in Hrun. destruct Hrun as (Hn & He).
      destruct (answers f sps e1) as [[rs|] e2]; cbn in Hn, He |- *;
        [discriminate|auto].
    + injection Hrun as <-. auto.
Qed.

(** A completed loop over the start points, on arrays that have one row
    left for each of them from index [i] on: the strategy was called on
    every start point in turn, each returned point was stored as a row of
    [x_opt] and each returned value as an entry of [fval]. *)
Lemma local_searches_ok (f : point -> E -> option (point * float64) * E)
    (sps : list point) :
  forall pre_x post_x pre_f post_f (s : state E H) x_opt' fval' s',
  length pre_f = length pre_x ->
  length post_x = length sps -> length post_f = length sps ->
  local_searches C f (length pre_x) sps (pre_x ++ post_x) (pre_f ++ post_f) s
    = (Ok (x_opt', fval'), s') ->
  exists res rows,
    answers f sps (env s) = (Some res, env s') /\
    length res = length sps /\
    map (fun q => np_set_row (n_dims C) (fst q)) res = map Some rows /\
    x_opt' = pre_x ++ rows /\ fval' = pre_f ++ map snd res /\
    self s' = self s /\
    trace s' = trace s ++
               map (fun q => EvStrategy (fst q) (Some (snd q))) (combine sps res).
Proof.
  induction sps as [|sp sps IH];
    intros pre_x post_x pre_f post_f s x_opt' fval' s' Hpf Hpx Hpo Hrun;
    cbn [local_searches] in Hrun.
  - destruct post_x; [|discriminate]. destruct post_f; [|discriminate].
    injection Hrun as <- <- <-. exists [], []. cbn.
    rewrite !app_nil_r. auto 10.
  - destruct post_x as [|zx post_x]; [discriminate|].
    destruct post_f as [|zf post_f]; [discriminate|].
    m_unfold Hrun. cbn [answers].
    destruct (f sp (env s)) as [[q|] e1]; m_unfold Hrun; [|discriminate].
    destruct (np_set_row (n_dims C) (fst q)) as [row|] eqn:Hrow;
      m_unfold Hrun; [|discriminate].
    rewrite list_set_app in Hrun. m_unfold Hrun.
    rewrite <- Hpf, list_set_app in Hrun. m_unfold Hrun.
    replace (pre_x ++ row :: post_x) with ((pre_x ++ [row]) ++ post_x) in Hrun
      by (rewrite <- app_assoc; reflexivity).
    replace (pre_f ++ snd q :: post_f) with ((pre_f ++ [snd q]) ++ post_f)
      in Hrun by (rewrite <- app_assoc; reflexivity).
    replace (S (length pre_f)) with (length (pre_x ++ [row])) in Hrun
      by (rewrite length_app, Hpf; cbn; lia).
    apply IH in Hrun.
    + destruct Hrun as (res & rows & Hans & Hlen & Hrows & -> & -> & Hself & Htr).
      cbn [env self trace] in Hans, Hself, Htr.
      exists (q :: res), (row :: rows). rewrite Hans. cbn.
      rewrite Hrow, Hrows, Hlen, <- !app_assoc. cbn.
      repeat split; try reflexivity; try assumption.
      rewrite Htr, <- app_assoc. reflexivity.
    + rewrite !length_app, Hpf. reflexivity.
    + cbn in Hpx. lia.
    + cbn in Hpo. lia.
Qed.

(** [best_observed] only reads. *)
Lemma best_observed_inv (s : state E H) r s' :
  best_observed s = (r, s') ->
  s' = s /\
  match r with
  | Ok (i, p) =>
      exists xs ys, X (self s) = Some xs /\ Y (self s) = Some ys /\
                    np_argmin ys = Some i /\ nth_error xs i = Some p
  | Raise e => e <> EvaluationFailure /\ e <> TrainingFailure
  end.
Proof.
  unfold best_observed. intros Hrun. m_run Hrun;
    injection Hrun as <- <-; (split; [reflexivity|]);
    try (split; discriminate).
  eauto 10.
Qed.

End Blocks.

(** ** The steps of one iteration *)

Section Steps.
Context {E H : Type}.
Variable C : collaborators E H.
Variable cfg : config E.

(** With a history, [choose_next] fits the model, updates the acquisition
    function and returns what the maximizer returns. *)
Lemma choose_next_some xs ys b (s : state E H) :
  choose_next C cfg (Some xs) (Some ys) b s =
  match model_train C xs ys b (env s) with
  | (Some u, e1) =>
      let e2 := acquisition_update C e1 in
      let (x, e3) := maximize C e2 in
      (Ok x, {| self := set_model_untrained false (self s); env := e3;
                trace := trace s ++
                  choose_next_trace xs ys b u x
                    (now C e1 - now C (env s)) (now C e3 - now C e2) |})
  | (None, e1) =>
      (Raise TrainingFailure,
       {| self := self s; env := e1;
          trace := trace s ++ [EvLog MsgTrainModel; EvTrain xs ys b None;
                               EvLog MsgNotTrained] |})
  end.
Proof.
  unfold choose_next, choose_next_trace.
  cbv beta iota zeta delta
    [M.bind M.ret M.raise M.attr M.assign M.call M.peek M.log time_time].
  cbn [self env trace].
  destruct (model_train C xs ys b (env s)) as [[u|] e1]; cbn [self env trace].
  - destruct (maximize C (acquisition_update C e1)) as [x e3].
    cbn [self env trace]. repeat rewrite <- app_assoc. reflexivity.
  - repeat rewrite <- app_assoc. reflexivity.
Qed.

(** The recommendation step assigns [incumbent] and [incumbent_value] only,
    and never ends with the task's or the model's exception. *)
Lemma recommend_frame (s : state E H) r s' :
  recommend C cfg s = (r, s') ->
  X (self s') = X (self s) /\ Y (self s') = Y (self s) /\
  time_func_eval (self s') = time_func_eval (self s) /\
  time_optimization_overhead (self s') = time_optimization_overhead (self s) /\
  model_untrained (self s') = model_untrained (self s) /\
  r <> Raise EvaluationFailure /\
  (r = Ok tt -> incumbent_value (self s') <> None).
Proof.
  unfold recommend. intros Hrun.
  destruct (recommendation_strategy cfg) as [[|f]|].
  - (* posterior mean and std *)
    unfold M.bind at 1, M.log in Hrun. unfold M.bind at 1 in Hrun.
    match type of Hrun with context [draw_startpoints C cfg ?s0] =>
      destruct (draw_startpoints_eq C cfg s0) as (ps & e1 & Hd & _) end.
    rewrite Hd in Hrun. unfold M.bind at 1 in Hrun.
    match type of Hrun with context [best_observed ?s0] =>
      destruct (best_observed s0) as [[[i p]|e] s1] eqn:Hb end;
      apply best_observed_inv in Hb; destruct Hb as (-> & Hb).
    + m_run Hrun; injection Hrun as <- <-; m_simpl;
        repeat split; try discriminate; try assumption.
    + injection Hrun as <- <-. cbn. repeat split; try discriminate.
      intros Heq; injection Heq as ->. tauto.
  - (* another strategy *)
    unfold M.bind at 1 in Hrun.
    destruct (draw_startpoints_eq C cfg s) as (ps & e1 & Hd & _).
    rewrite Hd in Hrun. cbv zeta in Hrun. unfold M.bind at 1 in Hrun.
    match type of Hrun with context [local_searches C f 0 ps ?xo ?fv ?s0] =>
      destruct (local_searches C f 0 ps xo fv s0) as [[arrays|e] s1] eqn:Hm
    end; apply local_searches_frame in Hm; cbn [self] in Hm;
      destruct Hm as (Hself & _ & Hne & _).
    + m_run Hrun; injection Hrun as <- <-; m_simpl; rewrite ?Hself;
        repeat split; try discriminate.
    + injection Hrun as <- <-.
      rewrite Hself. repeat split; try discriminate.
      intros Heq. injection Heq as ->. apply Hne. reflexivity.
  - (* best observed *)
    unfold M.bind at 1, M.log in Hrun. unfold M.bind at 1 in Hrun.
    match type of Hrun with context [best_observed ?s0] =>
      destruct (best_observed s0) as [[[i p]|e] s1] eqn:Hb end;
      apply best_observed_inv in Hb; destruct Hb as (-> & Hb).
    + m_run Hrun; injection Hrun as <- <-; m_simpl;
        repeat split; try discriminate; try assumption.
    + injection Hrun as <- <-. cbn. repeat split; try discriminate.
      intros Heq; injection Heq as ->. tauto.
Qed.


(** Policy A: the first least entry of [Y] and the row of [X] at its index. *)
Lemma recommend_A_ok (s s' : state E H) :
  recommendation_strategy cfg = None ->
  recommend C cfg s = (Ok tt, s') ->
  exists xs ys i p v,
    X (self s) = Some xs /\ Y (self s) = Some ys /\
    np_argmin ys = Some i /\ nth_error xs i = Some p /\ nth_error ys i = Some v /\
    s' = {| self := set_incumbent_value (Some v) (set_incumbent (Some p) (self s));
            env := env s; trace := trace s ++ [EvLog MsgBestSeen] |}.
Proof.
  unfold recommend. intros -> Hrun.
  unfold M.bind at 1, M.log in Hrun. unfold M.bind at 1 in Hrun.
  match type of Hrun with context [best_observed ?s0] =>
    destruct (best_observed s0) as [[[i p]|e] s1] eqn:Hb end;
    apply best_observed_inv in Hb; destruct Hb as (-> & Hb);
    [|discriminate].
  cbn [self] in Hb. destruct Hb as (xs & ys & HX & HY & Hi & Hp).
  m_unfold Hrun. rewrite HY in Hrun.
  m_run Hrun. injection Hrun as <-. eauto 12.
Qed.

(** Policy B: one call, on the random start points followed by the best
    observed point, with gradients; what the optimizer returns becomes the
    incumbent. *)
Lemma recommend_B_ok (s s' : state E H) :
  recommendation_strategy cfg = Some PosteriorMeanAndStd ->
  recommend C cfg s = (Ok tt, s') ->
  exists randoms xs ys i best q e1,
    length randoms = n_restarts cfg /\
    X (self s) = Some xs /\ Y (self s) = Some ys /\
    np_argmin ys = Some i /\ nth_error xs i = Some best /\
    trace s' = trace s ++ [EvLog MsgOptimizePosterior] ++ map EvUniform randoms
                 ++ [EvPosterior (randoms ++ [best]) true (Some q)] /\
    incumbent (self s') = Some (fst q) /\
    incumbent_value (self s') = Some (snd q) /\
    draws C (n_restarts cfg) (env s) = (randoms, e1) /\
    optimize_posterior_mean_and_std C (randoms ++ [best]) true e1
      = (Some q, env s').
Proof.
  unfold recommend. intros -> Hrun.
  unfold M.bind at 1, M.log in Hrun. unfold M.bind at 1 in Hrun.
  match type of Hrun with context [draw_startpoints C cfg ?s0] =>
    destruct (draw_startpoints_eq C cfg s0) as (ps & e1 & Hd & Hlen & Hdraws)
  end.
  cbn [env] in Hdraws.
  rewrite Hd in Hrun. unfold M.bind at 1 in Hrun.
  match type of Hrun with context [best_observed ?s0] =>
    destruct (best_observed s0) as [[[i p]|e] s1] eqn:Hb end;
    apply best_observed_inv in Hb; destruct Hb as (-> & Hb);
    [|discriminate].
  cbn [self] in Hb. destruct Hb as (xs & ys & HX & HY & Hi & Hp).
  m_unfold Hrun.
  destruct (optimize_posterior_mean_and_std C (ps ++ [p]) true e1)
    as [[q|] e2] eqn:Hpost; m_unfold Hrun; [|discriminate].
  injection Hrun as <-. cbn.
  exists ps, xs, ys, i, p, q, e1. repeat split; auto.
  repeat rewrite <- app_assoc. reflexivity.
Qed.

(** Policy C: one call per random start point; the returned points are
    stored as rows and the returned values as entries of arrays, and the
    incumbent is the row and the entry at [np.argmin] of the values. *)
Lemma recommend_C_ok f (s s' : state E H) :
  recommendation_strategy cfg = Some (OtherStrategy f) ->
  recommend C cfg s = (Ok tt, s') ->
  exists randoms res rows best p v e1,
    length randoms = n_restarts cfg /\ length res = n_restarts cfg /\
    trace s' = trace s ++ map EvUniform randoms
                 ++ map (fun q => EvStrategy (fst q) (Some (snd q)))
                        (combine randoms res) /\
    np_argmin (map snd res) = Some best /\
    nth_error rows best = Some p /\ nth_error (map snd res) best = Some v /\
    incumbent (self s') = Some p /\ incumbent_value (self s') = Some v /\
    map (fun q => np_set_row (n_dims C) (fst q)) res = map Some rows /\
    draws C (n_restarts cfg) (env s) = (randoms, e1) /\
    answers f randoms e1 = (Some res, env s').
Proof.
  unfold recommend. intros -> Hrun.
  unfold M.bind at 1 in Hrun.
  destruct (draw_startpoints_eq C cfg s) as (ps & e1 & Hd & Hlen & Hdraws).
  rewrite Hd in Hrun. cbv zeta in Hrun. unfold M.bind at 1 in Hrun.
  match type of Hrun with context [local_searches C f 0 ps ?xo ?fv ?s0] =>
    destruct (local_searches C f 0 ps xo fv s0) as [[[x_opt fval]|e] s1] eqn:Hm
  end; [|discriminate].
  apply (local_searches_ok C f ps [] _ [] _) in Hm;
    [|reflexivity|apply repeat_length|apply repeat_length].
  destruct Hm as (res & rows & Hans & Hres & Hrows & -> & -> & Hself & Htrace).
  cbn [env self trace app] in Hans, Hself, Htrace.
  cbn [fst snd app] in Hrun.
  m_unfold Hrun.
  destruct (np_argmin (map snd res)) as [best|] eqn:Hbest; m_unfold Hrun;
    [|discriminate].
  destruct (nth_error rows best) as [p|] eqn:Hp; m_unfold Hrun;
    [|discriminate].
  destruct (nth_error (map snd res) best) as [v|] eqn:Hv; m_unfold Hrun;
    [|discriminate].
  injection Hrun as <-. m_simpl.
  exists ps, res, rows, best, p, v, e1.
  repeat split; auto; try congruence.
  rewrite Htrace, <- app_assoc. reflexivity.
Qed.

End Steps.

(** ** One iteration *)

Section Iteration.
Context {E H : Type}.
Variable C : collaborators E H.
Variable cfg : config E.

(** A checkpoint leaves the object alone; it calls the acquisition function
    and the writer, or nothing. *)
Lemma checkpoint_inv it x (s : state E H) r s' :
  checkpoint C cfg it x s = (r, s') ->
  self s' = self s /\ r <> Raise EvaluationFailure /\
  exists tr, trace s' = trace s ++ tr /\
    (tr = [] \/
     exists a, tr = [EvAcquisition x a;
                     EvSave it (Some (model_hypers C (env s))) a]).
Proof.
  unfold checkpoint. intros Hrun.
  m_run Hrun; injection Hrun as <- <-; m_simpl;
    (split; [reflexivity|]); (split; [discriminate|]).
  2: { eexists. split; [rewrite <- app_assoc; reflexivity|]. right. eexists. reflexivity. }
  all: exists []; rewrite app_nil_r; split; [reflexivity|left; reflexivity].
Qed.

(** The anatomy of an iteration that completes. *)
Lemma iteration_ok_inv it (s s' : state E H) :
  iteration C cfg it s = (Ok tt, s') ->
  exists new_x s1 s2 xs ys ovh tfe new_y e3 v y00 s3,
    choose_next C cfg (X (self s)) (Y (self s))
      (it mod train_intervall cfg =? 0)
      {| self := self s; env := env s;
         trace := trace s ++ [EvLog (MsgStartIteration it)] |} = (Ok new_x, s1) /\
    recommend C cfg s1 = (Ok tt, s2) /\
    X (self s1) = Some xs /\ Y (self s1) = Some ys /\
    time_optimization_overhead (self s1) = Some ovh /\
    time_func_eval (self s1) = Some tfe /\
    incumbent_value (self s2) = Some v /\
    task_evaluate C new_x (env s2) = (Some new_y, e3) /\
    nth_error new_y 0 = Some y00 /\
    s3 = {| self :=
              set_Y (Some (ys ++ new_y))
                (set_X (Some (xs ++ new_x))
                   (set_time_func_eval
                      (Some (tfe ++ [now C e3 - now C (env s2)]))
                      (set_time_optimization_overhead
                         (Some (ovh ++ [now C (env s2) - now C (env s)]))
                         (self s2))));
            env := e3;
            trace := trace s2 ++
              evaluation_trace (incumbent (self s2))
                (now C (env s2) - now C (env s1)) v
                (now C (env s2) - now C (env s)) new_x new_y y00
                (now C e3 - now C (env s2)) |} /\
    checkpoint C cfg it new_x s3 = (Ok tt, s').
Proof.
  unfold iteration. intros Hrun. m_unfold Hrun.
  destruct (train_intervall cfg =? 0); [discriminate|]. m_unfold Hrun.
  match type of Hrun with context [choose_next C cfg ?a ?b ?c ?s0] =>
    destruct (choose_next C cfg a b c s0) as [[new_x|e] s1] eqn:Hcn end;
    [|discriminate].
  m_unfold Hrun.
  destruct (recommend C cfg s1) as [[[]|e] s2] eqn:Hrec; [|discriminate].
  destruct (recommend_frame C cfg s1 _ s2 Hrec) as (HX & HY & Htfe & Hovh & _).
  destruct (incumbent_value (self s2)) as [v|] eqn:Hv;
    m_unfold Hrun; [|discriminate Hrun].
  rewrite ?Hovh in Hrun.
  destruct (time_optimization_overhead (self s1)) as [ovh|] eqn:Ho;
    m_unfold Hrun; [|discriminate Hrun].
  destruct (task_evaluate C new_x (env s2)) as [[new_y|] e3] eqn:Hev;
    m_unfold Hrun; [|discriminate Hrun].
  rewrite ?Htfe in Hrun.
  destruct (time_func_eval (self s1)) as [tfe|] eqn:Ht;
    m_unfold Hrun; [|discriminate Hrun].
  destruct (nth_error new_y 0) as [y00|] eqn:Hy;
    m_unfold Hrun; [|discriminate Hrun].
  rewrite ?HX in Hrun.
  destruct (X (self s1)) as [xs|] eqn:HXs;
    m_unfold Hrun; [|discriminate Hrun].
  rewrite ?HY in Hrun.
  destruct (Y (self s1)) as [ys|] eqn:HYs;
    m_unfold Hrun; [|discriminate Hrun].
  rewrite !last_last in Hrun.
  exists new_x, s1, s2, xs, ys, ovh, tfe, new_y, e3, v, y00.
  eexists. repeat (split; [reflexivity || eassumption|]).
  rewrite <- Hrun. do 2 f_equal. unfold evaluation_trace.
  rewrite <- !app_assoc. reflexivity.
Qed.

End Iteration.

Lemma filter_none {A} (p q : A -> bool) (l : list A) :
  (forall a, p a = true -> q a = false) ->
  forallb p l = true -> filter q l = [].
Proof.
  intros Hpq. induction l as [|a l IH]; cbn; [reflexivity|].
  intros Hl. apply andb_prop in Hl. destruct Hl as [Ha Hl].
  rewrite (Hpq a Ha). auto.
Qed.

Lemma forallb_map_const {A B} (p : B -> bool) (f : A -> B) (l : list A) :
  (forall a, p (f a) = true) -> forallb p (map f l) = true.
Proof.
  intros Hp. induction l as [|a l IH]; cbn; [reflexivity|].
  rewrite Hp, IH. reflexivity.
Qed.

Section History.
Context {E H : Type}.
Variable C : collaborators E H.
Variable cfg : config E.

(** A completed recommendation step issues only draws, strategy calls and
    log messages. *)
Lemma recommend_ok_events (s s' : state E H) :
  recommend C cfg s = (Ok tt, s') ->
  exists tr, trace s' = trace s ++ tr /\ forallb is_recommendation tr = true.
Proof.
  intros Hrun. destruct (recommendation_strategy cfg) as [[|f]|] eqn:Hpol.
  - destruct (recommend_B_ok C cfg s s' Hpol Hrun)
      as (rs & xs & ys & i & best & q & e1 & _ & _ & _ & _ & _ & Htr & _).
    eexists. split; [exact Htr|].
    cbn. rewrite forallb_app, forallb_map_const by reflexivity. reflexivity.
  - destruct (recommend_C_ok C cfg f s s' Hpol Hrun)
      as (rs & res & rows & best & p & v & e1 & _ & _ & Htr & _).
    eexists. split; [exact Htr|].
    rewrite forallb_app, !forallb_map_const by reflexivity. reflexivity.
  - destruct (recommend_A_ok C cfg s s' Hpol Hrun)
      as (xs & ys & i & p & v & _ & _ & _ & _ & _ & ->).
    eexists. split; [reflexivity|]. reflexivity.
Qed.

(** A completed iteration on an existing history: the model is fitted to
    the history, the maximizer's answer [new_x] is what the task evaluates,
    and [new_x] and the answer [new_y] are appended. *)
Lemma iteration_ok_history it (s s' : state E H) xs ys :
  X (self s) = Some xs -> Y (self s) = Some ys ->
  iteration C cfg it s = (Ok tt, s') ->
  exists new_x new_y s1 s2 e3 tr,
    fst (maximize C (acquisition_update C
          (snd (model_train C xs ys (it mod train_intervall cfg =? 0) (env s)))))
      = new_x /\
    snd (maximize C (acquisition_update C
          (snd (model_train C xs ys (it mod train_intervall cfg =? 0) (env s)))))
      = env s1 /\
    self s1 = set_model_untrained false (self s) /\
    recommend C cfg s1 = (Ok tt, s2) /\
    task_evaluate C new_x (env s2) = (Some new_y, e3) /\
    new_y <> [] /\
    X (self s') = Some (xs ++ new_x) /\ Y (self s') = Some (ys ++ new_y) /\
    time_func_eval (self s') =
      option_map (fun l => l ++ [now C e3 - now C (env s2)])
                 (time_func_eval (self s)) /\
    time_optimization_overhead (self s') =
      option_map (fun l => l ++ [now C (env s2) - now C (env s)])
                 (time_optimization_overhead (self s)) /\
    incumbent (self s') = incumbent (self s2) /\
    incumbent_value (self s') = incumbent_value (self s2) /\
    trace s' = trace s ++ tr /\
    filter is_maximize tr = [EvMaximize new_x] /\
    filter is_evaluate tr = [EvEvaluate new_x (Some new_y)].
Proof.
  intros HX HY Hrun.
  destruct (iteration_ok_inv C cfg it s s' Hrun)
    as (new_x & s1 & s2 & xs1 & ys1 & ovh & tfe & new_y & e3 & v & y00 & s3
        & Hcn & Hrec & HX1 & HY1 & Hovh & Htfe & Hv & Hev & Hy00 & Hs3 & Hck).
  rewrite HX, HY, choose_next_some in Hcn. cbn [env self trace] in Hcn.
  destruct (model_train C xs ys (it mod train_intervall cfg =? 0) (env s))
    as [[u|] e1] eqn:Htrain; [|discriminate].
  cbn zeta in Hcn.
  destruct (maximize C (acquisition_update C e1)) as [x e2] eqn:Hmax.
  injection Hcn as -> <-. cbn [self env trace] in *.
  m_simpl. cbn [X Y time_func_eval time_optimization_overhead
                set_model_untrained] in HX1, HY1, Hovh, Htfe.
  rewrite HX in HX1. injection HX1 as <-.
  rewrite HY in HY1. injection HY1 as <-.
  destruct (recommend_ok_events _ _ Hrec) as (trec & Htrec & Hall).
  destruct (checkpoint_inv C cfg it new_x s3 _ s' Hck) as (Hself & _ & tck & Htck & Hcases).
  subst s3. cbn [self env trace] in *.
  exists new_x, new_y, 
    {| self := set_model_untrained false (self s); env := e2;
       trace := (trace s ++ [EvLog (MsgStartIteration it)]) ++
                choose_next_trace xs ys (it mod train_intervall cfg =? 0) u new_x
                  (now C e1 - now C (env s))
                  (now C e2 - now C (acquisition_update C e1)) |},
    s2, e3.
  eexists. rewrite Hmax. cbn [fst snd self env trace].
  rewrite Hself, Hovh, Htfe. m_simpl.
  repeat (split; [reflexivity || eassumption|]).
  split; [destruct new_y; [discriminate Hy00|discriminate]|].
  repeat (split; [reflexivity|]).
  split; [|split].
  - rewrite Htck, Htrec. cbn [trace]. rewrite <- !app_assoc. reflexivity.
  - assert (Hnomax : filter is_maximize trec = [])
      by (apply (filter_none is_recommendation);
          [intros []; cbn; congruence | assumption]).
    assert (Hck1 : filter is_maximize tck = [])
      by (destruct Hcases as [->|(a & ->)]; reflexivity).
    rewrite !filter_app, Hnomax, Hck1. reflexivity.
  - assert (Hnoev : filter is_evaluate trec = [])
      by (apply (filter_none is_recommendation);
          [intros []; cbn; congruence | assumption]).
    assert (Hck2 : filter is_evaluate tck = [])
      by (destruct Hcases as [->|(a & ->)]; reflexivity).
    rewrite !filter_app, Hnoev, Hck2. reflexivity.
Qed.

End History.

(** ** Initialization *)

Section Seeding.
Context {E H : Type}.
Variable C : collaborators E H.
Variable cfg : config E.

(** The seed checkpoint leaves the object alone. *)
Lemma seed_checkpoint_inv i (s : state E H) r s' :
  seed_checkpoint C cfg i s = (r, s') ->
  self s' = self s /\
  exists tr, trace s' = trace s ++ tr /\
             (tr = [] \/ tr = [EvSave (Z.of_nat i) None 0]) /\
             (r = Ok tt -> save_dir cfg <> None -> tr = [EvSave (Z.of_nat i) None 0]).
Proof.
  unfold seed_checkpoint, divides. rewrite Zmod_0_l. cbn [Z.eqb]. intros Hrun.
  m_run Hrun; injection Hrun as <- <-; m_simpl; (split; [reflexivity|]).
  - exists []. rewrite app_nil_r. split; [reflexivity|].
    split; [left; reflexivity|]. discriminate.
  - eexists. split; [reflexivity|].
    split; [right; reflexivity|]. reflexivity.
  - exists []. rewrite app_nil_r. split; [reflexivity|].
    split; [left; reflexivity|]. congruence.
Qed.

(** The anatomy of a seed iteration that completes. *)
Lemma init_body_ok i (s s' : state E H) xs ys tfe ovh :
  X (self s) = Some xs -> Y (self s) = Some ys ->
  time_func_eval (self s) = Some tfe ->
  time_optimization_overhead (self s) = Some ovh ->
  init_body C cfg i s = (Ok tt, s') ->
  exists p e1 y e2 tfe' ovh' xs' ys' bi inc v yi ti s2,
    uniform C (env s) = (p, e1) /\
    task_evaluate C [p] e1 = (Some y, e2) /\
    list_set i (now C e1 - now C (env s)) ovh = Some ovh' /\
    list_set i (now C e2 - now C e1) tfe = Some tfe' /\
    (if Nat.eqb i 0
     then (list_set i p xs = Some xs' /\
           exists y0, nth_error y 0 = Some y0 /\ list_set i y0 ys = Some ys')
     else (xs' = xs ++ [p] /\ ys' = ys ++ y)) /\
    nth_error ys' i = Some yi /\ nth_error tfe' i = Some ti /\
    np_argmin ys' = Some bi /\
    nth_error xs' bi = Some inc /\ nth_error ys' bi = Some v /\
    s2 = {| self :=
              set_incumbent_value (Some v)
                (set_incumbent (Some inc)
                   (set_Y (Some ys')
                      (set_X (Some xs')
                         (set_time_func_eval (Some tfe')
                            (set_time_optimization_overhead (Some ovh')
                               (self s))))));
            env := e2;
            trace := trace s ++
                     [EvUniform p; EvEvaluate [p] (Some y);
                      EvLog (MsgPerformance yi); EvLog (MsgEvalTime ti)] |} /\
    seed_checkpoint C cfg i s2 = (Ok tt, s').
Proof.
  intros HX HY Htfe Hovh Hrun. unfold init_body in Hrun.
  m_unfold Hrun. rewrite ?HX, ?HY, ?Htfe, ?Hovh in Hrun.
  repeat (m_case Hrun; m_unfold Hrun; try discriminate Hrun;
          rewrite ?HX, ?HY, ?Htfe, ?Hovh in Hrun).
  all: do 14 eexists;
    repeat (split; [reflexivity || eassumption || eauto|]);
    rewrite <- Hrun; do 2 f_equal; rewrite <- !app_assoc; reflexivity.
Qed.

End Seeding.

Section SeedingLoop.
Context {E H : Type}.
Variable C : collaborators E H.
Variable cfg : config E.

Lemma lengths_some (o : solver) a b c d :
  lengths o = Some (a, b, c, d) ->
  exists xs ys tfe ovh,
    X o = Some xs /\ Y o = Some ys /\ time_func_eval o = Some tfe /\
    time_optimization_overhead o = Some ovh /\
    length xs = a /\ length ys = b /\ length tfe = c /\ length ovh = d.
Proof.
  unfold lengths.
  destruct (X o) as [xs|], (Y o) as [ys|], (time_func_eval o) as [tfe|],
    (time_optimization_overhead o) as [ovh|]; try discriminate.
  intros Hl. injection Hl as <- <- <- <-. eauto 12.
Qed.

(** A seed iteration: one draw, one evaluation, two log messages and the
    checkpoint, if any; [X] keeps its length in the first pass and grows by
    one row afterwards, and so does [Y] when the task answers with one
    value per point; the timing series keep their length. *)
Lemma init_body_effect i (s s' : state E H) a b c d :
  lengths (self s) = Some (a, b, c, d) ->
  init_body C cfg i s = (Ok tt, s') ->
  exists p y yi ti tck b',
    trace s' = trace s ++
               [EvUniform p; EvEvaluate [p] (Some y);
                EvLog (MsgPerformance yi); EvLog (MsgEvalTime ti)] ++ tck /\
    (save_dir cfg <> None -> tck = [EvSave (Z.of_nat i) None 0]) /\
    (save_dir cfg = None -> tck = []) /\
    lengths (self s') = Some (if Nat.eqb i 0 then a else S a, b', c, d) /\
    (one_value_per_point C -> b' = if Nat.eqb i 0 then b else S b).
Proof.
  intros Hlen Hrun.
  destruct (lengths_some _ _ _ _ _ Hlen)
    as (xs & ys & tfe & ovh & HX & HY & Htfe & Hovh & Lx & Ly & Lt & Lo).
  destruct (init_body_ok C cfg i s s' xs ys tfe ovh HX HY Htfe Hovh Hrun)
    as (p & e1 & y & e2 & tfe' & ovh' & xs' & ys' & bi & inc & v & yi & ti & s2
        & Hu & Hev & Ho' & Ht' & Hxy & _ & _ & _ & _ & _ & Hs2 & Hck).
  destruct (seed_checkpoint_inv C cfg i s2 _ s' Hck)
    as (Hself & tck & Htr & Hcases & Hsave).
  subst s2. cbn [self env trace] in *.
  exists p, y, yi, ti, tck, (length ys').
  split; [rewrite Htr, <- app_assoc; reflexivity|].
  split; [intros Hdir; apply Hsave; auto|].
  split.
  - intros Hdir. destruct Hcases as [->| ->]; [reflexivity|].
    exfalso. unfold seed_checkpoint in Hck. rewrite Hdir in Hck.
    unfold M.ret in Hck. injection Hck as Hck.
    apply (f_equal (@trace E H)) in Hck. cbn [trace] in Hck.
    rewrite Htr in Hck.
    apply (f_equal (@length _)) in Hck. rewrite !length_app in Hck.
    cbn in Hck. lia.
  - apply list_set_length in Ho', Ht'.
    rewrite Hself. unfold lengths. m_simpl.
    destruct i as [|i]; cbn [Nat.eqb] in *.
    + destruct Hxy as (Hxs' & y0 & _ & Hys').
      apply list_set_length in Hxs', Hys'.
      split; [repeat f_equal; lia|]. intros _. lia.
    + destruct Hxy as (-> & ->). rewrite !length_app. cbn [length].
      split; [repeat f_equal; lia|]. intros Hone.
      rewrite (Hone _ _ _ _ Hev). cbn. lia.
Qed.

(** The loop of [initialize] from seed [i] on. *)
Lemma init_loop_effect k : forall i n b (s s' : state E H),
  lengths (self s) = Some (Nat.max 1 i, b, n, n) ->
  for_each (seq i k) (init_body C cfg) s = (Ok tt, s') ->
  exists tr b',
    trace s' = trace s ++ tr /\
    filter is_maximize tr = [] /\
    (save_dir cfg <> None ->
     filter is_save tr = map (fun j => EvSave (Z.of_nat j) None 0) (seq i k)) /\
    (save_dir cfg = None -> filter is_save tr = []) /\
    lengths (self s') = Some (Nat.max 1 (i + k), b', n, n) /\
    (one_value_per_point C -> b = Nat.max 1 i -> b' = Nat.max 1 (i + k)).
Proof.
  induction k as [|k IH]; intros i n b s s' Hlen Hrun; cbn in Hrun.
  - injection Hrun as <-. exists [], b. rewrite app_nil_r, Nat.add_0_r.
    cbn. auto 10.
  - unfold M.bind in Hrun.
    destruct (init_body C cfg i s) as [[[]|e] s1] eqn:Hbody; [|discriminate].
    destruct (init_body_effect i s s1 _ _ _ _ Hlen Hbody)
      as (p & y & yi & ti & tck & b1 & Htr1 & Hsv1 & Hns1 & Hl1 & Hb1).
    assert (Hl1' : lengths (self s1) = Some (Nat.max 1 (S i), b1, n, n)).
    { rewrite Hl1. destruct i; reflexivity. }
    destruct (IH (S i) n b1 s1 s' Hl1' Hrun)
      as (tr2 & b2 & Htr2 & Hmax2 & Hsv2 & Hns2 & Hl2 & Hb2).
    eexists. exists b2. rewrite Htr2, Htr1, <- app_assoc.
    split; [reflexivity|].
    rewrite !filter_app, Hmax2.
    split; [|split; [|split; [|split]]].
    + destruct (save_dir cfg); [rewrite Hsv1 by discriminate|rewrite Hns1];
        reflexivity.
    + intros Hdir. rewrite (Hsv1 Hdir), (Hsv2 Hdir). reflexivity.
    + intros Hdir. rewrite (Hns1 Hdir), (Hns2 Hdir). reflexivity.
    + rewrite Hl2. replace (S i + k)%nat with (i + S k)%nat by lia.
      reflexivity.
    + intros Hone Hb. replace (i + S k)%nat with (S i + k)%nat by lia.
      apply Hb2; [assumption|]. rewrite (Hb1 Hone), Hb.
      destruct i; reflexivity.
Qed.

(** [initialize(n)] when it completes: no call of the maximizer, one
    checkpoint per seed if a directory is configured, [X] of length [n]
    (for [n] at least 1) and timing series of length [n]; [Y] has the
    length of [X] when the task answers with one value per point. *)
Lemma initialize_effect n (s s' : state E H) :
  initialize C cfg n s = (Ok tt, s') ->
  exists tr b,
    trace s' = trace s ++ tr /\
    filter is_maximize tr = [] /\
    (save_dir cfg <> None ->
     filter is_save tr = map (fun j => EvSave (Z.of_nat j) None 0) (seq 0 n)) /\
    (save_dir cfg = None -> filter is_save tr = []) /\
    lengths (self s') = Some (Nat.max 1 n, b, n, n) /\
    (one_value_per_point C -> b = Nat.max 1 n).
Proof.
  intros Hrun. unfold initialize, init_arrays in Hrun.
  m_unfold Hrun.
  match type of Hrun with for_each _ _ ?s0 = _ =>
    destruct (init_loop_effect n 0 n 1 s0 s')
      as (tr & b & Htr & Hmax & Hsv & Hns & Hl & Hb); [|assumption|] end.
  - unfold lengths, np_zeros. m_simpl. rewrite !repeat_length. reflexivity.
  - exists tr, b. cbn [trace] in Htr. auto 10.
Qed.

End SeedingLoop.

(** ** The main loop *)

Section MainLoop.
Context {E H : Type}.
Variable C : collaborators E H.
Variable cfg : config E.

(** Any number of completed iterations on an existing history: the history
    is extended at its end by the maximizer's answers and the task's
    values, and each timing series by one entry per iteration. *)
Lemma main_loop_effect (l : list Z) : forall (s s' : state E H) xs ys,
  X (self s) = Some xs -> Y (self s) = Some ys ->
  for_each l (iteration C cfg) s = (Ok tt, s') ->
  exists xs' ys' dts dos tr,
    X (self s') = Some (xs ++ xs') /\ Y (self s') = Some (ys ++ ys') /\
    time_func_eval (self s') =
      option_map (fun a => a ++ dts) (time_func_eval (self s)) /\
    time_optimization_overhead (self s') =
      option_map (fun a => a ++ dos) (time_optimization_overhead (self s)) /\
    length dts = length l /\ length dos = length l /\
    trace s' = trace s ++ tr /\
    length (filter is_maximize tr) = length l /\
    concat (map event_points (filter is_maximize tr)) = xs' /\
    concat (map event_points (filter is_evaluate tr)) = xs' /\
    (one_candidate C -> length xs' = length l) /\
    (one_candidate C -> one_value_per_point C -> length ys' = length l).
Proof.
  induction l as [|it l IH]; intros s s' xs ys HX HY Hrun; cbn in Hrun.
  - injection Hrun as <-. exists [], [], [], [], [].
    rewrite !app_nil_r. cbn.
    destruct (time_func_eval (self s)), (time_optimization_overhead (self s));
      cbn; rewrite ?app_nil_r; auto 15.
  - unfold M.bind in Hrun.
    destruct (iteration C cfg it s) as [[[]|e] s1] eqn:Hit; [|discriminate].
    destruct (iteration_ok_history C cfg it s s1 xs ys HX HY Hit)
      as (new_x & new_y & sa & sb & e3 & tr1 & Hmax & _ & _ & _ & Hev & _
          & HX1 & HY1 & Ht1 & Ho1 & _ & _ & Htr1 & Hfm & Hfe).
    destruct (IH s1 s' _ _ HX1 HY1 Hrun)
      as (xs' & ys' & dts & dos & tr2 & HX2 & HY2 & Ht2 & Ho2 & Ldt & Ldo
          & Htr2 & Hcount & Hpm & Hpe & Lx & Ly).
    eexists (new_x ++ xs'), (new_y ++ ys'), (_ :: dts), (_ :: dos), (tr1 ++ tr2).
    rewrite HX2, HY2, Ht2, Ho2, Ht1, Ho1, Htr2, Htr1, <- !app_assoc.
    rewrite !filter_app, Hfm, Hfe. cbn [app length map concat event_points].
    rewrite Hpm, Hpe, Hcount, Ldt, Ldo.
    split; [reflexivity|]. split; [reflexivity|].
    split; [destruct (time_func_eval (self s)); cbn;
            rewrite <- ?app_assoc; reflexivity|].
    split; [destruct (time_optimization_overhead (self s)); cbn;
            rewrite <- ?app_assoc; reflexivity|].
    repeat (split; [reflexivity|]).
    split.
    + intros Hc. rewrite length_app, (Lx Hc), <- Hmax, Hc. reflexivity.
    + intros Hc Hv. rewrite length_app, (Ly Hc Hv).
      rewrite (Hv _ _ _ _ Hev), <- Hmax, Hc. reflexivity.
Qed.

End MainLoop.

(** ** The incumbent that [run] returns *)

Section ReturnedIncumbent.
Context {E H : Type}.
Variable C : collaborators E H.
Variable cfg : config E.

(** Without arguments [run] stamps the start time and initializes with
    three random points. *)
Lemma setup_unseeded (s : state E H) :
  setup C cfg None None s =
  initialize C cfg 3
    {| self := set_time_start (Some (now C (env s))) (self s);
       env := env s; trace := trace s |}.
Proof. reflexivity. Qed.

(** What [run] returns is what the last pass of the loop left in
    [incumbent] and [incumbent_value]. *)
Lemma run_ok_inv n X0 Y0 (s s' : state E H) inc v :
  run C cfg n X0 Y0 s = (Ok (inc, v), s') ->
  exists s0 s1,
    setup C cfg X0 Y0 s = (Ok tt, s0) /\
    for_each (py_range 3 n) (iteration C cfg) s0 = (Ok tt, s1) /\
    incumbent (self s1) = inc /\ incumbent_value (self s1) = Some v /\
    self s' = self s1 /\ env s' = env s1 /\
    trace s' = trace s1 ++ [EvLog (MsgReturn inc v)].
Proof.
  unfold run, main_loop. intros Hrun. m_unfold Hrun.
  destruct (setup C cfg X0 Y0 s) as [[[]|e] s0] eqn:Hs; [|discriminate].
  destruct (for_each (py_range 3 n) (iteration C cfg) s0)
    as [[[]|e] s1] eqn:Hl; [|discriminate].
  destruct (incumbent_value (self s1)) as [v1|] eqn:Hv;
    m_unfold Hrun; [|discriminate].
  injection Hrun as <- <- <-. exists s0, s1. cbn. auto 10.
Qed.

End ReturnedIncumbent.

(** ** Strategy calls in an iteration *)

Section StrategyCalls.
Context {E H : Type}.
Variable C : collaborators E H.
Variable cfg : config E.

(** The seed loop issues seed events only. *)
Lemma init_loop_events k : forall i (s s' : state E H),
  lengths (self s) <> None ->
  for_each (seq i k) (init_body C cfg) s = (Ok tt, s') ->
  exists tr, trace s' = trace s ++ tr /\ forallb is_seed_event tr = true.
Proof.
  induction k as [|k IH]; intros i s s' Hlen Hrun; cbn in Hrun.
  - injection Hrun as <-. exists []. rewrite app_nil_r. auto.
  - unfold M.bind in Hrun.
    destruct (init_body C cfg i s) as [[[]|e] s1] eqn:Hbody; [|discriminate].
    destruct (lengths (self s)) as [[[[a b] c] d]|] eqn:Hl; [|congruence].
    destruct (init_body_effect C cfg i s s1 _ _ _ _ Hl Hbody)
      as (p & y & yi & ti & tck & b' & Htr1 & Hsv & Hns & Hl1 & _).
    assert (Hl1' : lengths (self s1) <> None) by congruence.
    destruct (IH (S i) s1 s' Hl1' Hrun) as (tr2 & Htr2 & Hall2).
    eexists. rewrite Htr2, Htr1, <- app_assoc. split; [reflexivity|].
    rewrite !forallb_app, Hall2.
    destruct (save_dir cfg);
      [rewrite Hsv by discriminate|rewrite Hns by reflexivity]; reflexivity.
Qed.

(** [choose_next] never calls a recommendation strategy. *)
Lemma choose_next_calls xs ys b (s s1 : state E H) x :
  choose_next C cfg xs ys b s = (Ok x, s1) ->
  exists tr, trace s1 = trace s ++ tr /\
             filter is_posterior tr = [] /\ filter is_strategy tr = [].
Proof.
  intros Hrun.
  assert (Hinit : (initialize C cfg 3 ;;; x0 <- M.attr X ;; M.expect TypeError x0) s
                  = (Ok x, s1) ->
                  exists tr, trace s1 = trace s ++ tr /\
                    filter is_posterior tr = [] /\ filter is_strategy tr = []).
  { clear Hrun. intros Hrun. unfold initialize, init_arrays in Hrun.
    m_unfold Hrun.
    match type of Hrun with context [for_each ?l ?body ?s0] =>
      destruct (for_each l body s0) as [[[]|e] s2] eqn:Hloop end;
      m_unfold Hrun; [|discriminate].
    destruct (X (self s2)); m_unfold Hrun; [|discriminate].
    injection Hrun as _ <-.
    apply init_loop_events in Hloop; [|unfold lengths; m_simpl; discriminate].
    destruct Hloop as (tr & Htr & Hall). exists tr. cbn [trace] in Htr.
    split; [exact Htr|].
    split; apply (filter_none is_seed_event); auto; intros []; cbn; congruence. }
  destruct xs as [xs|], ys as [ys|]; try (apply Hinit; exact Hrun).
  rewrite choose_next_some in Hrun.
  destruct (model_train C xs ys b (env s)) as [[u|] e1]; [|discriminate].
  cbn zeta in Hrun. destruct (maximize C (acquisition_update C e1)) as [x' e2].
  injection Hrun as _ <-. eexists. split; [reflexivity|]. split; reflexivity.
Qed.

(** In a completed iteration the strategy is called in the recommendation
    step and nowhere else, and what that step leaves in [incumbent] and
    [incumbent_value] is still there at the end. *)
Lemma iteration_strategy_calls it (s s' : state E H) :
  iteration C cfg it s = (Ok tt, s') ->
  exists new_x s1 s2 trec tr,
    choose_next C cfg (X (self s)) (Y (self s))
      (it mod train_intervall cfg =? 0)
      {| self := self s; env := env s;
         trace := trace s ++ [EvLog (MsgStartIteration it)] |} = (Ok new_x, s1) /\
    recommend C cfg s1 = (Ok tt, s2) /\
    trace s2 = trace s1 ++ trec /\
    trace s' = trace s ++ tr /\
    filter is_posterior tr = filter is_posterior trec /\
    filter is_strategy tr = filter is_strategy trec /\
    incumbent (self s') = incumbent (self s2) /\
    incumbent_value (self s') = incumbent_value (self s2).
Proof.
  intros Hrun.
  destruct (iteration_ok_inv C cfg it s s' Hrun)
    as (new_x & s1 & s2 & xs & ys & ovh & tfe & new_y & e3 & v & y00 & s3
        & Hcn & Hrec & _ & _ & _ & _ & _ & _ & _ & Hs3 & Hck).
  destruct (choose_next_calls _ _ _ _ _ _ Hcn) as (tcn & Htcn & Hp1 & Hs1).
  destruct (recommend_ok_events C cfg s1 s2 Hrec) as (trec & Htrec & _).
  destruct (checkpoint_inv C cfg it new_x s3 _ s' Hck)
    as (Hself & _ & tck & Htck & Hcases).
  cbn [trace] in Htcn. subst s3. cbn [self trace] in *.
  exists new_x, s1, s2, trec. eexists.
  split; [exact Hcn|]. split; [exact Hrec|]. split; [exact Htrec|].
  split; [rewrite Htck, Htrec, Htcn, <- !app_assoc; reflexivity|].
  rewrite Hself. m_simpl. rewrite !filter_app, Hp1, Hs1.
  assert (Hck' : filter is_posterior tck = [] /\ filter is_strategy tck = [])
    by (destruct Hcases as [->|(a & ->)]; split; reflexivity).
  destruct Hck' as [-> ->]. cbn. rewrite !app_nil_r. auto.
Qed.

End StrategyCalls.

(** ** What the recommendation step leaves alone *)

Section Frames.
Context {E H V : Type}.
Variable C : collaborators E H.
Variable view : E -> V.

Lemma draws_keep_view {A} (l : list A) :
  keeps_view view (uniform C) ->
  forall (s : state E H) r s',
  map_m (fun _ => draw_uniform C) l s = (r, s') ->
  view (env s') = view (env s).
Proof.
  intros Hu. induction l as [|a l IH]; intros s r s' Hrun; cbn in Hrun.
  - injection Hrun as _ <-. reflexivity.
  - unfold M.bind at 1, draw_uniform at 1, M.call in Hrun.
    pose proof (Hu (env s)) as Hk.
    destruct (uniform C (env s)) as [p e1].
    unfold M.bind at 1 in Hrun.
    match type of Hrun with context [map_m _ l ?s1] =>
      destruct (map_m (fun _ : A => draw_uniform C) l s1) as [[ps|e] s2] eqn:Hrest
    end; apply IH in Hrest; cbn [env] in Hrest;
      injection Hrun as _ <-; rewrite Hrest; exact Hk.
Qed.

Lemma local_searches_keep_view
    (f : point -> E -> option (point * float64) * E) (sps : list point) :
  (forall sp, keeps_view view (f sp)) ->
  forall i x_opt fval (s : state E H) r s',
  local_searches C f i sps x_opt fval s = (r, s') ->
  view (env s') = view (env s).
Proof.
  intros Hf. induction sps as [|sp sps IH];
    intros i x_opt fval s r s' Hrun; cbn [local_searches] in Hrun.
  - injection Hrun as _ <-. reflexivity.
  - m_unfold Hrun. pose proof (Hf sp (env s)) as Hk.
    destruct (f sp (env s)) as [[q|] e1]; m_unfold Hrun; cbn in Hk.
    + destruct (np_set_row (n_dims C) (fst q)) as [row|]; m_unfold Hrun;
        [|injection Hrun as _ <-; exact Hk].
      destruct (list_set i row x_opt) as [x1|]; m_unfold Hrun;
        [|injection Hrun as _ <-; exact Hk].
      destruct (list_set i (snd q) fval) as [f1|]; m_unfold Hrun;
        [|injection Hrun as _ <-; exact Hk].
      apply IH in Hrun. cbn [env] in Hrun. congruence.
    + injection Hrun as _ <-. exact Hk.
Qed.

(** The recommendation step changes of the environment only what the
    random generator, the posterior optimizer and the strategy change. *)
Lemma recommend_keeps (cfg : config E) (s : state E H) r s' :
  keeps_view view (uniform C) ->
  (forall startpoints g,
     keeps_view view (optimize_posterior_mean_and_std C startpoints g)) ->
  strategy_keeps_view view cfg ->
  recommend C cfg s = (r, s') ->
  view (env s') = view (env s).
Proof.
  unfold recommend, strategy_keeps_view. intros Hu Hpost Hstrat Hrun.
  destruct (recommendation_strategy cfg) as [[|f]|].
  - unfold M.bind at 1, M.log in Hrun. unfold M.bind at 1 in Hrun.
    match type of Hrun with context [draw_startpoints C cfg ?s0] =>
      destruct (draw_startpoints C cfg s0) as [[ps|e] s1] eqn:Hd end.
    + apply (draws_keep_view _ Hu) in Hd. cbn [env] in Hd.
      unfold M.bind at 1 in Hrun.
      destruct (best_observed s1) as [[[i p]|e] s2] eqn:Hb;
        apply best_observed_inv in Hb; destruct Hb as (-> & _).
      * m_unfold Hrun.
        match type of Hrun with
          context [optimize_posterior_mean_and_std C ?sp ?g (env s1)] =>
            pose proof (Hpost sp g (env s1)) as Hk;
            destruct (optimize_posterior_mean_and_std C sp g (env s1))
              as [[q|] e2]
        end; m_unfold Hrun; cbn in Hk; injection Hrun as _ <-; cbn;
          congruence.
      * injection Hrun as _ <-. assumption.
    + apply (draws_keep_view _ Hu) in Hd. injection Hrun as _ <-. assumption.
  - unfold M.bind at 1 in Hrun.
    destruct (draw_startpoints C cfg s) as [[ps|e] s1] eqn:Hd;
      apply (draws_keep_view _ Hu) in Hd;
      [|injection Hrun as _ <-; assumption].
    cbv zeta in Hrun. unfold M.bind at 1 in Hrun.
    match type of Hrun with context [local_searches C f 0 ps ?xo ?fv s1] =>
      destruct (local_searches C f 0 ps xo fv s1) as [[arrays|e] s2] eqn:Hm
    end; apply (local_searches_keep_view f ps Hstrat) in Hm.
    + m_run Hrun; injection Hrun as _ <-; cbn; congruence.
    + injection Hrun as _ <-. congruence.
  - unfold M.bind at 1, M.log in Hrun. unfold M.bind at 1 in Hrun.
    match type of Hrun with context [best_observed ?s0] =>
      destruct (best_observed s0) as [[[i p]|e] s1] eqn:Hb end;
      apply best_observed_inv in Hb; destruct Hb as (-> & _).
    + m_run Hrun; injection Hrun as _ <-; reflexivity.
    + injection Hrun as _ <-. reflexivity.
Qed.

End Frames.

(** ** The checkpoints of the random initialization *)

Section SeedingEnvironment.
Context {E H : Type}.
Variable C : collaborators E H.
Variable cfg : config E.

(** A seed checkpoint that completes has called the writer when a save
    directory is configured, which takes a [num_save] other than 0, and has
    done nothing otherwise. *)
Lemma seed_checkpoint_env i (s s' : state E H) :
  seed_checkpoint C cfg i s = (Ok tt, s') ->
  match save_dir cfg with
  | Some _ =>
      num_save cfg <> 0 /\
      env s' = save_iteration C (Z.of_nat i) None 0 (env s)
  | None => env s' = env s
  end.
Proof.
  unfold seed_checkpoint, divides. intros Hrun.
  destruct (save_dir cfg).
  - destruct (Z.eqb_spec (num_save cfg) 0) as [Hz|Hz]; [discriminate|].
    rewrite Zmod_0_l in Hrun. cbn [Z.eqb] in Hrun. m_unfold Hrun.
    injection Hrun as <-. auto.
  - injection Hrun as <-. reflexivity.
Qed.

(** A completed seed iteration, as the collaborators see it: one draw,
    the evaluation of the drawn point, and the call of the writer. *)
Lemma init_body_env i (s s' : state E H) :
  lengths (self s) <> None ->
  init_body C cfg i s = (Ok tt, s') ->
  exists p e1 y e2,
    uniform C (env s) = (p, e1) /\
    task_evaluate C [p] e1 = (Some y, e2) /\
    match save_dir cfg with
    | Some _ =>
        num_save cfg <> 0 /\
        env s' = save_iteration C (Z.of_nat i) None 0 e2
    | None => env s' = e2
    end.
Proof.
  intros Hlen Hrun.
  destruct (lengths (self s)) as [[[[a b] c] d]|] eqn:Hl; [|congruence].
  destruct (lengths_some _ _ _ _ _ Hl)
    as (xs & ys & tfe & ovh & HX & HY & Htfe & Hovh & _).
  destruct (init_body_ok C cfg i s s' xs ys tfe ovh HX HY Htfe Hovh Hrun)
    as (p & e1 & y & e2 & tfe' & ovh' & xs' & ys' & bi & inc & v & yi & ti & s2
        & Hu & Hev & _ & _ & _ & _ & _ & _ & _ & _ & -> & Hck).
  apply seed_checkpoint_env in Hck. cbn [env] in Hck.
  exists p, e1, y, e2. auto.
Qed.

Section Written.
Variable written : E -> list (Z * option H * Z).
Hypothesis store : checkpoint_store written C.

Lemma init_body_store i (s s' : state E H) :
  lengths (self s) <> None ->
  init_body C cfg i s = (Ok tt, s') ->
  written (env s') =
    written (env s) ++
    match save_dir cfg with Some _ => [seed_entry i] | None => [] end.
Proof.
  intros Hlen Hrun.
  destruct (init_body_env i s s' Hlen Hrun) as (p & e1 & y & e2 & Hu & Hev & He).
  pose proof (store_uniform store (env s)) as Hk1. rewrite Hu in Hk1.
  pose proof (store_evaluate store [p] e1) as Hk2. rewrite Hev in Hk2.
  cbn in Hk1, Hk2.
  destruct (save_dir cfg).
  - destruct He as (_ & ->). rewrite (store_save store). unfold seed_entry.
    congruence.
  - rewrite He, app_nil_r. congruence.
Qed.

Lemma init_loop_store k : forall i (s s' : state E H),
  lengths (self s) <> None ->
  for_each (seq i k) (init_body C cfg) s = (Ok tt, s') ->
  written (env s') =
    written (env s) ++
    match save_dir cfg with
    | Some _ => map seed_entry (seq i k)
    | None => []
    end.
Proof.
  induction k as [|k IH]; intros i s s' Hlen Hrun; cbn in Hrun.
  - injection Hrun as <-. destruct (save_dir cfg); cbn; rewrite app_nil_r;
      reflexivity.
  - unfold M.bind in Hrun.
    destruct (init_body C cfg i s) as [[[]|e] s1] eqn:Hbody; [|discriminate].
    pose proof (init_body_store i s s1 Hlen Hbody) as H1.
    destruct (lengths (self s)) as [[[[a b] c] d]|] eqn:Hl; [|congruence].
    destruct (init_body_effect C cfg i s s1 _ _ _ _ Hl Hbody)
      as (p & y & yi & ti & tck & b' & _ & _ & _ & Hl1 & _).
    assert (Hl1' : lengths (self s1) <> None) by congruence.
    rewrite (IH (S i) s1 s' Hl1' Hrun), H1.
    destruct (save_dir cfg); cbn; rewrite <- app_assoc; reflexivity.
Qed.

(** A completed [initialize(n)] has written the [n] seed checkpoints, in
    order, when a save directory is configured, and nothing otherwise. *)
Lemma initialize_store n (s s' : state E H) :
  initialize C cfg n s = (Ok tt, s') ->
  written (env s') =
    written (env s) ++
    match save_dir cfg with
    | Some _ => map seed_entry (seq 0 n)
    | None => []
    end.
Proof.
  intros Hrun. unfold initialize in Hrun. unfold M.bind at 1 in Hrun.
  destruct (init_arrays C n s) as [[[]|e] s0] eqn:Harr; [|discriminate].
  unfold init_arrays in Harr. m_unfold Harr. injection Harr as <-.
  apply init_loop_store in Hrun; [exact Hrun|].
  unfold lengths. m_simpl. discriminate.
Qed.

End Written.
End SeedingEnvironment.

(** ** The scripted environment keeps the contracts *)

Lemma scripted_one_value_per_point table b :
  one_value_per_point (scripted table b).
Proof.
  intros x e ys e' Hev. cbn in Hev. unfold script_evaluate in Hev.
  injection Hev as <- _. rewrite length_map, length_seq. reflexivity.
Qed.

Lemma scripted_one_candidate table b : one_candidate (scripted table b).
Proof. intros e. cbn. unfold script_maximize. destruct b; reflexivity. Qed.

(** ** Claims about the returned incumbent *)

Section PolicyA.
Context {E H : Type}.
Variable C : collaborators E H.
Variable cfg : config E.

(** C1 (as amended).  Under Policy A an un-seeded [run] with
    [num_iterations = 5] ends with five observations and returns the entry
    of [Y] at [np.argmin] of the first four, those observed before the last
    iteration evaluated its candidate, with the row of [X] at that index;
    the value observed in the last iteration takes no part.  When the
    first four observations are numbers, the returned value is the least
    of them, at its first index; when one of them is NaN, the returned
    value is NaN, at the index of the first NaN. *)
Theorem incumbent_is_argmin_before_last_evaluation
    (s s' : state E H) (inc : option point) (v : float64) :
  recommendation_strategy cfg = None ->
  one_value_per_point C -> one_candidate C ->
  run C cfg 5 None None s = (Ok (inc, v), s') ->
  exists xs ys i,
    X (self s') = Some xs /\ Y (self s') = Some ys /\
    length xs = 5%nat /\ length ys = 5%nat /\
    np_argmin (firstn 4 ys) = Some i /\
    nth_error ys i = Some v /\ inc = nth_error xs i /\
    (no_nan (firstn 4 ys) ->
     (forall y, In y (firstn 4 ys) -> fle v y) /\
     (forall j y, (j < i)%nat -> nth_error ys j = Some y -> flt v y)) /\
    (In NaN (firstn 4 ys) ->
     v = NaN /\ forall j, (j < i)%nat -> nth_error ys j <> Some NaN).
Proof.
  intros Hpol Hone Hcand Hrun.
  destruct (run_ok_inv C cfg 5 None None s s' inc v Hrun)
    as (s0 & s3 & Hsetup & Hloop & Hinc & Hval & Hself & _ & _).
  rewrite setup_unseeded in Hsetup.
  destruct (initialize_effect C cfg 3 _ s0 Hsetup)
    as (tr0 & b0 & _ & _ & _ & _ & Hlen & Hb0).
  rewrite (Hb0 Hone) in Hlen.
  destruct (lengths_some _ _ _ _ _ Hlen)
    as (xs0 & ys0 & _ & _ & HX0 & HY0 & _ & _ & Lx0 & Ly0 & _ & _).
  change (py_range 3 5) with [3; 4] in Hloop. cbn [for_each] in Hloop.
  unfold M.bind in Hloop.
  destruct (iteration C cfg 3 s0) as [[[]|e] s1] eqn:Hit3; [|discriminate].
  destruct (iteration C cfg 4 s1) as [[[]|e] s2] eqn:Hit4; [|discriminate].
  injection Hloop as <-.
  destruct (iteration_ok_history C cfg 3 s0 s1 xs0 ys0 HX0 HY0 Hit3)
    as (x3 & y3 & _ & sb3 & e3 & _ & Hmax3 & _ & _ & _ & Hev3 & _
        & HX1 & HY1 & _).
  destruct (iteration_ok_history C cfg 4 s1 s2 _ _ HX1 HY1 Hit4)
    as (x4 & y4 & sa & sb & e4 & _ & Hmax4 & _ & Hsa & Hrec & Hev4 & _
        & HX2 & HY2 & _ & _ & Hinc2 & Hval2 & _).
  destruct (recommend_A_ok C cfg sa sb Hpol Hrec)
    as (xs4 & ys4 & i & p & w & HXa & HYa & Hi & Hp & Hw & ->).
  rewrite Hsa in HXa, HYa. cbn [X Y set_model_untrained] in HXa, HYa.
  rewrite HX1 in HXa. injection HXa as <-.
  rewrite HY1 in HYa. injection HYa as <-.
  cbn [self incumbent incumbent_value set_incumbent set_incumbent_value]
    in Hinc2, Hval2.
  rewrite Hinc2 in Hinc. rewrite Hval2 in Hval. injection Hval as ->.
  assert (L3x : length x3 = 1%nat) by (rewrite <- Hmax3; apply Hcand).
  assert (L4x : length x4 = 1%nat) by (rewrite <- Hmax4; apply Hcand).
  assert (L3y : length y3 = 1%nat)
    by (rewrite (Hone _ _ _ _ Hev3); assumption).
  assert (L4y : length y4 = 1%nat)
    by (rewrite (Hone _ _ _ _ Hev4); assumption).
  assert (Lxs : length (xs0 ++ x3) = 4%nat) by (rewrite length_app; lia).
  assert (Lys : length (ys0 ++ y3) = 4%nat) by (rewrite length_app; lia).
  assert (Hfirst : firstn 4 ((ys0 ++ y3) ++ y4) = ys0 ++ y3).
  { rewrite firstn_app, Lys, Nat.sub_diag, <- Lys, firstn_all. cbn.
    apply app_nil_r. }
  assert (Hilt : (i < 4)%nat).
  { rewrite <- Lys. apply nth_error_Some. congruence. }
  destruct (np_argmin_spec _ _ Hi) as (w' & Hw' & Hnum & Hnan).
  rewrite Hw in Hw'. injection Hw' as <-.
  exists ((xs0 ++ x3) ++ x4), ((ys0 ++ y3) ++ y4), i.
  rewrite Hself, HX2, HY2, Hfirst.
  split; [reflexivity|]. split; [reflexivity|].
  split; [rewrite length_app; lia|]. split; [rewrite length_app; lia|].
  split; [assumption|].
  split; [rewrite nth_error_app1 by lia; assumption|].
  split; [rewrite nth_error_app1 by lia; congruence|].
  split.
  - intros Hnn. destruct (Hnum Hnn) as (Hmin & Hfst). split; [assumption|].
    intros j y Hj Hy. rewrite nth_error_app1 in Hy by lia. eauto.
  - intros Hin. destruct (Hnan Hin) as (Hv & Hfst). split; [assumption|].
    intros j Hj. rewrite nth_error_app1 by lia. auto.
Qed.

End PolicyA.

(** The amended C1 on the scripted run with observations 3, 2, 1, 5, 0. *)
Lemma incumbent_is_argmin_before_last_evaluation_witness :
  let C := scripted (nums [3; 2; 1; 5; 0]) false in
  let r := run C policy_A 5 None None scripted_start in
  recommendation_strategy policy_A = None /\
  one_value_per_point C /\ one_candidate C /\
  r = (Ok (Some [2], Num 1), snd r) /\
  exists xs ys i,
    X (self (snd r)) = Some xs /\ Y (self (snd r)) = Some ys /\
    length xs = 5%nat /\ length ys = 5%nat /\
    np_argmin (firstn 4 ys) = Some i /\
    nth_error ys i = Some (Num 1) /\ Some [2] = nth_error xs i /\
    (no_nan (firstn 4 ys) ->
     (forall y, In y (firstn 4 ys) -> fle (Num 1) y) /\
     (forall j y, (j < i)%nat -> nth_error ys j = Some y -> flt (Num 1) y)) /\
    (In NaN (firstn 4 ys) ->
     Num 1 = NaN /\ forall j, (j < i)%nat -> nth_error ys j <> Some NaN).
Proof.
  intros C r.
  split; [reflexivity|].
  split; [apply scripted_one_value_per_point|].
  split; [apply scripted_one_candidate|].
  split; [vm_compute; reflexivity|].
  apply (incumbent_is_argmin_before_last_evaluation C policy_A
           scripted_start (snd r) (Some [2]) (Num 1)).
  - reflexivity.
  - apply scripted_one_value_per_point.
  - apply scripted_one_candidate.
  - vm_compute. reflexivity.
Defined.

(** C1 as stated fails: the scripted task is observed at 3, 2, 1, 5 and
    then 0 in the last iteration; the least of the five observations is
    the last one, 0 at index 4, yet [run] returns the value 1 and the
    point at index 2. *)
Lemma incumbent_misses_last_observation :
  let r := run (scripted (nums [3; 2; 1; 5; 0]) false) policy_A 5 None None
               scripted_start in
  Y (self (snd r)) = Some (nums [3; 2; 1; 5; 0]) /\
  X (self (snd r)) = Some [[0]; [1]; [2]; [5]; [5]] /\
  np_argmin (nums [3; 2; 1; 5; 0]) = Some 4%nat /\
  fst r = Ok (Some [2], Num 1) /\
  fst r <> Ok (Some [5], Num 0).
Proof. vm_compute. repeat split. discriminate. Qed.

(** With a NaN among the first four observations the run returns it: the
    scripted task is observed at 3, NaN, 1, 5 and 0, and [run] returns NaN
    with the point of the NaN, not the least number. *)
Lemma nan_observation_is_returned :
  let r := run (scripted [Num 3; NaN; Num 1; Num 5; Num 0] false) policy_A 5
               None None scripted_start in
  Y (self (snd r)) = Some [Num 3; NaN; Num 1; Num 5; Num 0] /\
  np_argmin [Num 3; NaN; Num 1; Num 5] = Some 1%nat /\
  fst r = Ok (Some [1], NaN).
Proof. vm_compute. repeat split. Qed.

(** ** History alignment *)

Section Alignment.
Context {E H : Type}.
Variable C : collaborators E H.
Variable cfg : config E.

(** With both arguments [run] adopts them and sizes the timing series
    from [X]. *)
Lemma setup_seeded xs ys (s : state E H) :
  setup C cfg (Some xs) (Some ys) s =
  (Ok tt,
   {| self :=
        set_time_optimization_overhead (Some (np_zeros (length xs)))
          (set_time_func_eval (Some (np_zeros (length xs)))
             (set_Y (Some ys)
                (set_X (Some xs)
                   (set_time_start (Some (now C (env s))) (self s)))));
      env := env s; trace := trace s |}).
Proof. reflexivity. Qed.

(** After [setup] on a well-formed seed the four sequences are aligned and
    nothing but seed events has been issued. *)
Lemma setup_aligned X0 Y0 m (s s' : state E H) :
  one_value_per_point C ->
  seed_length X0 Y0 = Some m ->
  setup C cfg X0 Y0 s = (Ok tt, s') ->
  aligned m (self s') /\
  exists tr, trace s' = trace s ++ tr /\ filter is_maximize tr = [].
Proof.
  intros Hone Hm Hrun. destruct X0 as [xs|], Y0 as [ys|]; cbn in Hm;
    try discriminate.
  - destruct (Nat.eqb_spec (length xs) (length ys)) as [Heq|]; [|discriminate].
    injection Hm as <-. rewrite setup_seeded in Hrun. injection Hrun as <-.
    split.
    + unfold aligned, lengths, np_zeros. m_simpl.
      rewrite !repeat_length, <- Heq. reflexivity.
    + exists []. cbn. rewrite app_nil_r. auto.
  - injection Hm as <-. rewrite setup_unseeded in Hrun.
    destruct (initialize_effect C cfg 3 _ s' Hrun)
      as (tr & b & Htr & Hmax & _ & _ & Hlen & Hb).
    rewrite (Hb Hone) in Hlen.
    split; [exact Hlen|]. exists tr. auto.
Qed.

(** C2 (as amended).  When the task answers with one value per point and
    the maximizer proposes one point: after [run]'s setup (random
    initialization as a whole, or a seed whose [X] and [Y] have the same
    number [m] of rows) and after every completed main-loop iteration the
    four sequences have the same length; inside the random initialization
    the timing series already have their final length [n_init_points], so
    after the seed iteration of index [i] the history has [i + 1] entries
    and the timing series [n_init_points]. *)
Theorem history_alignment :
  one_value_per_point C -> one_candidate C ->
  (forall X0 Y0 m (its : list Z) (s s' : state E H),
      seed_length X0 Y0 = Some m ->
      (setup C cfg X0 Y0 ;;; for_each its (iteration C cfg)) s = (Ok tt, s') ->
      aligned (m + length its) (self s')) /\
  (forall n_init_points i (s s' : state E H),
      (i < n_init_points)%nat ->
      (init_arrays C n_init_points ;;;
       for_each (seq 0 (S i)) (init_body C cfg)) s = (Ok tt, s') ->
      lengths (self s') = Some (S i, S i, n_init_points, n_init_points)).
Proof.
  intros Hone Hcand. split.
  - intros X0 Y0 m its s s' Hm Hrun. unfold M.bind in Hrun.
    destruct (setup C cfg X0 Y0 s) as [[[]|e] s0] eqn:Hsetup; [|discriminate].
    destruct (setup_aligned X0 Y0 m s s0 Hone Hm Hsetup) as (Hal & _).
    destruct (lengths_some _ _ _ _ _ Hal)
      as (xs & ys & tfe & ovh & HX & HY & Ht & Ho & Lx & Ly & Lt & Lo).
    destruct (main_loop_effect C cfg its s0 s' xs ys HX HY Hrun)
      as (xs' & ys' & dts & dos & tr & HX' & HY' & Ht' & Ho' & Ldt & Ldo
          & _ & _ & _ & _ & Lx' & Ly').
    unfold aligned, lengths. rewrite HX', HY', Ht', Ho', Ht, Ho. cbn.
    rewrite !length_app, Lx, Ly, Lt, Lo, Ldt, Ldo, (Lx' Hcand),
      (Ly' Hcand Hone).
    reflexivity.
  - intros n i s s' Hi Hrun. unfold init_arrays in Hrun. m_unfold Hrun.
    match type of Hrun with for_each _ _ ?s0 = _ =>
      destruct (init_loop_effect C cfg (S i) 0 n 1 s0 s')
        as (tr & b & _ & _ & _ & _ & Hl & Hb); [ | assumption | ] end.
    + unfold lengths, np_zeros. m_simpl. rewrite !repeat_length. reflexivity.
    + rewrite (Hb Hone eq_refl) in Hl. exact Hl.
Qed.

End Alignment.

(** The amended C2 on the scripted run: alignment after the setup and two
    iterations of an un-seeded run, and the lengths after the first seed. *)
Lemma history_alignment_witness :
  let C := scripted (nums [3; 2; 1; 5; 0]) false in
  one_value_per_point C /\ one_candidate C /\
  seed_length None None = Some 3%nat /\
  aligned 5
    (self (snd ((setup C policy_A None None ;;;
                 for_each [3; 4] (iteration C policy_A)) scripted_start))) /\
  lengths
    (self (snd ((init_arrays C 3 ;;;
                 for_each (seq 0 1) (init_body C policy_A)) scripted_start)))
  = Some (1, 1, 3, 3)%nat.
Proof.
  intros C.
  destruct (history_alignment C policy_A
              (scripted_one_value_per_point _ _) (scripted_one_candidate _ _))
    as [Hrun Hseed].
  split; [apply scripted_one_value_per_point|].
  split; [apply scripted_one_candidate|].
  split; [reflexivity|].
  split.
  - apply (Hrun None None 3%nat [3; 4] scripted_start); [reflexivity|].
    vm_compute. reflexivity.
  - apply (Hseed 3%nat 0%nat scripted_start); [lia|]. vm_compute. reflexivity.
Defined.

(** C2 as stated fails at the end of the first seed iteration: [X] and [Y]
    hold one entry while both timing series hold three. *)
Lemma seed_iteration_not_aligned :
  let C := scripted (nums [3; 2; 1; 5; 0]) false in
  let r := (init_arrays C 3 ;;; init_body C policy_A 0) scripted_start in
  fst r = Ok tt /\
  X (self (snd r)) = Some [[0]] /\ Y (self (snd r)) = Some [Num 3] /\
  time_func_eval (self (snd r)) = Some [10; 0; 0] /\
  time_optimization_overhead (self (snd r)) = Some [1; 0; 0] /\
  forall n, ~ aligned n (self (snd r)).
Proof.
  vm_compute. repeat split. intros n Hn. injection Hn as <- Hn. discriminate.
Qed.

(** ** Claims about one iteration *)

Section IterationClaims.
Context {E H : Type}.
Variable C : collaborators E H.
Variable cfg : config E.

(** C3 (as amended).  The entry an iteration appends to
    [time_optimization_overhead] is the clock after the recommendation
    step minus the clock at the start of the iteration: it covers
    training, maximization and the recommendation step.  The latency of
    the recommendation step is, besides, measured from its own start and
    logged. *)
Theorem overhead_covers_recommendation it (s s' : state E H) :
  iteration C cfg it s = (Ok tt, s') ->
  exists new_x s1 s2 ovh v,
    choose_next C cfg (X (self s)) (Y (self s))
      (it mod train_intervall cfg =? 0)
      {| self := self s; env := env s;
         trace := trace s ++ [EvLog (MsgStartIteration it)] |} = (Ok new_x, s1) /\
    recommend C cfg s1 = (Ok tt, s2) /\
    time_optimization_overhead (self s1) = Some ovh /\
    time_optimization_overhead (self s') =
      Some (ovh ++ [now C (env s2) - now C (env s)]) /\
    In (EvLog (MsgNewIncumbent (incumbent (self s2))
                 (now C (env s2) - now C (env s1)) v)) (trace s').
Proof.
  intros Hrun.
  destruct (iteration_ok_inv C cfg it s s' Hrun)
    as (new_x & s1 & s2 & xs & ys & ovh & tfe & new_y & e3 & v & y00 & s3
        & Hcn & Hrec & _ & _ & Hovh & _ & _ & _ & _ & Hs3 & Hck).
  destruct (checkpoint_inv C cfg it new_x s3 _ s' Hck)
    as (Hself & _ & tck & Htck & _).
  exists new_x, s1, s2, ovh, v. subst s3. cbn [self trace] in *.
  rewrite Hself, Htck. m_simpl.
  repeat (split; [reflexivity || assumption|]).
  apply in_or_app. left. apply in_or_app. right. left. reflexivity.
Qed.

(** C6 (as amended).  With the posterior-mean/std optimizer configured, a
    completed iteration calls the optimizer exactly once, and no other
    strategy: in the recommendation step, after [n_restarts] draws, on the
    drawn points followed by the row of [X] at [np.argmin(Y)]
    ([n_restarts + 1] start points) with gradients enabled; what this call
    returns ends up in [incumbent] and [incumbent_value].  The row at
    [np.argmin(Y)] is the first best observed point when the observations
    are numbers, and the point of the first NaN when one of them is NaN.
    The history is the one of the recommendation step, which is the
    history the iteration started with when there was one. *)
Theorem posterior_policy_calls_once it (s s' : state E H) :
  recommendation_strategy cfg = Some PosteriorMeanAndStd ->
  iteration C cfg it s = (Ok tt, s') ->
  exists new_x s1 s2 randoms xs ys i best v q e1 tr,
    choose_next C cfg (X (self s)) (Y (self s))
      (it mod train_intervall cfg =? 0)
      {| self := self s; env := env s;
         trace := trace s ++ [EvLog (MsgStartIteration it)] |} = (Ok new_x, s1) /\
    recommend C cfg s1 = (Ok tt, s2) /\
    X (self s1) = Some xs /\ Y (self s1) = Some ys /\
    np_argmin ys = Some i /\ nth_error xs i = Some best /\
    nth_error ys i = Some v /\
    (no_nan ys ->
     (forall y, In y ys -> fle v y) /\
     (forall j y, (j < i)%nat -> nth_error ys j = Some y -> flt v y)) /\
    (In NaN ys ->
     v = NaN /\ forall j, (j < i)%nat -> nth_error ys j <> Some NaN) /\
    draws C (n_restarts cfg) (env s1) = (randoms, e1) /\
    length randoms = n_restarts cfg /\
    length (randoms ++ [best]) = S (n_restarts cfg) /\
    optimize_posterior_mean_and_std C (randoms ++ [best]) true e1
      = (Some q, env s2) /\
    trace s2 = trace s1 ++ [EvLog MsgOptimizePosterior] ++ map EvUniform randoms
                 ++ [EvPosterior (randoms ++ [best]) true (Some q)] /\
    trace s' = trace s ++ tr /\
    filter is_posterior tr = [EvPosterior (randoms ++ [best]) true (Some q)] /\
    filter is_strategy tr = [] /\
    incumbent (self s') = Some (fst q) /\
    incumbent_value (self s') = Some (snd q) /\
    (forall xs0 ys0, X (self s) = Some xs0 -> Y (self s) = Some ys0 ->
                     xs = xs0 /\ ys = ys0).
Proof.
  intros Hpol Hrun.
  destruct (iteration_strategy_calls C cfg it s s' Hrun)
    as (new_x & s1 & s2 & trec & tr & Hcn & Hrec & Htrec & Htr & Hfp & Hfs
        & Hinc & Hval).
  destruct (recommend_B_ok C cfg s1 s2 Hpol Hrec)
    as (randoms & xs & ys & i & best & q & e1 & Hlen & HX1 & HY1 & Hi & Hbest
        & Htrace & Hq1 & Hq2 & Hdraws & Hpost).
  destruct (np_argmin_spec ys i Hi) as (v & Hv & Hnum & Hnan).
  assert (Heq : trec = [EvLog MsgOptimizePosterior] ++ map EvUniform randoms
                       ++ [EvPosterior (randoms ++ [best]) true (Some q)])
    by (rewrite Htrec in Htrace; apply app_inv_head in Htrace; exact Htrace).
  assert (Hp : filter is_posterior (map (@EvUniform H) randoms) = [])
    by (clear; induction randoms as [|r l IH]; cbn; auto).
  assert (Hs : filter is_strategy (map (@EvUniform H) randoms) = [])
    by (clear; induction randoms as [|r l IH]; cbn; auto).
  exists new_x, s1, s2, randoms, xs, ys, i, best, v, q, e1, tr.
  rewrite Hfp, Hfs, Hinc, Hval, Heq. cbn [app filter is_posterior is_strategy].
  rewrite !filter_app, Hp, Hs, length_app, Hlen. cbn.
  repeat (split; [reflexivity || assumption || lia|]).
  intros xs0 ys0 HX HY. rewrite HX, HY, choose_next_some in Hcn.
  destruct (model_train C xs0 ys0 _ _) as [[u|] e0]; [|discriminate].
  cbn zeta in Hcn. destruct (maximize C _) as [x e2].
  injection Hcn as _ <-. cbn [self X Y set_model_untrained] in HX1, HY1.
  split; congruence.
Qed.

(** C7 (as amended).  With any other strategy configured, an iteration
    completes only when [n_restarts] is not 0, and then calls the strategy
    in the recommendation step only: after [n_restarts] draws, once on
    each drawn point and on nothing else, in order ([n_restarts] calls),
    and never the posterior optimizer.  Each returned point is stored as a
    row of [x_opt] (as it is when it has [n_dims] entries, broadcast when
    it has one) and each returned value as an entry of [fval];
    [incumbent] and [incumbent_value] end up as the row and the entry at
    [np.argmin(fval)]: the first result of least value when the values are
    numbers, the first NaN result when one of them is NaN. *)
Theorem generic_policy_calls_per_startpoint it f (s s' : state E H) :
  recommendation_strategy cfg = Some (OtherStrategy f) ->
  iteration C cfg it s = (Ok tt, s') ->
  exists new_x s1 s2 randoms results rows best p v e1 tr,
    choose_next C cfg (X (self s)) (Y (self s))
      (it mod train_intervall cfg =? 0)
      {| self := self s; env := env s;
         trace := trace s ++ [EvLog (MsgStartIteration it)] |} = (Ok new_x, s1) /\
    recommend C cfg s1 = (Ok tt, s2) /\
    (0 < n_restarts cfg)%nat /\
    draws C (n_restarts cfg) (env s1) = (randoms, e1) /\
    answers f randoms e1 = (Some results, env s2) /\
    length randoms = n_restarts cfg /\ length results = n_restarts cfg /\
    map (fun q => np_set_row (n_dims C) (fst q)) results = map Some rows /\
    trace s2 = trace s1 ++ map EvUniform randoms
                 ++ map (fun q => EvStrategy (fst q) (Some (snd q)))
                        (combine randoms results) /\
    trace s' = trace s ++ tr /\
    filter is_strategy tr =
      map (fun q => EvStrategy (fst q) (Some (snd q))) (combine randoms results) /\
    length (filter is_strategy tr) = n_restarts cfg /\
    filter is_posterior tr = [] /\
    np_argmin (map snd results) = Some best /\
    nth_error rows best = Some p /\
    nth_error (map snd results) best = Some v /\
    (no_nan (map snd results) ->
     (forall q, In q results -> fle v (snd q)) /\
     (forall j w, (j < best)%nat ->
        nth_error (map snd results) j = Some w -> flt v w)) /\
    (In NaN (map snd results) ->
     v = NaN /\
     forall j, (j < best)%nat -> nth_error (map snd results) j <> Some NaN) /\
    incumbent (self s') = Some p /\ incumbent_value (self s') = Some v.
Proof.
  intros Hpol Hrun.
  destruct (iteration_strategy_calls C cfg it s s' Hrun)
    as (new_x & s1 & s2 & trec & tr & Hcn & Hrec & Htrec & Htr & Hfp & Hfs
        & Hinc & Hval).
  destruct (recommend_C_ok C cfg f s1 s2 Hpol Hrec)
    as (randoms & results & rows & best & p & v & e1 & Hlen & Hres & Htrace
        & Hbest & Hp0 & Hv0 & Hq1 & Hq2 & Hrows & Hdraws & Hans).
  set (calls := map (fun q : point * (point * float64) =>
                       @EvStrategy H (fst q) (Some (snd q)))
                    (combine randoms results)) in *.
  assert (Heq : trec = map EvUniform randoms ++ calls)
    by (rewrite Htrec in Htrace; apply app_inv_head in Htrace; exact Htrace).
  assert (Hp : filter is_posterior (map (@EvUniform H) randoms) = [])
    by (clear; induction randoms as [|r l IH]; cbn; auto).
  assert (Hs : filter is_strategy (map (@EvUniform H) randoms) = [])
    by (clear; induction randoms as [|r l IH]; cbn; auto).
  assert (Hcp : filter is_posterior calls = [])
    by (subst calls; clear; induction (combine randoms results); cbn; auto).
  assert (Hcs : filter is_strategy calls = calls)
    by (subst calls; clear; induction (combine randoms results) as [|a l IH];
        cbn; [|rewrite IH]; reflexivity).
  assert (Hcalls : length calls = n_restarts cfg).
  { subst calls. rewrite length_map, length_combine, Hlen, Hres.
    apply Nat.min_id. }
  assert (Hpos : (0 < n_restarts cfg)%nat).
  { rewrite <- Hres. destruct results; [discriminate Hbest|cbn; lia]. }
  destruct (np_argmin_spec _ _ Hbest) as (w & Hw & Hnum & Hnan).
  rewrite Hv0 in Hw. injection Hw as <-.
  exists new_x, s1, s2, randoms, results, rows, best, p, v, e1, tr.
  rewrite Hfp, Hfs, Hinc, Hval, Heq, !filter_app, Hp, Hs, Hcp, Hcs.
  cbn [app].
  repeat (split; [reflexivity || assumption|]).
  split; [|split; [|auto]].
  - intros Hnn. destruct (Hnum Hnn) as (Hmin & Hfirst). split; [|assumption].
    intros q Hq. apply Hmin. apply in_map. assumption.
  - assumption.
Qed.

(** A failing pass ends the loop with its exception, after the passes
    that completed and whatever passes were still to come. *)
Lemma for_each_app_raise {A} (l1 l2 : list A) (a : A)
    (body : A -> M.t (E:=E) (H:=H) unit) e : forall s s1 s2,
  for_each l1 body s = (Ok tt, s1) ->
  body a s1 = (Raise e, s2) ->
  for_each (l1 ++ a :: l2) body s = (Raise e, s2).
Proof.
  induction l1 as [|b l1 IH]; intros s s1 s2 Hpre Ha; cbn in Hpre.
  - injection Hpre as <-. apply for_each_raise. assumption.
  - cbn. unfold M.bind in *.
    destruct (body b s) as [[[]|e'] s0]; [|discriminate].
    eapply IH; eassumption.
Qed.

(** With a history, an iteration that fails in the task's evaluation
    leaves [X] and [Y] alone. *)
Lemma iteration_evaluation_failure it (s s' : state E H) xs ys :
  X (self s) = Some xs -> Y (self s) = Some ys ->
  iteration C cfg it s = (Raise EvaluationFailure, s') ->
  X (self s') = Some xs /\ Y (self s') = Some ys.
Proof.
  intros HX HY Hrun.
  unfold iteration in Hrun. m_unfold Hrun.
  destruct (train_intervall cfg =? 0); m_unfold Hrun; [discriminate|].
  rewrite HX, HY, choose_next_some in Hrun. cbn [self env trace] in Hrun.
  destruct (model_train C xs ys (it mod train_intervall cfg =? 0) (env s))
    as [[u|] e1]; [|discriminate].
  cbn zeta in Hrun.
  destruct (maximize C (acquisition_update C e1)) as [new_x e2].
  m_unfold Hrun.
  match type of Hrun with context [recommend C cfg ?s0] =>
    destruct (recommend C cfg s0) as [r s2] eqn:Hrec end.
  destruct (recommend_frame C cfg _ _ _ Hrec)
    as (HX2 & HY2 & _ & _ & _ & Hno & _).
  cbn [self X Y set_model_untrained] in HX2, HY2.
  rewrite HX in HX2. rewrite HY in HY2.
  destruct r as [[]|e]; [|injection Hrun as -> <-; congruence].
  m_unfold Hrun.
  destruct (incumbent_value (self s2)); m_unfold Hrun; [|discriminate].
  destruct (time_optimization_overhead (self s2)); m_unfold Hrun;
    [|discriminate].
  destruct (task_evaluate C new_x (env s2)) as [[new_y|] e3]; m_unfold Hrun.
  - destruct (time_func_eval (self s2)); m_unfold Hrun; [|discriminate].
    destruct (nth_error new_y 0); m_unfold Hrun; [|discriminate].
    rewrite HX2 in Hrun. m_unfold Hrun. rewrite HY2 in Hrun. m_unfold Hrun.
    apply checkpoint_inv in Hrun. destruct Hrun as (_ & Hno' & _).
    congruence.
  - injection Hrun as <-. m_simpl. auto.
Qed.


End IterationClaims.

(** ** Claims about the number of iterations and the setup *)

Section RunClaims.
Context {E H : Type}.
Variable C : collaborators E H.
Variable cfg : config E.

(** C4 (as amended).  The main loop runs over [range(3, num_iterations)]
    whatever the number [m] of seed points: a run that returns, started
    without arguments or with an [X] and a [Y] of the same number of rows,
    has made [max(0, num_iterations - 3)] main-loop iterations (one call
    of the maximizer each), and its history has
    [m + max(0, num_iterations - 3)] entries, where [m] is 3 for the run
    without arguments and the number of rows of the given history
    otherwise. *)
Theorem loop_starts_at_three n X0 Y0 m (s s' : state E H) inc v :
  one_value_per_point C -> one_candidate C ->
  seed_length X0 Y0 = Some m ->
  run C cfg n X0 Y0 s = (Ok (inc, v), s') ->
  exists xs ys tr,
    X (self s') = Some xs /\ Y (self s') = Some ys /\
    length xs = (m + Z.to_nat (n - 3))%nat /\
    length ys = (m + Z.to_nat (n - 3))%nat /\
    trace s' = trace s ++ tr /\
    length (filter is_maximize tr) = Z.to_nat (n - 3).
Proof.
  intros Hone Hcand Hm Hrun.
  destruct (run_ok_inv C cfg n X0 Y0 s s' inc v Hrun)
    as (s0 & s1 & Hsetup & Hloop & _ & _ & Hself & _ & Htrace).
  destruct (setup_aligned C cfg X0 Y0 m s s0 Hone Hm Hsetup)
    as (Hal & tr0 & Htr0 & Hmax0).
  destruct (lengths_some _ _ _ _ _ Hal)
    as (xs & ys & _ & _ & HX & HY & _ & _ & Lx & Ly & _ & _).
  destruct (main_loop_effect C cfg _ s0 s1 xs ys HX HY Hloop)
    as (xs' & ys' & _ & _ & tr1 & HX' & HY' & _ & _ & _ & _
        & Htr1 & Hcount & _ & _ & Lx' & Ly').
  rewrite py_range_length in Hcount, Lx', Ly'.
  exists (xs ++ xs'), (ys ++ ys'), (tr0 ++ tr1 ++ [EvLog (MsgReturn inc v)]).
  rewrite Hself, Htrace, Htr1, Htr0, <- !app_assoc, !length_app.
  rewrite !filter_app, Hmax0, !length_app, Hcount. cbn.
  rewrite Lx, Ly, (Lx' Hcand), (Ly' Hcand Hone).
  repeat split; auto.
Qed.

(** C9 (as amended).  When at least one of [X], [Y] is given, [run] draws
    no seed point at its setup and adopts both arguments as they are.  If
    [X] is given, the setup completes and both timing series are zeros,
    one per row of [X]; if only [Y] is given, sizing the timing series
    from the absent [X] raises [AttributeError] and leaves them as they
    were. *)
Theorem setup_with_arguments X0 Y0 (s : state E H) :
  X0 <> None \/ Y0 <> None ->
  let r := setup C cfg X0 Y0 s in
  env (snd r) = env s /\ trace (snd r) = trace s /\
  X (self (snd r)) = X0 /\ Y (self (snd r)) = Y0 /\
  match X0 with
  | Some xs =>
      fst r = Ok tt /\
      time_func_eval (self (snd r)) = Some (np_zeros (length xs)) /\
      time_optimization_overhead (self (snd r)) = Some (np_zeros (length xs))
  | None =>
      fst r = Raise AttributeError /\
      time_func_eval (self (snd r)) = time_func_eval (self s) /\
      time_optimization_overhead (self (snd r)) =
        time_optimization_overhead (self s)
  end.
Proof.
  intros Hgiven. destruct X0 as [xs|], Y0 as [ys|]; cbn;
    try (repeat split; reflexivity).
  destruct Hgiven; congruence.
Qed.

(** C10 (as amended).  With a save directory configured, a seed iteration
    completes only when [num_save] is not 0, and then ends with one call of
    the checkpoint writer, whatever [num_save] is: on the environment that
    the evaluation of the seed point left, with the seed index, no
    hyperparameters and the acquisition value 0.  A completed
    [initialize(n)] has written exactly these [n] checkpoints, in order. *)
Theorem seed_checkpoints_ignore_cadence dir :
  save_dir cfg = Some dir ->
  (forall i (s s' : state E H),
      lengths (self s) <> None ->
      init_body C cfg i s = (Ok tt, s') ->
      num_save cfg <> 0 /\
      exists p e1 y e2 yi ti,
        uniform C (env s) = (p, e1) /\
        task_evaluate C [p] e1 = (Some y, e2) /\
        env s' = save_iteration C (Z.of_nat i) None 0 e2 /\
        trace s' = trace s ++
          [EvUniform p; EvEvaluate [p] (Some y); EvLog (MsgPerformance yi);
           EvLog (MsgEvalTime ti); EvSave (Z.of_nat i) None 0]) /\
  (forall (written : E -> list (Z * option H * Z)) n (s s' : state E H),
      checkpoint_store written C ->
      initialize C cfg n s = (Ok tt, s') ->
      written (env s') = written (env s) ++ map seed_entry (seq 0 n) /\
      exists tr,
        trace s' = trace s ++ tr /\
        filter is_save tr =
          map (fun i => EvSave (Z.of_nat i) None 0) (seq 0 n)).
Proof.
  intros Hdir.
  assert (Hsome : save_dir cfg <> None) by congruence.
  split.
  - intros i s s' Hlen Hrun.
    destruct (lengths (self s)) as [[[[a b] c] d]|] eqn:Hl; [|congruence].
    destruct (lengths_some _ _ _ _ _ Hl)
      as (xs & ys & tfe & ovh & HX & HY & Htfe & Hovh & _).
    destruct (init_body_ok C cfg i s s' xs ys tfe ovh HX HY Htfe Hovh Hrun)
      as (p & e1 & y & e2 & tfe' & ovh' & xs' & ys' & bi & inc & v & yi & ti
          & s2 & Hu & Hev & _ & _ & _ & _ & _ & _ & _ & _ & -> & Hck).
    pose proof (seed_checkpoint_env C cfg i _ _ Hck) as Henv.
    rewrite Hdir in Henv. cbn [env] in Henv. destruct Henv as (Hnz & Henv).
    destruct (seed_checkpoint_inv C cfg i _ _ _ Hck)
      as (_ & tck & Htr & _ & Hsave).
    rewrite (Hsave eq_refl Hsome) in Htr. cbn [trace] in Htr.
    split; [exact Hnz|].
    exists p, e1, y, e2, yi, ti.
    split; [exact Hu|]. split; [exact Hev|]. split; [exact Henv|].
    rewrite Htr, <- app_assoc. reflexivity.
  - intros written n s s' Hstore Hrun. split.
    + rewrite (initialize_store C cfg written Hstore n s s' Hrun), Hdir.
      reflexivity.
    + destruct (initialize_effect C cfg n s s' Hrun)
        as (tr & b & Htr & _ & Hsv & _).
      exists tr. auto.
Qed.

End RunClaims.

(** ** Independence of the evaluated points from the policy *)

Section PolicyIndependence.
Context {E H V : Type}.
Variable C : collaborators E H.
Variable view : E -> V.
Hypothesis blind : policy_blind view C.

Lemma for_each_ext {A} (l : list A)
    (body1 body2 : A -> M.t (E:=E) (H:=H) unit) :
  (forall a s, body1 a s = body2 a s) ->
  forall s, for_each l body1 s = for_each l body2 s.
Proof.
  intros Hext. induction l as [|a l IH]; intros s; cbn; [reflexivity|].
  unfold M.bind. rewrite Hext. destruct (body2 a s) as [[[]|e] s1]; auto.
Qed.

(** The setup reads the configuration for the seed checkpoints only. *)
Lemma setup_same_but_policy (cfg1 cfg2 : config E) X0 Y0 (s : state E H) :
  same_but_policy cfg1 cfg2 ->
  setup C cfg1 X0 Y0 s = setup C cfg2 X0 Y0 s.
Proof.
  intros (Hdir & Hsave & _).
  destruct X0 as [xs|], Y0 as [ys|];
    [reflexivity|reflexivity|reflexivity|].
  rewrite !setup_unseeded. unfold initialize, M.bind.
  destruct (init_arrays C 3 _) as [[[]|e] s0]; [|reflexivity].
  apply for_each_ext. intros i s1.
  unfold init_body, seed_checkpoint. rewrite Hdir, Hsave. reflexivity.
Qed.

(** The recommendation step leaves the view alone. *)
Lemma recommend_keeps_view (cfg : config E) (s : state E H) r s' :
  strategy_keeps_view view cfg ->
  recommend C cfg s = (r, s') ->
  view (env s') = view (env s).
Proof.
  apply recommend_keeps.
  - exact (blind_uniform blind).
  - exact (blind_posterior blind).
Qed.

(** Checkpoints of two runs that agree on the view keep them agreeing. *)
Lemma checkpoint_view (cfg1 cfg2 : config E) it x (sa sb : state E H)
    ra rb sa' sb' :
  same_but_policy cfg1 cfg2 ->
  view (env sa) = view (env sb) ->
  checkpoint C cfg1 it x sa = (ra, sa') ->
  checkpoint C cfg2 it x sb = (rb, sb') ->
  view (env sa') = view (env sb').
Proof.
  intros (Hdir & Hsave & _) Hview Ha Hb. unfold checkpoint in Ha, Hb.
  rewrite Hdir, Hsave in Ha.
  destruct (save_dir cfg2); [|injection Ha as _ <-; injection Hb as _ <-; assumption].
  m_unfold Ha. m_unfold Hb.
  destruct (num_save cfg2 =? 0); m_unfold Ha; m_unfold Hb;
    [injection Ha as _ <-; injection Hb as _ <-; assumption|].
  destruct (it mod num_save cfg2 =? 0); m_unfold Ha; m_unfold Hb;
    [|injection Ha as _ <-; injection Hb as _ <-; assumption].
  pose proof (blind_acquisition blind x _ _ Hview) as Hacq.
  destruct (acquisition_func C x (env sa)) as [aa ea].
  destruct (acquisition_func C x (env sb)) as [ab eb].
  m_unfold Ha. m_unfold Hb. cbn in Hacq.
  injection Ha as _ <-. injection Hb as _ <-. cbn.
  apply (blind_save blind). assumption.
Qed.

(** One iteration of two runs that agree on the history and on the view:
    both evaluate the same candidate, observe the same value, and agree
    again afterwards. *)
Lemma iteration_same_candidate (cfg1 cfg2 : config E) it
    (sa sb sa' sb' : state E H) xs ys :
  same_but_policy cfg1 cfg2 ->
  strategy_keeps_view view cfg1 -> strategy_keeps_view view cfg2 ->
  X (self sa) = Some xs -> Y (self sa) = Some ys ->
  X (self sb) = Some xs -> Y (self sb) = Some ys ->
  view (env sa) = view (env sb) ->
  iteration C cfg1 it sa = (Ok tt, sa') ->
  iteration C cfg2 it sb = (Ok tt, sb') ->
  exists new_x new_y,
    X (self sa') = Some (xs ++ new_x) /\ Y (self sa') = Some (ys ++ new_y) /\
    X (self sb') = Some (xs ++ new_x) /\ Y (self sb') = Some (ys ++ new_y) /\
    view (env sa') = view (env sb').
Proof.
  intros Hsame Hk1 Hk2 HXa HYa HXb HYb Hview Ha Hb.
  destruct (iteration_ok_inv C cfg1 it sa sa' Ha)
    as (xa & s1a & s2a & xs1a & ys1a & ovha & tfea & ya & e3a & va & y0a & s3a
        & Hcna & Hreca & HX1a & HY1a & _ & _ & _ & Heva & _ & Hs3a & Hcka).
  destruct (iteration_ok_inv C cfg2 it sb sb' Hb)
    as (xb & s1b & s2b & xs1b & ys1b & ovhb & tfeb & yb & e3b & vb & y0b & s3b
        & Hcnb & Hrecb & HX1b & HY1b & _ & _ & _ & Hevb & _ & Hs3b & Hckb).
  destruct Hsame as (Hdir & Hsave & Htrain).
  rewrite HXa, HYa, choose_next_some in Hcna.
  rewrite HXb, HYb, choose_next_some, <- Htrain in Hcnb.
  cbn [self env trace] in Hcna, Hcnb.
  destruct (blind_train blind xs ys (it mod train_intervall cfg1 =? 0)
              _ _ Hview) as (Hfst & Hv1).
  destruct (model_train C xs ys _ (env sa)) as [[ua|] e1a]; [|discriminate].
  destruct (model_train C xs ys _ (env sb)) as [[ub|] e1b]; [|discriminate].
  cbn [fst snd] in Hv1. cbn zeta in Hcna, Hcnb.
  apply (blind_update blind) in Hv1.
  destruct (blind_maximize blind _ _ Hv1) as (Hx & Hv2).
  destruct (maximize C (acquisition_update C e1a)) as [xa' e2a].
  destruct (maximize C (acquisition_update C e1b)) as [xb' e2b].
  cbn [fst snd] in Hx, Hv2. subst xb'.
  injection Hcna as -> <-. injection Hcnb as <- <-.
  cbn [self env X Y set_model_untrained] in *.
  rewrite HXa in HX1a. injection HX1a as <-.
  rewrite HYa in HY1a. injection HY1a as <-.
  rewrite HXb in HX1b. injection HX1b as <-.
  rewrite HYb in HY1b. injection HY1b as <-.
  apply (recommend_keeps_view cfg1 _ _ _ Hk1) in Hreca.
  apply (recommend_keeps_view cfg2 _ _ _ Hk2) in Hrecb.
  cbn [env] in Hreca, Hrecb.
  assert (Hv3 : view (env s2a) = view (env s2b)) by congruence.
  destruct (blind_evaluate blind xa _ _ Hv3) as (Hy & Hv4).
  rewrite Heva, Hevb in Hy, Hv4. cbn [fst snd] in Hy, Hv4.
  injection Hy as <-.
  assert (Hv5 : view (env s3a) = view (env s3b)) by (subst; assumption).
  pose proof (checkpoint_view cfg1 cfg2 it xa s3a s3b _ _ sa' sb'
                (conj Hdir (conj Hsave Htrain)) Hv5 Hcka Hckb) as Hv6.
  apply checkpoint_inv in Hcka, Hckb.
  destruct Hcka as (Hselfa & _). destruct Hckb as (Hselfb & _).
  exists xa, ya. rewrite Hselfa, Hselfb. subst s3a s3b. cbn. auto.
Qed.

(** The same for any number of iterations. *)
Lemma main_loop_same_candidates (cfg1 cfg2 : config E) (its : list Z) :
  same_but_policy cfg1 cfg2 ->
  strategy_keeps_view view cfg1 -> strategy_keeps_view view cfg2 ->
  forall (sa sb sa' sb' : state E H) xs ys,
  X (self sa) = Some xs -> Y (self sa) = Some ys ->
  X (self sb) = Some xs -> Y (self sb) = Some ys ->
  view (env sa) = view (env sb) ->
  for_each its (iteration C cfg1) sa = (Ok tt, sa') ->
  for_each its (iteration C cfg2) sb = (Ok tt, sb') ->
  X (self sa') = X (self sb') /\ Y (self sa') = Y (self sb').
Proof.
  intros Hsame Hk1 Hk2.
  induction its as [|it its IH];
    intros sa sb sa' sb' xs ys HXa HYa HXb HYb Hview Ha Hb; cbn in Ha, Hb.
  - injection Ha as <-. injection Hb as <-. split; congruence.
  - unfold M.bind in Ha, Hb.
    destruct (iteration C cfg1 it sa) as [[[]|e] sa1] eqn:Hita; [|discriminate].
    destruct (iteration C cfg2 it sb) as [[[]|e] sb1] eqn:Hitb; [|discriminate].
    destruct (iteration_same_candidate cfg1 cfg2 it sa sb sa1 sb1 xs ys
                Hsame Hk1 Hk2 HXa HYa HXb HYb Hview Hita Hitb)
      as (new_x & new_y & HXa1 & HYa1 & HXb1 & HYb1 & Hview1).
    exact (IH sa1 sb1 sa' sb' _ _ HXa1 HYa1 HXb1 HYb1 Hview1 Ha Hb).
Qed.

End PolicyIndependence.

Section Candidates.
Context {E H : Type}.
Variable C : collaborators E H.


End Candidates.

(** The scripted model, task and fixed maximizer read and write the
    counters of evaluations and fits only. *)
Lemma scripted_policy_blind table :
  policy_blind script_view (scripted table false).
Proof.
  constructor; cbn.
  - intros xs ys b e1 e2 Hv. unfold script_view in *. cbn.
    injection Hv as Hev Htr. rewrite Hev, Htr. auto.
  - intros e1 e2 Hv. exact Hv.
  - intros e1 e2 Hv. cbn. auto.
  - intros x e1 e2 Hv. unfold script_view in *. cbn.
    injection Hv as Hev Htr. rewrite Hev, Htr. auto.
  - intros x e1 e2 Hv. exact Hv.
  - intros it h1 h2 a1 a2 e1 e2 Hv. exact Hv.
  - intros e. reflexivity.
  - intros sp g e. reflexivity.
Qed.



(** ** The claims on scripted runs *)

(** The scripted writer keeps the checkpoints in [saved], and no other
    scripted collaborator touches them. *)
Lemma scripted_checkpoint_store table b :
  checkpoint_store saved (scripted table b).
Proof.
  constructor; try (intros; reflexivity); unfold keeps_view; cbn;
    try (intros; reflexivity).
  intros e. unfold script_maximize. destruct b; reflexivity.
Qed.

(** The amended C3 on a scripted iteration under Policy C. *)
Lemma overhead_covers_recommendation_witness :
  let C := scripted (nums [3; 2; 1; 5; 0]) false in
  let cfg := policy_C 2 in
  let s := scripted_seeded in
  let s' := snd (iteration C cfg 3 s) in
  iteration C cfg 3 s = (Ok tt, s') /\
  exists new_x s1 s2 ovh v,
    choose_next C cfg (X (self s)) (Y (self s))
      (3 mod train_intervall cfg =? 0)
      {| self := self s; env := env s;
         trace := trace s ++ [EvLog (MsgStartIteration 3)] |} = (Ok new_x, s1) /\
    recommend C cfg s1 = (Ok tt, s2) /\
    time_optimization_overhead (self s1) = Some ovh /\
    time_optimization_overhead (self s') =
      Some (ovh ++ [now C (env s2) - now C (env s)]) /\
    In (EvLog (MsgNewIncumbent (incumbent (self s2))
                 (now C (env s2) - now C (env s1)) v)) (trace s').
Proof.
  intros C cfg s s'.
  assert (Hit : iteration C cfg 3 s = (Ok tt, s'))
    by (vm_compute; reflexivity).
  split; [exact Hit|].
  exact (overhead_covers_recommendation C cfg 3 s s' Hit).
Defined.

(** C3 as stated fails: in this iteration [choose_next], that is training
    and maximization, takes 5 time units, the recommendation step with its
    two draws and two local searches is logged with 16, and the entry
    appended to [time_optimization_overhead] is 21, not 5. *)
Lemma overhead_exceeds_candidate_selection :
  let C := scripted (nums [3; 2; 1; 5; 0]) false in
  let cn := choose_next C (policy_C 2) (Some [[1]; [9]]) (Some (nums [20; 10])) true
              {| self := self scripted_seeded; env := env scripted_seeded;
                 trace := [EvLog (MsgStartIteration 3)] |} in
  let r := iteration C (policy_C 2) 3 scripted_seeded in
  fst cn = Ok [[5]] /\
  now C (env (snd cn)) - now C (env scripted_seeded) = 5 /\
  fst r = Ok tt /\
  time_optimization_overhead (self (snd r)) = Some [0; 0; 21] /\
  In (EvLog (MsgNewIncumbent (Some [1]) 16 (Num 99))) (trace (snd r)) /\
  time_optimization_overhead (self (snd r)) <> Some [0; 0; 5].
Proof.
  vm_compute. repeat split; try discriminate.
  repeat (first [left; reflexivity | right]).
Qed.

(** The amended C4 on a seeded scripted run: two seed points and
    [num_iterations = 4] give one iteration and three observations. *)
Lemma loop_starts_at_three_witness :
  let C := scripted (nums [3; 2; 1; 5; 0]) false in
  let X0 := Some [[1]; [9]] in
  let Y0 := Some (nums [20; 10]) in
  let s' := snd (run C policy_A 4 X0 Y0 scripted_start) in
  one_value_per_point C /\ one_candidate C /\
  seed_length X0 Y0 = Some 2%nat /\
  run C policy_A 4 X0 Y0 scripted_start = (Ok (Some [9], Num 10), s') /\
  exists xs ys tr,
    X (self s') = Some xs /\ Y (self s') = Some ys /\
    length xs = (2 + Z.to_nat (4 - 3))%nat /\
    length ys = (2 + Z.to_nat (4 - 3))%nat /\
    trace s' = trace scripted_start ++ tr /\
    length (filter is_maximize tr) = Z.to_nat (4 - 3).
Proof.
  intros C X0 Y0 s'.
  assert (Hrun : run C policy_A 4 X0 Y0 scripted_start
                 = (Ok (Some [9], Num 10), s')) by (vm_compute; reflexivity).
  split; [apply scripted_one_value_per_point|].
  split; [apply scripted_one_candidate|].
  split; [reflexivity|]. split; [exact Hrun|].
  exact (loop_starts_at_three C policy_A 4 X0 Y0 2%nat scripted_start s'
           (Some [9]) (Num 10) (scripted_one_value_per_point _ _)
           (scripted_one_candidate _ _) eq_refl Hrun).
Defined.

(** C4 as stated fails for a seed of two points and [num_iterations = 4]:
    the run makes one main-loop iteration, not two, and ends with three
    observations, not four; and an un-seeded run with [num_iterations = 1]
    ends with three observations. *)
Lemma seeded_run_ignores_seed_length :
  let C := scripted (nums [3; 2; 1; 5; 0]) false in
  let r := run C policy_A 4 (Some [[1]; [9]]) (Some (nums [20; 10])) scripted_start in
  let r1 := run C policy_A 1 None None scripted_start in
  fst r = Ok (Some [9], Num 10) /\
  X (self (snd r)) = Some [[1]; [9]; [5]] /\
  Y (self (snd r)) = Some (nums [20; 10; 3]) /\
  length (filter is_maximize (trace (snd r))) = 1%nat /\
  length (filter is_maximize (trace (snd r))) <> Z.to_nat (4 - 2) /\
  fst r1 = Ok (Some [2], Num 1) /\
  X (self (snd r1)) = Some [[0]; [1]; [2]].
Proof. vm_compute. repeat split. discriminate. Qed.

(** The amended C6 on a scripted iteration with [n_restarts = 2]: three
    start points. *)
Lemma posterior_policy_calls_once_witness :
  let C := scripted (nums [3; 2; 1; 5; 0]) false in
  let cfg := policy_B 2 in
  let s := scripted_seeded in
  let s' := snd (iteration C cfg 3 s) in
  recommendation_strategy cfg = Some PosteriorMeanAndStd /\
  iteration C cfg 3 s = (Ok tt, s') /\
  exists new_x s1 s2 randoms xs ys i best v q e1 tr,
    choose_next C cfg (X (self s)) (Y (self s))
      (3 mod train_intervall cfg =? 0)
      {| self := self s; env := env s;
         trace := trace s ++ [EvLog (MsgStartIteration 3)] |} = (Ok new_x, s1) /\
    recommend C cfg s1 = (Ok tt, s2) /\
    X (self s1) = Some xs /\ Y (self s1) = Some ys /\
    np_argmin ys = Some i /\ nth_error xs i = Some best /\
    nth_error ys i = Some v /\
    (no_nan ys ->
     (forall y, In y ys -> fle v y) /\
     (forall j y, (j < i)%nat -> nth_error ys j = Some y -> flt v y)) /\
    (In NaN ys ->
     v = NaN /\ forall j, (j < i)%nat -> nth_error ys j <> Some NaN) /\
    draws C (n_restarts cfg) (env s1) = (randoms, e1) /\
    length randoms = n_restarts cfg /\
    length (randoms ++ [best]) = S (n_restarts cfg) /\
    optimize_posterior_mean_and_std C (randoms ++ [best]) true e1
      = (Some q, env s2) /\
    trace s2 = trace s1 ++ [EvLog MsgOptimizePosterior] ++ map EvUniform randoms
                 ++ [EvPosterior (randoms ++ [best]) true (Some q)] /\
    trace s' = trace s ++ tr /\
    filter is_posterior tr = [EvPosterior (randoms ++ [best]) true (Some q)] /\
    filter is_strategy tr = [] /\
    incumbent (self s') = Some (fst q) /\
    incumbent_value (self s') = Some (snd q) /\
    (forall xs0 ys0, X (self s) = Some xs0 -> Y (self s) = Some ys0 ->
                     xs = xs0 /\ ys = ys0).
Proof.
  intros C cfg s s'.
  assert (Hit : iteration C cfg 3 s = (Ok tt, s'))
    by (vm_compute; reflexivity).
  split; [reflexivity|]. split; [exact Hit|].
  exact (posterior_policy_calls_once C cfg 3 s s' eq_refl Hit).
Defined.

(** C6 as stated fails when an observation is NaN: the scripted task
    answers 3, NaN and 1 at the seed points [[0]], [[1]] and [[2]]; the
    best observed point is [[2]] with the value 1, yet the start points of
    the optimizer are the drawn point [[3]] and [[1]], the point of the
    NaN, which [np.argmin] returns. *)
Lemma posterior_start_point_follows_argmin :
  let C := scripted [Num 3; NaN; Num 1; Num 5; Num 0] false in
  let r := run C (policy_B 1) 4 None None scripted_start in
  fst r = Ok (Some [3], Num 42) /\
  X (self (snd r)) = Some [[0]; [1]; [2]; [5]] /\
  Y (self (snd r)) = Some [Num 3; NaN; Num 1; Num 5] /\
  np_argmin [Num 3; NaN; Num 1] = Some 1%nat /\
  filter is_posterior (trace (snd r))
    = [EvPosterior [[3]; [1]] true (Some ([3], Num 42))] /\
  ~ In [2] [[3]; [1]].
Proof.
  vm_compute. repeat split. intros [Heq|[Heq|[]]]; discriminate.
Qed.

(** The amended C7 on a scripted iteration with [n_restarts = 2]: two
    calls. *)
Lemma generic_policy_calls_per_startpoint_witness :
  let C := scripted (nums [3; 2; 1; 5; 0]) false in
  let cfg := policy_C 2 in
  let s := scripted_seeded in
  let s' := snd (iteration C cfg 3 s) in
  recommendation_strategy cfg = Some (OtherStrategy script_local_search) /\
  iteration C cfg 3 s = (Ok tt, s') /\
  exists new_x s1 s2 randoms results rows best p v e1 tr,
    choose_next C cfg (X (self s)) (Y (self s))
      (3 mod train_intervall cfg =? 0)
      {| self := self s; env := env s;
         trace := trace s ++ [EvLog (MsgStartIteration 3)] |} = (Ok new_x, s1) /\
    recommend C cfg s1 = (Ok tt, s2) /\
    (0 < n_restarts cfg)%nat /\
    draws C (n_restarts cfg) (env s1) = (randoms, e1) /\
    answers script_local_search randoms e1 = (Some results, env s2) /\
    length randoms = n_restarts cfg /\ length results = n_restarts cfg /\
    map (fun q => np_set_row (n_dims C) (fst q)) results = map Some rows /\
    trace s2 = trace s1 ++ map EvUniform randoms
                 ++ map (fun q => EvStrategy (fst q) (Some (snd q)))
                        (combine randoms results) /\
    trace s' = trace s ++ tr /\
    filter is_strategy tr =
      map (fun q => EvStrategy (fst q) (Some (snd q))) (combine randoms results) /\
    length (filter is_strategy tr) = n_restarts cfg /\
    filter is_posterior tr = [] /\
    np_argmin (map snd results) = Some best /\
    nth_error rows best = Some p /\
    nth_error (map snd results) best = Some v /\
    (no_nan (map snd results) ->
     (forall q, In q results -> fle v (snd q)) /\
     (forall j w, (j < best)%nat ->
        nth_error (map snd results) j = Some w -> flt v w)) /\
    (In NaN (map snd results) ->
     v = NaN /\
     forall j, (j < best)%nat -> nth_error (map snd results) j <> Some NaN) /\
    incumbent (self s') = Some p /\ incumbent_value (self s') = Some v.
Proof.
  intros C cfg s s'.
  assert (Hit : iteration C cfg 3 s = (Ok tt, s'))
    by (vm_compute; reflexivity).
  split; [reflexivity|]. split; [exact Hit|].
  exact (generic_policy_calls_per_startpoint C cfg 3 script_local_search
           s s' eq_refl Hit).
Defined.

(** C7 as stated fails for [n_restarts = 0]: there is no start point and
    no call, [np.argmin] of the empty [fval] raises, the iteration ends
    with [ValueError] and no incumbent is set. *)
Lemma no_restart_sets_no_incumbent :
  let C := scripted (nums [3; 2; 1; 5; 0]) false in
  let r := iteration C (policy_C 0) 3 scripted_seeded in
  n_restarts (policy_C 0) = 0%nat /\
  fst r = Raise ValueError /\
  filter is_strategy (trace (snd r)) = [] /\
  incumbent (self (snd r)) = None /\
  incumbent_value (self (snd r)) = None /\
  fst r <> Ok tt.
Proof. vm_compute. repeat split. discriminate. Qed.



(** The amended C9 when only [X] is given. *)
Lemma setup_with_arguments_witness :
  let C := scripted (nums [3; 2; 1; 5; 0]) false in
  let X0 := Some [[1]; [9]] in
  let r := setup C policy_A X0 None scripted_start in
  (X0 <> None \/ @None (list float64) <> None) /\
  env (snd r) = env scripted_start /\ trace (snd r) = trace scripted_start /\
  X (self (snd r)) = X0 /\ Y (self (snd r)) = None /\
  fst r = Ok tt /\
  time_func_eval (self (snd r)) = Some (np_zeros 2) /\
  time_optimization_overhead (self (snd r)) = Some (np_zeros 2).
Proof.
  intros C X0 r.
  assert (Hgiven : X0 <> None \/ @None (list float64) <> None)
    by (left; discriminate).
  split; [exact Hgiven|].
  exact (setup_with_arguments C policy_A X0 None scripted_start Hgiven).
Defined.

(** C9 as stated fails when only [Y] is given: the setup ends with
    [AttributeError] and the timing series are not sized at all. *)
Lemma setup_fails_with_only_Y :
  let r := setup (scripted (nums [3; 2; 1; 5; 0]) false) policy_A
                 None (Some (nums [20; 10])) scripted_start in
  fst r = Raise AttributeError /\
  X (self (snd r)) = None /\ Y (self (snd r)) = Some (nums [20; 10]) /\
  time_func_eval (self (snd r)) = None /\
  time_optimization_overhead (self (snd r)) = None /\
  fst r <> Ok tt.
Proof. vm_compute. repeat split. discriminate. Qed.

(** The amended C10 on a scripted initialization with [num_save = 5]: a
    checkpoint after the first seed, and after each of the three seeds. *)
Lemma seed_checkpoints_ignore_cadence_witness :
  let C := scripted (nums [3; 2; 1; 5; 0]) false in
  let cfg := policy_A_saving 5 in
  let s0 := snd (init_arrays C 3 scripted_start) in
  let s1 := snd (init_body C cfg 0 s0) in
  let s' := snd (initialize C cfg 3 scripted_start) in
  save_dir cfg = Some "runs"%string /\
  (lengths (self s0) <> None /\
   init_body C cfg 0 s0 = (Ok tt, s1) /\
   num_save cfg <> 0 /\
   exists p e1 y e2 yi ti,
     uniform C (env s0) = (p, e1) /\
     task_evaluate C [p] e1 = (Some y, e2) /\
     env s1 = save_iteration C (Z.of_nat 0) None 0 e2 /\
     trace s1 = trace s0 ++
       [EvUniform p; EvEvaluate [p] (Some y); EvLog (MsgPerformance yi);
        EvLog (MsgEvalTime ti); EvSave (Z.of_nat 0) None 0]) /\
  (checkpoint_store saved C /\
   initialize C cfg 3 scripted_start = (Ok tt, s') /\
   saved (env s') = saved (env scripted_start)
                    ++ [(0, None, 0); (1, None, 0); (2, None, 0)] /\
   exists tr,
     trace s' = trace scripted_start ++ tr /\
     filter is_save tr =
       [EvSave 0 None 0; EvSave 1 None 0; EvSave 2 None 0]).
Proof.
  intros C cfg s0 s1 s'.
  destruct (seed_checkpoints_ignore_cadence C cfg "runs"%string eq_refl)
    as [Hseed Hinit].
  assert (Hlen : lengths (self s0) <> None) by (vm_compute; discriminate).
  assert (Hbody : init_body C cfg 0 s0 = (Ok tt, s1))
    by (vm_compute; reflexivity).
  assert (Hrun : initialize C cfg 3 scripted_start = (Ok tt, s'))
    by (vm_compute; reflexivity).
  split; [reflexivity|]. split.
  - split; [exact Hlen|]. split; [exact Hbody|].
    exact (Hseed 0%nat s0 s1 Hlen Hbody).
  - split; [apply scripted_checkpoint_store|]. split; [exact Hrun|].
    exact (Hinit saved 3%nat scripted_start s'
             (scripted_checkpoint_store _ _) Hrun).
Defined.

(** C10 as stated fails for [num_save = 0]: the cadence test [0 % 0] raises
    after the first seed point has been evaluated, and no checkpoint is
    written. *)
Lemma zero_cadence_writes_no_seed_checkpoint :
  let C := scripted (nums [3; 2; 1; 5; 0]) false in
  let r := initialize C (policy_A_saving 0) 3 scripted_start in
  save_dir (policy_A_saving 0) = Some "runs"%string /\
  fst r = Raise ZeroDivisionError /\
  filter is_evaluate (trace (snd r)) = [EvEvaluate [[0]] (Some [Num 3])] /\
  filter is_save (trace (snd r)) = [] /\
  saved (env (snd r)) = [] /\
  fst r <> Ok tt.
Proof. vm_compute. repeat split. discriminate. Qed.

(** ** Further properties of the loop *)

Lemma flat_map_none {A B} (p : A -> bool) (f : A -> list B) (l : list A) :
  (forall a, p a = true -> f a = []) ->
  forallb p l = true -> flat_map f l = [].
Proof.
  intros Hpf. induction l as [|a l IH]; cbn; [reflexivity|].
  intros Hl. apply andb_prop in Hl. destruct Hl as [Ha Hl].
  rewrite (Hpf a Ha), (IH Hl). reflexivity.
Qed.

Section Anatomy.
Context {E H : Type}.
Variable C : collaborators E H.
Variable cfg : config E.

(** What a checkpoint that completes has written. *)
Lemma checkpoint_ok_trace it x (s s' : state E H) :
  checkpoint C cfg it x s = (Ok tt, s') ->
  self s' = self s /\
  trace s' = trace s ++
    match save_dir cfg with
    | Some _ =>
        if it mod num_save cfg =? 0
        then [EvAcquisition x (fst (acquisition_func C x (env s)));
              EvSave it (Some (model_hypers C (env s)))
                     (fst (acquisition_func C x (env s)))]
        else []
    | None => []
    end.
Proof.
  unfold checkpoint. intros Hrun.
  destruct (save_dir cfg); m_unfold Hrun.
  - destruct (num_save cfg =? 0); m_unfold Hrun; [discriminate|].
    destruct (it mod num_save cfg =? 0); m_unfold Hrun.
    + destruct (acquisition_func C x (env s)) as [a e1]. m_unfold Hrun.
      injection Hrun as <-. cbn. rewrite <- app_assoc. auto.
    + injection Hrun as <-. rewrite app_nil_r. auto.
  - injection Hrun as <-. rewrite app_nil_r. auto.
Qed.

(** The whole trace of a completed iteration on an existing history. *)
Lemma iteration_ok_anatomy it (s s' : state E H) xs ys :
  X (self s) = Some xs -> Y (self s) = Some ys ->
  iteration C cfg it s = (Ok tt, s') ->
  exists u e1 new_x e2 (s2 : state E H) new_y e3 v y00 trec,
    model_train C xs ys (it mod train_intervall cfg =? 0) (env s)
      = (Some u, e1) /\
    maximize C (acquisition_update C e1) = (new_x, e2) /\
    task_evaluate C new_x (env s2) = (Some new_y, e3) /\
    forallb is_recommendation trec = true /\
    recommend C cfg
      {| self := set_model_untrained false (self s); env := e2;
         trace := (trace s ++ [EvLog (MsgStartIteration it)])
                  ++ choose_next_trace xs ys
                       (it mod train_intervall cfg =? 0) u new_x
                       (now C e1 - now C (env s))
                       (now C e2 - now C (acquisition_update C e1)) |}
      = (Ok tt, s2) /\
    self s' =
      set_Y (Some (ys ++ new_y))
        (set_X (Some (xs ++ new_x))
           (set_time_func_eval
              (option_map (fun l => l ++ [now C e3 - now C (env s2)])
                          (time_func_eval (self s)))
              (set_time_optimization_overhead
                 (option_map (fun l => l ++ [now C (env s2) - now C (env s)])
                             (time_optimization_overhead (self s)))
                 (self s2)))) /\
    model_untrained (self s2) = false /\
    trace s' =
      trace s ++ [EvLog (MsgStartIteration it)]
        ++ choose_next_trace xs ys (it mod train_intervall cfg =? 0) u new_x
             (now C e1 - now C (env s))
             (now C e2 - now C (acquisition_update C e1))
        ++ trec
        ++ evaluation_trace (incumbent (self s2)) (now C (env s2) - now C e2)
             v (now C (env s2) - now C (env s)) new_x new_y y00
             (now C e3 - now C (env s2))
        ++ match save_dir cfg with
           | Some _ =>
               if it mod num_save cfg =? 0
               then [EvAcquisition new_x (fst (acquisition_func C new_x e3));
                     EvSave it (Some (model_hypers C e3))
                            (fst (acquisition_func C new_x e3))]
               else []
           | None => []
           end.
Proof.
  intros HX HY Hrun.
  destruct (iteration_ok_inv C cfg it s s' Hrun)
    as (new_x & s1 & s2 & xs1 & ys1 & ovh & tfe & new_y & e3 & v & y00 & s3
        & Hcn & Hrec & HX1 & HY1 & Hovh & Htfe & Hv & Hev & Hy00 & Hs3 & Hck).
  rewrite HX, HY, choose_next_some in Hcn. cbn [env self trace] in Hcn.
  destruct (model_train C xs ys (it mod train_intervall cfg =? 0) (env s))
    as [[u|] e1] eqn:Htrain; [|discriminate].
  cbn zeta in Hcn.
  destruct (maximize C (acquisition_update C e1)) as [x e2] eqn:Hmax.
  injection Hcn as -> <-. cbn [self env trace] in *.
  cbn [X Y time_func_eval time_optimization_overhead set_model_untrained]
    in HX1, HY1, Hovh, Htfe.
  rewrite HX in HX1. injection HX1 as <-.
  rewrite HY in HY1. injection HY1 as <-.
  destruct (recommend_ok_events _ _ _ _ Hrec) as (trec & Htrec & Hall).
  destruct (recommend_frame C cfg _ _ _ Hrec) as (_ & _ & _ & _ & Hflag & _).
  cbn [self trace model_untrained set_model_untrained] in Htrec, Hflag.
  destruct (checkpoint_ok_trace it new_x s3 s' Hck) as (Hself & Htck).
  subst s3. cbn [self env trace] in *.
  exists u, e1, new_x, e2, s2, new_y, e3, v, y00, trec.
  rewrite Hself, Htck, Htrec, Hovh, Htfe. cbn [option_map].
  repeat (split; [reflexivity || assumption|]).
  rewrite <- !app_assoc. reflexivity.
Qed.

End Anatomy.

Section SavedIndices.
Context {E H : Type}.
Variable C : collaborators E H.
Variable cfg : config E.

Lemma event_saved_filter (tr : list (event H)) :
  flat_map event_saved tr = flat_map event_saved (filter is_save tr).
Proof.
  induction tr as [|ev tr IH]; [reflexivity|].
  destruct ev; cbn; rewrite ?IH; reflexivity.
Qed.

(** The iteration indices a loop over iterations saves. *)
Lemma main_loop_saved (its : list Z) : forall (s s' : state E H) xs ys,
  X (self s) = Some xs -> Y (self s) = Some ys ->
  for_each its (iteration C cfg) s = (Ok tt, s') ->
  exists tr,
    trace s' = trace s ++ tr /\
    flat_map event_saved tr =
      match save_dir cfg with
      | Some _ => filter (fun it => it mod num_save cfg =? 0) its
      | None => []
      end.
Proof.
  induction its as [|it its IH]; intros s s' xs ys HX HY Hrun; cbn in Hrun.
  - injection Hrun as <-. exists []. rewrite app_nil_r.
    destruct (save_dir cfg); auto.
  - unfold M.bind in Hrun.
    destruct (iteration C cfg it s) as [[[]|e] s1] eqn:Hit; [|discriminate].
    destruct (iteration_ok_anatomy C cfg it s s1 xs ys HX HY Hit)
      as (u & e1 & new_x & e2 & s2 & new_y & e3 & v & y00 & trec
          & _ & _ & _ & Hall & _ & Hself & _ & Htr).
    assert (HX1 : X (self s1) = Some (xs ++ new_x)) by (rewrite Hself; reflexivity).
    assert (HY1 : Y (self s1) = Some (ys ++ new_y)) by (rewrite Hself; reflexivity).
    destruct (IH s1 s' _ _ HX1 HY1 Hrun) as (tr & Htr' & Hsaved).
    eexists. split; [rewrite Htr', Htr, <- app_assoc; reflexivity|].
    rewrite !flat_map_app, Hsaved.
    rewrite (flat_map_none is_recommendation event_saved trec)
      by (assumption || (intros []; cbn; congruence)).
    cbn [filter].
    destruct (save_dir cfg); [destruct (it mod num_save cfg =? 0)|];
      reflexivity.
Qed.

End SavedIndices.

(** ** The checkpoints of the main loop *)

Section IterationStore.
Context {E H : Type}.
Variable C : collaborators E H.
Variable cfg : config E.

(** A completed checkpoint, as the collaborators see it: the acquisition
    function is evaluated and the writer called when the iteration is
    due, and nothing is called otherwise. *)
Lemma checkpoint_ok_env it x (s s' : state E H) :
  checkpoint C cfg it x s = (Ok tt, s') ->
  env s' =
    match save_dir cfg with
    | Some _ =>
        if it mod num_save cfg =? 0
        then save_iteration C it (Some (model_hypers C (env s)))
               (fst (acquisition_func C x (env s)))
               (snd (acquisition_func C x (env s)))
        else env s
    | None => env s
    end.
Proof.
  unfold checkpoint, divides. intros Hrun.
  destruct (save_dir cfg); [|injection Hrun as <-; reflexivity].
  destruct (num_save cfg =? 0); [discriminate|]. m_unfold Hrun.
  destruct (it mod num_save cfg =? 0); m_unfold Hrun.
  - destruct (acquisition_func C x (env s)) as [a e1]. m_unfold Hrun.
    injection Hrun as <-. reflexivity.
  - injection Hrun as <-. reflexivity.
Qed.

(** A completed iteration on an existing history, as the collaborators see
    it up to the checkpoint. *)
Lemma iteration_ok_env it (s s' : state E H) xs ys :
  X (self s) = Some xs -> Y (self s) = Some ys ->
  iteration C cfg it s = (Ok tt, s') ->
  exists new_x s1 s2 new_y e3,
    choose_next C cfg (Some xs) (Some ys) (it mod train_intervall cfg =? 0)
      {| self := self s; env := env s;
         trace := trace s ++ [EvLog (MsgStartIteration it)] |} = (Ok new_x, s1) /\
    recommend C cfg s1 = (Ok tt, s2) /\
    task_evaluate C new_x (env s2) = (Some new_y, e3) /\
    X (self s') = Some (xs ++ new_x) /\ Y (self s') = Some (ys ++ new_y) /\
    env s' =
      match save_dir cfg with
      | Some _ =>
          if it mod num_save cfg =? 0
          then save_iteration C it (Some (model_hypers C e3))
                 (fst (acquisition_func C new_x e3))
                 (snd (acquisition_func C new_x e3))
          else e3
      | None => e3
      end.
Proof.
  intros HX HY Hrun.
  destruct (iteration_ok_inv C cfg it s s' Hrun)
    as (new_x & s1 & s2 & xs1 & ys1 & ovh & tfe & new_y & e3 & v & y00 & s3
        & Hcn & Hrec & HX1 & HY1 & _ & _ & _ & Hev & _ & -> & Hck).
  rewrite HX, HY in Hcn.
  assert (Hs1 : X (self s1) = Some xs /\ Y (self s1) = Some ys).
  { pose proof Hcn as Hcn'. rewrite choose_next_some in Hcn'.
    cbn [self env trace] in Hcn'.
    destruct (model_train C xs ys (it mod train_intervall cfg =? 0) (env s))
      as [[u|] e1]; [|discriminate].
    cbn zeta in Hcn'. destruct (maximize C (acquisition_update C e1)).
    injection Hcn' as _ <-. cbn. auto. }
  destruct Hs1 as (HXs & HYs).
  rewrite HXs in HX1. rewrite HYs in HY1.
  injection HX1 as <-. injection HY1 as <-.
  pose proof (checkpoint_ok_env _ _ _ _ Hck) as Henv.
  apply checkpoint_inv in Hck. destruct Hck as (Hself & _).
  cbn [self env] in Hself, Henv.
  exists new_x, s1, s2, new_y, e3. rewrite Hself. cbn.
  repeat (split; [assumption || reflexivity|]). exact Henv.
Qed.

Section Written.
Variable written : E -> list (Z * option H * Z).
Hypothesis store : checkpoint_store written C.
Hypothesis strat : strategy_keeps_view written cfg.

(** A completed iteration adds its checkpoint, when it is due, and nothing
    else to what is written. *)
Lemma iteration_store it (s s' : state E H) xs ys :
  X (self s) = Some xs -> Y (self s) = Some ys ->
  iteration C cfg it s = (Ok tt, s') ->
  exists new_x new_y e3 h a,
    X (self s') = Some (xs ++ new_x) /\ Y (self s') = Some (ys ++ new_y) /\
    h = model_hypers C e3 /\ a = fst (acquisition_func C new_x e3) /\
    written (env s') =
      written (env s) ++
      match save_dir cfg with
      | Some _ => if it mod num_save cfg =? 0 then [(it, Some h, a)] else []
      | None => []
      end.
Proof.
  intros HX HY Hrun.
  destruct (iteration_ok_env it s s' xs ys HX HY Hrun)
    as (new_x & s1 & s2 & new_y & e3 & Hcn & Hrec & Hev & HX' & HY' & Henv).
  assert (H1 : written (env s1) = written (env s)).
  { rewrite choose_next_some in Hcn. cbn [self env trace] in Hcn.
    pose proof (store_train store xs ys (it mod train_intervall cfg =? 0)
                  (env s)) as Hk1.
    destruct (model_train C xs ys (it mod train_intervall cfg =? 0) (env s))
      as [[u|] e1]; [|discriminate].
    cbn zeta in Hcn.
    pose proof (store_maximize store (acquisition_update C e1)) as Hk2.
    destruct (maximize C (acquisition_update C e1)) as [x e2].
    injection Hcn as _ <-. cbn in Hk1, Hk2 |- *.
    rewrite Hk2, (store_update store). exact Hk1. }
  assert (H2 : written (env s2) = written (env s1)).
  { apply (recommend_keeps C written cfg s1 (Ok tt) s2);
      [exact (store_uniform store)|exact (store_posterior store)
      |exact strat|exact Hrec]. }
  assert (H3 : written e3 = written (env s2)).
  { pose proof (store_evaluate store new_x (env s2)) as Hk.
    rewrite Hev in Hk. exact Hk. }
  exists new_x, new_y, e3, (model_hypers C e3),
    (fst (acquisition_func C new_x e3)).
  split; [exact HX'|]. split; [exact HY'|].
  split; [reflexivity|]. split; [reflexivity|].
  rewrite Henv.
  destruct (save_dir cfg); [destruct (it mod num_save cfg =? 0)|];
    rewrite ?(store_save store), ?(store_acquisition store new_x e3),
      ?app_nil_r;
    congruence.
Qed.

(** Over a loop of completed iterations: the checkpoints written are those
    of the iterations that are due, in order, each with hyperparameters. *)
Lemma main_loop_store (its : list Z) : forall (s s' : state E H) xs ys,
  X (self s) = Some xs -> Y (self s) = Some ys ->
  for_each its (iteration C cfg) s = (Ok tt, s') ->
  exists ws,
    written (env s') = written (env s) ++ ws /\
    map entry_index ws =
      match save_dir cfg with
      | Some _ => filter (fun it => it mod num_save cfg =? 0) its
      | None => []
      end /\
    Forall (fun w => snd (fst w) <> None) ws.
Proof.
  induction its as [|it its IH]; intros s s' xs ys HX HY Hrun; cbn in Hrun.
  - injection Hrun as <-. exists []. rewrite app_nil_r.
    destruct (save_dir cfg); auto.
  - unfold M.bind in Hrun.
    destruct (iteration C cfg it s) as [[[]|e] s1] eqn:Hit; [|discriminate].
    destruct (iteration_store it s s1 xs ys HX HY Hit)
      as (new_x & new_y & e3 & h & a & HX1 & HY1 & _ & _ & Hw1).
    destruct (IH s1 s' _ _ HX1 HY1 Hrun) as (ws & Hw & Hidx & Hall).
    rewrite Hw, Hw1, <- app_assoc.
    eexists. split; [reflexivity|].
    cbn [filter].
    destruct (save_dir cfg); [destruct (it mod num_save cfg =? 0)|];
      cbn [app map]; (split; [rewrite Hidx; reflexivity|]);
      try constructor; try assumption.
    cbn. discriminate.
Qed.

End Written.
End IterationStore.

Section Training.
Context {E H : Type}.
Variable C : collaborators E H.
Variable cfg : config E.


(** X2.  Training failure.  When the model cannot be fitted to the
    history, the iteration, and the loop with it, ends with the model's
    failure: nothing of the solver object has changed, not even
    [model_untrained], and neither the acquisition function, the
    maximizer, the strategy nor the task has been called. *)
Theorem training_failure_changes_nothing it (rest : list Z)
    (s : state E H) xs ys e1 :
  X (self s) = Some xs -> Y (self s) = Some ys ->
  train_intervall cfg <> 0 ->
  model_train C xs ys (it mod train_intervall cfg =? 0) (env s) = (None, e1) ->
  for_each (it :: rest) (iteration C cfg) s =
    (Raise TrainingFailure,
     {| self := self s; env := e1;
        trace := trace s ++
          [EvLog (MsgStartIteration it); EvLog MsgTrainModel;
           EvTrain xs ys (it mod train_intervall cfg =? 0) None;
           EvLog MsgNotTrained] |}).
Proof.
  intros HX HY Hti Htrain. apply for_each_raise.
  destruct (iteration C cfg it s) as [r s1] eqn:Hrun.
  unfold iteration in Hrun. m_unfold Hrun.
  destruct (train_intervall cfg =? 0) eqn:Hz;
    [apply Z.eqb_eq in Hz; contradiction|].
  m_unfold Hrun. rewrite HX, HY, choose_next_some in Hrun.
  cbn [self env trace] in Hrun. rewrite Htrain in Hrun.
  injection Hrun as <- <-. rewrite <- app_assoc. reflexivity.
Qed.

(** X3.  Checkpoint cadence of the main loop.  A completed iteration on an
    existing history calls the checkpoint writer iff a directory is
    configured and the iteration index is a multiple of [num_save]; it
    does so after the evaluation of its candidate, with the index, the
    hyperparameters the model has then and the acquisition value at the
    candidate computed then, and calls nothing after the evaluation
    otherwise.  Over consecutive iterations the checkpoints written are
    those of the multiples of [num_save] among the iteration indices, in
    order, each with hyperparameters. *)
Theorem checkpoint_follows_num_save :
  (forall it (s s' : state E H) xs ys,
      X (self s) = Some xs -> Y (self s) = Some ys ->
      iteration C cfg it s = (Ok tt, s') ->
      exists new_x s1 s2 new_y e3,
        choose_next C cfg (Some xs) (Some ys)
          (it mod train_intervall cfg =? 0)
          {| self := self s; env := env s;
             trace := trace s ++ [EvLog (MsgStartIteration it)] |}
          = (Ok new_x, s1) /\
        recommend C cfg s1 = (Ok tt, s2) /\
        task_evaluate C new_x (env s2) = (Some new_y, e3) /\
        X (self s') = Some (xs ++ new_x) /\ Y (self s') = Some (ys ++ new_y) /\
        env s' =
          match save_dir cfg with
          | Some _ =>
              if it mod num_save cfg =? 0
              then save_iteration C it (Some (model_hypers C e3))
                     (fst (acquisition_func C new_x e3))
                     (snd (acquisition_func C new_x e3))
              else e3
          | None => e3
          end) /\
  (forall (written : E -> list (Z * option H * Z)) (its : list Z)
          (s s' : state E H) xs ys,
      checkpoint_store written C -> strategy_keeps_view written cfg ->
      X (self s) = Some xs -> Y (self s) = Some ys ->
      for_each its (iteration C cfg) s = (Ok tt, s') ->
      exists ws tr,
        written (env s') = written (env s) ++ ws /\
        map entry_index ws =
          match save_dir cfg with
          | Some _ => filter (fun it => it mod num_save cfg =? 0) its
          | None => []
          end /\
        Forall (fun w => snd (fst w) <> None) ws /\
        trace s' = trace s ++ tr /\
        flat_map event_saved tr = map entry_index ws).
Proof.
  split.
  - intros it s s' xs ys HX HY Hrun.
    exact (iteration_ok_env C cfg it s s' xs ys HX HY Hrun).
  - intros written its s s' xs ys Hstore Hstrat HX HY Hrun.
    destruct (main_loop_store C cfg written Hstore Hstrat its s s' xs ys
                HX HY Hrun) as (ws & Hw & Hidx & Hall).
    destruct (main_loop_saved C cfg its s s' xs ys HX HY Hrun)
      as (tr & Htr & Hsaved).
    exists ws, tr. rewrite Hsaved, Hidx. auto.
Qed.

End Training.

Section Failures.
Context {E H : Type}.
Variable C : collaborators E H.
Variable cfg : config E.

(** Whatever its outcome, the recommendation step issues draws, strategy
    calls and log messages only; when the strategy raises, the object is
    as before. *)
Lemma recommend_any_outcome (s : state E H) r s' :
  recommend C cfg s = (r, s') ->
  (exists tr, trace s' = trace s ++ tr /\
              forallb is_recommendation tr = true) /\
  (r = Raise RecommendationFailure -> self s' = self s).
Proof.
  unfold recommend. intros Hrun.
  destruct (recommendation_strategy cfg) as [[|f]|].
  - unfold M.bind at 1, M.log in Hrun. unfold M.bind at 1 in Hrun.
    match type of Hrun with context [draw_startpoints C cfg ?s0] =>
      destruct (draw_startpoints_eq C cfg s0) as (ps & e1 & Hd & _) end.
    rewrite Hd in Hrun. unfold M.bind at 1 in Hrun.
    match type of Hrun with context [best_observed ?s0] =>
      destruct (best_observed s0) as [[[i p]|e] s1] eqn:Hb end;
      apply best_observed_inv in Hb; destruct Hb as (-> & Hb).
    + m_unfold Hrun.
      match type of Hrun with
        context [optimize_posterior_mean_and_std C ?sp ?g ?e0] =>
          destruct (optimize_posterior_mean_and_std C sp g e0) as [[q|] e2]
      end; m_unfold Hrun; injection Hrun as <- <-; cbn [self trace]; split;
        try discriminate; try reflexivity;
        (eexists; split; [rewrite <- !app_assoc; reflexivity|];
         rewrite !forallb_app, forallb_map_const by reflexivity; reflexivity).
    + injection Hrun as <- <-. cbn [self trace]. split; [|reflexivity].
      eexists. split; [rewrite <- !app_assoc; reflexivity|].
      rewrite !forallb_app, forallb_map_const by reflexivity. reflexivity.
  - unfold M.bind at 1 in Hrun.
    destruct (draw_startpoints_eq C cfg s) as (ps & e1 & Hd & _).
    rewrite Hd in Hrun. cbv zeta in Hrun. unfold M.bind at 1 in Hrun.
    match type of Hrun with context [local_searches C f 0 ps ?xo ?fv ?s0] =>
      destruct (local_searches C f 0 ps xo fv s0) as [[arrays|e] s1] eqn:Hm
    end; apply local_searches_frame in Hm; cbn [self trace] in Hm;
      destruct Hm as (Hself & (tr & Htr & Hstr) & _);
      assert (Hall : forallb is_recommendation tr = true)
        by (apply forallb_forall; intros ev Hin;
            rewrite forallb_forall in Hstr; specialize (Hstr ev Hin);
            destruct ev; cbn in *; congruence).
    + m_run Hrun; injection Hrun as <- <-; cbn [self trace]; split;
        try discriminate;
        (eexists; split; [rewrite Htr, <- !app_assoc; reflexivity|];
         rewrite !forallb_app, Hall, forallb_map_const by reflexivity;
         reflexivity).
    + injection Hrun as <- <-.
      split; [|intros _; exact Hself].
      eexists. split; [rewrite Htr, <- !app_assoc; reflexivity|].
      rewrite !forallb_app, Hall, forallb_map_const by reflexivity.
      reflexivity.
  - unfold M.bind at 1, M.log in Hrun. unfold M.bind at 1 in Hrun.
    match type of Hrun with context [best_observed ?s0] =>
      destruct (best_observed s0) as [[[i p]|e] s1] eqn:Hb end;
      apply best_observed_inv in Hb; destruct Hb as (-> & Hb).
    + m_run Hrun; injection Hrun as <- <-; cbn [self trace]; split;
        try discriminate; eexists; split; reflexivity.
    + injection Hrun as <- <-. cbn [self trace]. split; [|reflexivity].
      eexists. split; reflexivity.
Qed.


(** X5.  A seeded run that asks for at most three iterations.  On a fresh
    solver object, [run] with an [X] and [num_iterations <= 3] adopts the
    seed, iterates not once, and then fails with [AttributeError] where
    it reads [incumbent_value], which nothing has assigned; no
    collaborator has been called. *)
Theorem seeded_short_run_fails n xs Y0 (s : state E H) :
  incumbent_value (self s) = None ->
  n <= 3 ->
  let r := run C cfg n (Some xs) Y0 s in
  fst r = Raise AttributeError /\
  X (self (snd r)) = Some xs /\ Y (self (snd r)) = Y0 /\
  incumbent (self (snd r)) = incumbent (self s) /\
  env (snd r) = env s /\ trace (snd r) = trace s.
Proof.
  intros Hnone Hn r. subst r. unfold run, main_loop, py_range.
  replace (Z.to_nat (n - 3)) with 0%nat by lia. cbn [seq map for_each].
  destruct Y0 as [ys|]; cbn; rewrite Hnone; cbn; auto 10.
Qed.

(** X6.  No restarts under a generic strategy.  With a strategy other
    than the posterior optimizer and [n_restarts = 0], no iteration ever
    completes (the minimum over no results does not exist), so no run
    with [num_iterations > 3] returns. *)
Theorem generic_policy_needs_a_restart f :
  recommendation_strategy cfg = Some (OtherStrategy f) ->
  n_restarts cfg = 0%nat ->
  (forall it (s : state E H), fst (iteration C cfg it s) <> Ok tt) /\
  (forall n X0 Y0 (s : state E H) r,
      3 < n -> fst (run C cfg n X0 Y0 s) <> Ok r).
Proof.
  intros Hpol Hzero.
  assert (Hit : forall it (s : state E H), fst (iteration C cfg it s) <> Ok tt).
  { intros it s Hok.
    destruct (iteration C cfg it s) as [r s'] eqn:Hrun. cbn in Hok. subst r.
    destruct (iteration_ok_inv C cfg it s s' Hrun)
      as (new_x & s1 & s2 & _ & _ & _ & _ & _ & _ & _ & _ & _
          & _ & Hrec & _).
    destruct (recommend_C_ok C cfg f s1 s2 Hpol Hrec)
      as (randoms & results & rows & best & p & v & e1 & _ & Hres & _ & Hbest
          & _).
    rewrite Hzero in Hres. destruct results; [|discriminate].
    discriminate. }
  split; [exact Hit|].
  intros n X0 Y0 s [inc v] Hn Hok.
  destruct (run C cfg n X0 Y0 s) as [r s'] eqn:Hrun. cbn in Hok. subst r.
  destruct (run_ok_inv C cfg n X0 Y0 s s' inc v Hrun)
    as (s0 & s1 & _ & Hloop & _).
  unfold py_range in Hloop.
  destruct (Z.to_nat (n - 3)) as [|k] eqn:Hk; [lia|].
  cbn [seq map for_each] in Hloop. unfold M.bind in Hloop.
  destruct (iteration C cfg (3 + Z.of_nat 0) s0) as [[[]|e] s2] eqn:Hfirst;
    [|discriminate].
  apply (Hit (3 + Z.of_nat 0) s0). rewrite Hfirst. reflexivity.
Qed.

(** X7.  An empty history.  Under Policy A and under the posterior
    optimizer the best observed point is needed; on a history with no
    observation ([Y] empty) no iteration completes. *)
Theorem empty_history_has_no_best_point it (s : state E H) xs :
  recommendation_strategy cfg = None \/
  recommendation_strategy cfg = Some PosteriorMeanAndStd ->
  X (self s) = Some xs -> Y (self s) = Some [] ->
  fst (iteration C cfg it s) <> Ok tt.
Proof.
  intros Hpol HX HY Hok.
  destruct (iteration C cfg it s) as [r s'] eqn:Hrun. cbn in Hok. subst r.
  destruct (iteration_ok_anatomy C cfg it s s' xs [] HX HY Hrun)
    as (u & e1 & new_x & e2 & s2 & new_y & e3 & v & y00 & trec
        & _ & _ & _ & _ & Hrec & _).
  destruct Hpol as [Hpol|Hpol].
  - destruct (recommend_A_ok C cfg _ s2 Hpol Hrec)
      as (xs1 & ys1 & i & p & w & _ & HY1 & Hi & _).
    cbn [self Y set_model_untrained] in HY1. rewrite HY in HY1.
    injection HY1 as <-. discriminate.
  - destruct (recommend_B_ok C cfg _ s2 Hpol Hrec)
      as (rs & xs1 & ys1 & i & best & q & e0 & _ & _ & HY1 & Hi & _).
    cbn [self Y set_model_untrained] in HY1. rewrite HY in HY1.
    injection HY1 as <-. discriminate.
Qed.

End Failures.

Section Loops.
Context {E H : Type}.

Lemma for_each_snoc_ok {A} (l : list A) (a : A)
    (body : A -> M.t (E:=E) (H:=H) unit) : forall s s',
  for_each (l ++ [a]) body s = (Ok tt, s') ->
  exists s1, for_each l body s = (Ok tt, s1) /\ body a s1 = (Ok tt, s').
Proof.
  induction l as [|b l IH]; intros s s' Hrun; cbn in Hrun |- *.
  - unfold M.bind in Hrun. destruct (body a s) as [[[]|e] s1] eqn:Hb.
    + injection Hrun as <-. exists s. split; [reflexivity|assumption].
    + discriminate.
  - unfold M.bind in Hrun |- *. destruct (body b s) as [[[]|e] s0].
    + apply IH. exact Hrun.
    + discriminate.
Qed.

Lemma py_range_snoc (lo hi : Z) :
  lo < hi -> py_range lo hi = py_range lo (hi - 1) ++ [hi - 1].
Proof.
  intros Hlt. unfold py_range.
  replace (Z.to_nat (hi - lo)) with (S (Z.to_nat (hi - 1 - lo))) by lia.
  rewrite seq_S, map_app. cbn [map Nat.add]. do 2 f_equal. lia.
Qed.

End Loops.

Section Edges.
Context {E H : Type}.
Variable C : collaborators E H.
Variable cfg : config E.

(** The seeding loop touches neither [model_untrained] nor [time_start]. *)
Lemma init_loop_frame k : forall i n b (s s' : state E H),
  lengths (self s) = Some (Nat.max 1 i, b, n, n) ->
  for_each (seq i k) (init_body C cfg) s = (Ok tt, s') ->
  model_untrained (self s') = model_untrained (self s) /\
  time_start (self s') = time_start (self s).
Proof.
  induction k as [|k IH]; intros i n b s s' Hl Hrun; cbn in Hrun.
  - injection Hrun as <-. auto.
  - unfold M.bind in Hrun.
    destruct (init_body C cfg i s) as [[[]|e] s1] eqn:Hb; [|discriminate].
    destruct (init_body_effect C cfg i s s1 _ _ _ _ Hl Hb)
      as (p & y & yi & ti & tck & b' & _ & _ & _ & Hl1 & _).
    destruct (lengths_some _ _ _ _ _ Hl)
      as (xs & ys & tfe & ovh & HX & HY & Htfe & Hovh & _).
    destruct (init_body_ok C cfg i s s1 xs ys tfe ovh HX HY Htfe Hovh Hb)
      as (p0 & e1 & y0 & e2 & tfe' & ovh' & xs' & ys' & bi & inc & v & yi0
          & ti0 & s2 & _ & _ & _ & _ & _ & _ & _ & _ & _ & _ & -> & Hck).
    apply seed_checkpoint_inv in Hck. destruct Hck as (Hself & _).
    cbn [self] in Hself.
    assert (Hl1' : lengths (self s1) = Some (Nat.max 1 (S i), b', n, n)).
    { rewrite Hl1. destruct i as [|i]; [reflexivity|].
      replace (Nat.max 1 (S i)) with (S i) by lia.
      replace (Nat.max 1 (S (S i))) with (S (S i)) by lia. reflexivity. }
    destruct (IH (S i) n b' s1 s' Hl1' Hrun) as (Hm & Ht).
    rewrite Hm, Ht, Hself. auto.
Qed.

(** After [initialize] with at least one seed point the incumbent is the
    first minimum over all the seeds. *)
Lemma initialize_incumbent n (s s' : state E H) :
  initialize C cfg (S n) s = (Ok tt, s') ->
  exists xs ys i p v,
    X (self s') = Some xs /\ Y (self s') = Some ys /\
    length xs = S n /\
    np_argmin ys = Some i /\ nth_error xs i = Some p /\
    nth_error ys i = Some v /\
    incumbent (self s') = Some p /\ incumbent_value (self s') = Some v.
Proof.
  intros Hrun.
  destruct (initialize_effect C cfg (S n) s s' Hrun)
    as (tr0 & b0 & _ & _ & _ & _ & Hlen & _).
  unfold initialize in Hrun. unfold M.bind at 1 in Hrun.
  destruct (init_arrays C (S n) s) as [[[]|e] s0] eqn:Harr; [|discriminate].
  assert (Hl0 : lengths (self s0) = Some (Nat.max 1 0, 1%nat, S n, S n)).
  { unfold init_arrays in Harr. m_unfold Harr. injection Harr as <-.
    cbn. unfold np_zeros. rewrite !repeat_length. reflexivity. }
  rewrite seq_S in Hrun. cbn [Nat.add] in Hrun.
  apply for_each_snoc_ok in Hrun. destruct Hrun as (s1 & Hloop & Hlast).
  destruct (init_loop_effect C cfg n 0 (S n) 1 s0 s1 Hl0 Hloop)
    as (tr & b' & _ & _ & _ & _ & Hl1 & _).
  destruct (lengths_some _ _ _ _ _ Hl1)
    as (xs & ys & tfe & ovh & HX & HY & Htfe & Hovh & _).
  destruct (init_body_ok C cfg n s1 s' xs ys tfe ovh HX HY Htfe Hovh Hlast)
    as (p0 & e1 & y0 & e2 & tfe' & ovh' & xs' & ys' & bi & inc & v & yi0
        & ti0 & s2 & _ & _ & _ & _ & _ & _ & _ & Hbi & Hinc & Hv & -> & Hck).
  apply seed_checkpoint_inv in Hck. destruct Hck as (Hself & _).
  cbn [self] in Hself.
  exists xs', ys', bi, inc, v. rewrite Hself. cbn.
  destruct (lengths_some _ _ _ _ _ Hlen)
    as (xs2 & ys2 & tfe2 & ovh2 & HX2 & _ & _ & _ & Hlx & _).
  rewrite Hself in HX2. cbn in HX2. injection HX2 as <-.
  repeat split; try assumption; reflexivity.
Qed.

(** X8.  A run without arguments that asks for at most three iterations
    evaluates the three seed points and nothing else, whatever the
    recommendation strategy: the model is not trained, the acquisition
    function is not maximized, no strategy is called.  It returns the
    entry of [Y] at [np.argmin] of all three observations with its row of
    [X]: the first minimum when the observations are numbers, the first
    NaN when one of them is NaN. *)
Theorem short_run_returns_best_seed n (s s' : state E H) inc v :
  n <= 3 ->
  run C cfg n None None s = (Ok (inc, v), s') ->
  exists xs ys i,
    X (self s') = Some xs /\ Y (self s') = Some ys /\ length xs = 3%nat /\
    np_argmin ys = Some i /\ nth_error ys i = Some v /\
    inc = nth_error xs i /\
    (no_nan ys ->
     (forall y, In y ys -> fle v y) /\
     (forall j y, (j < i)%nat -> nth_error ys j = Some y -> flt v y)) /\
    (In NaN ys ->
     v = NaN /\ forall j, (j < i)%nat -> nth_error ys j <> Some NaN) /\
    model_untrained (self s') = model_untrained (self s) /\
    exists tr, trace s' = trace s ++ tr /\
      flat_map event_training tr = [] /\ filter is_maximize tr = [] /\
      filter is_posterior tr = [] /\ filter is_strategy tr = [].
Proof.
  intros Hn Hrun.
  destruct (run_ok_inv C cfg n None None s s' inc v Hrun)
    as (s0 & s1 & Hsetup & Hloop & Hinc & Hv & Hself & _ & Htr).
  unfold py_range in Hloop.
  replace (Z.to_nat (n - 3)) with 0%nat in Hloop by lia.
  cbn in Hloop. injection Hloop as <-.
  rewrite setup_unseeded in Hsetup.
  destruct (initialize_incumbent 2 _ _ Hsetup)
    as (xs & ys & i & p & w & HX & HY & Hlx & Hi & Hp & Hw & Hi1 & Hv1).
  rewrite Hv1 in Hv. injection Hv as ->.
  exists xs, ys, i. rewrite Hself.
  destruct (np_argmin_spec ys i Hi) as (v' & Hv' & Hnum & Hnan).
  rewrite Hw in Hv'. injection Hv' as <-.
  split; [assumption|]. split; [assumption|]. split; [assumption|].
  split; [assumption|]. split; [assumption|].
  split; [rewrite <- Hinc, Hi1, Hp; reflexivity|].
  split; [exact Hnum|]. split; [exact Hnan|].
  split.
  { unfold initialize in Hsetup. unfold M.bind at 1 in Hsetup.
    match type of Hsetup with context [init_arrays C 3 ?s0] =>
      destruct (init_arrays C 3 s0) as [[[]|e] s2] eqn:Harr end;
      [|discriminate].
    unfold init_arrays in Harr. m_unfold Harr. injection Harr as <-.
    match type of Hsetup with for_each _ _ ?st = _ =>
      destruct (init_loop_frame 3 0 3 1 st s0 eq_refl Hsetup) as (Hm & _)
    end. rewrite Hm. reflexivity. }
  unfold initialize in Hsetup. unfold M.bind at 1 in Hsetup.
  match type of Hsetup with context [init_arrays C 3 ?s0] =>
    destruct (init_arrays C 3 s0) as [[[]|e] s2] eqn:Harr end;
    [|discriminate].
  unfold init_arrays in Harr. m_unfold Harr. injection Harr as <-.
  match type of Hsetup with for_each _ _ ?st = _ =>
    assert (Hl : lengths (self st) <> None) by (cbn; discriminate);
    destruct (init_loop_events C cfg 3 0 st s0 Hl Hsetup) as (tr & Htr0 & Hall)
  end.
  cbn [trace] in Htr0.
  exists (tr ++ [EvLog (MsgReturn inc v)]).
  split; [rewrite Htr, Htr0, <- app_assoc; reflexivity|].
  rewrite flat_map_app, !filter_app.
  rewrite (flat_map_none is_seed_event event_training tr)
    by (assumption || (intros []; cbn; congruence)).
  rewrite (filter_none is_seed_event is_maximize tr)
    by (assumption || (intros []; cbn; congruence)).
  rewrite (filter_none is_seed_event is_posterior tr)
    by (assumption || (intros []; cbn; congruence)).
  rewrite (filter_none is_seed_event is_strategy tr)
    by (assumption || (intros []; cbn; congruence)).
  repeat split; reflexivity.
Qed.

End Edges.

Section LongRuns.
Context {E H : Type}.
Variable C : collaborators E H.
Variable cfg : config E.

(** A run that gets both [X] and [Y], or neither, enters its loop with a
    history. *)
Lemma setup_has_history X0 Y0 (s s0 : state E H) :
  (X0 = None <-> Y0 = None) ->
  setup C cfg X0 Y0 s = (Ok tt, s0) ->
  exists xs ys tr,
    X (self s0) = Some xs /\ Y (self s0) = Some ys /\
    (forall xs0, X0 = Some xs0 -> xs = xs0) /\
    (forall ys0, Y0 = Some ys0 -> ys = ys0) /\
    trace s0 = trace s ++ tr /\ flat_map event_training tr = [].
Proof.
  intros Hboth Hsetup.
  destruct X0 as [xs0|], Y0 as [ys0|].
  - rewrite setup_seeded in Hsetup. injection Hsetup as <-.
    exists xs0, ys0, []. cbn. rewrite app_nil_r.
    repeat split; try reflexivity; intros ? [=]; congruence.
  - destruct Hboth as [_ Hb]. discriminate (Hb eq_refl).
  - destruct Hboth as [Hb _]. discriminate (Hb eq_refl).
  - rewrite setup_unseeded in Hsetup.
    destruct (initialize_effect C cfg 3 _ _ Hsetup)
      as (tr0 & b0 & _ & _ & _ & _ & Hlen & _).
    destruct (lengths_some _ _ _ _ _ Hlen)
      as (xs & ys & tfe & ovh & HX & HY & _).
    unfold initialize in Hsetup. unfold M.bind at 1 in Hsetup.
    match type of Hsetup with context [init_arrays C 3 ?st] =>
      destruct (init_arrays C 3 st) as [[[]|e] s2] eqn:Harr end;
      [|discriminate].
    unfold init_arrays in Harr. m_unfold Harr. injection Harr as <-.
    match type of Hsetup with for_each _ _ ?st = _ =>
      assert (Hl : lengths (self st) <> None) by (cbn; discriminate);
      destruct (init_loop_events C cfg 3 0 st s0 Hl Hsetup)
        as (tr & Htr0 & Hall)
    end.
    cbn [trace] in Htr0. exists xs, ys, tr.
    rewrite (flat_map_none is_seed_event event_training tr)
      by (assumption || (intros []; cbn; congruence)).
    repeat split; try assumption; intros ? [=].
Qed.

(** The training sets of a loop over iterations that completes: one per
    iteration, each of them a prefix of the history the loop ends with. *)
Lemma main_loop_training (l : list Z) : forall (s s' : state E H) xs ys,
  X (self s) = Some xs -> Y (self s) = Some ys ->
  for_each l (iteration C cfg) s = (Ok tt, s') ->
  exists tr xs' ys',
    trace s' = trace s ++ tr /\
    X (self s') = Some xs' /\ Y (self s') = Some ys' /\
    length (flat_map event_training tr) = length l /\
    Forall (fun t => exists a b, xs' = fst (fst t) ++ a /\
                                 ys' = snd (fst t) ++ b)
           (flat_map event_training tr).
Proof.
  induction l as [|it l IH]; intros s s' xs ys HX HY Hrun; cbn in Hrun.
  - injection Hrun as <-. exists [], xs, ys. rewrite app_nil_r.
    repeat split; try assumption. constructor.
  - unfold M.bind in Hrun.
    destruct (iteration C cfg it s) as [[[]|e] s1] eqn:Hit; [|discriminate].
    destruct (iteration_ok_anatomy C cfg it s s1 xs ys HX HY Hit)
      as (u & e1 & new_x & e2 & s2 & new_y & e3 & v & y00 & trec
          & _ & _ & _ & Hall & _ & Hself & _ & Htr).
    assert (HX1 : X (self s1) = Some (xs ++ new_x)) by (rewrite Hself; reflexivity).
    assert (HY1 : Y (self s1) = Some (ys ++ new_y)) by (rewrite Hself; reflexivity).
    destruct (IH s1 s' _ _ HX1 HY1 Hrun)
      as (tr & xs' & ys' & Htr' & HX' & HY' & Hlen & Hfa).
    destruct (main_loop_effect C cfg l s1 s' _ _ HX1 HY1 Hrun)
      as (xs2 & ys2 & dts & dos & tr2 & HX2 & HY2 & _).
    rewrite HX' in HX2. rewrite HY' in HY2.
    injection HX2 as ->. injection HY2 as ->.
    eexists. exists ((xs ++ new_x) ++ xs2), ((ys ++ new_y) ++ ys2).
    split; [rewrite Htr', Htr, <- app_assoc; reflexivity|].
    split; [assumption|]. split; [assumption|].
    rewrite !flat_map_app.
    rewrite (flat_map_none is_recommendation event_training trec)
      by (assumption || (intros []; cbn; congruence)).
    cbn [flat_map event_training choose_next_trace evaluation_trace app].
    match goal with |- context [flat_map event_training ?ck ++ flat_map _ tr] =>
      replace (flat_map event_training ck)
        with (@nil (list point * list float64 * bool))
        by (destruct (save_dir cfg); [destruct (it mod num_save cfg =? 0)|];
            reflexivity)
    end.
    cbn [app length]. split; [rewrite Hlen; reflexivity|].
    constructor; [|exact Hfa].
    exists (new_x ++ xs2), (new_y ++ ys2). cbn. rewrite !app_assoc. auto.
Qed.

(** X9.  The incumbent of Policy A lags one observation behind.  In any
    run with more than three iterations that returns, started with both
    [X] and [Y] or with neither, the returned incumbent is the row of [X]
    and the entry of [Y] at [np.argmin] of the history as it was before
    the last evaluation: the first minimum when these observations are
    numbers, the first NaN when one of them is NaN.  The last observation
    never takes part. *)
Theorem best_seen_lags_one_observation n X0 Y0 (s s' : state E H) inc v :
  recommendation_strategy cfg = None ->
  3 < n ->
  (X0 = None <-> Y0 = None) ->
  run C cfg n X0 Y0 s = (Ok (inc, v), s') ->
  exists xs ys new_x new_y i,
    X (self s') = Some (xs ++ new_x) /\ Y (self s') = Some (ys ++ new_y) /\
    new_y <> [] /\
    np_argmin ys = Some i /\ nth_error ys i = Some v /\
    inc = nth_error xs i /\
    (no_nan ys ->
     (forall y, In y ys -> fle v y) /\
     (forall j y, (j < i)%nat -> nth_error ys j = Some y -> flt v y)) /\
    (In NaN ys ->
     v = NaN /\ forall j, (j < i)%nat -> nth_error ys j <> Some NaN) /\
    exists tr, trace s' = trace s ++ tr /\
      last (filter is_evaluate tr) (EvLog MsgBestSeen)
        = EvEvaluate new_x (Some new_y).
Proof.
  intros Hpol Hn Hboth Hrun.
  destruct (run_ok_inv C cfg n X0 Y0 s s' inc v Hrun)
    as (s0 & s1 & Hsetup & Hloop & Hinc & Hv & Hself & _ & Htr).
  destruct (setup_has_history X0 Y0 s s0 Hboth Hsetup)
    as (xs0 & ys0 & tr0 & HX0 & HY0 & _ & _ & Htr0 & _).
  rewrite (py_range_snoc 3 n Hn) in Hloop.
  apply for_each_snoc_ok in Hloop. destruct Hloop as (sm & Hpre & Hlast).
  destruct (main_loop_effect C cfg _ s0 sm xs0 ys0 HX0 HY0 Hpre)
    as (xs' & ys' & dts & dos & tr1 & HXm & HYm & _ & _ & _ & _ & Htr1 & _).
  destruct (iteration_ok_history C cfg (n - 1) sm s1 _ _ HXm HYm Hlast)
    as (new_x & new_y & sa & sb & e3 & tr2 & _ & _ & Hsa & Hrec & _ & Hne
        & HX1 & HY1 & _ & _ & Hinc1 & Hv1 & Htr2 & _ & Hev).
  destruct (recommend_A_ok C cfg sa sb Hpol Hrec)
    as (xa & ya & i & p & w & HXa & HYa & Hi & Hp & Hw & ->).
  rewrite Hsa in HXa, HYa. cbn in HXa, HYa.
  rewrite HXm in HXa. rewrite HYm in HYa.
  injection HXa as <-. injection HYa as <-.
  cbn in Hinc1, Hv1. rewrite Hv1 in Hv. injection Hv as ->.
  exists (xs0 ++ xs'), (ys0 ++ ys'), new_x, new_y, i. rewrite Hself.
  destruct (np_argmin_spec _ i Hi) as (v' & Hv' & Hnum & Hnan).
  rewrite Hw in Hv'. injection Hv' as <-.
  split; [assumption|]. split; [assumption|]. split; [assumption|].
  split; [assumption|]. split; [assumption|].
  split; [rewrite <- Hinc, Hinc1, Hp; reflexivity|].
  split; [exact Hnum|]. split; [exact Hnan|].
  exists (tr0 ++ tr1 ++ tr2 ++ [EvLog (MsgReturn inc v)]).
  split; [rewrite Htr, Htr2, Htr1, Htr0, <- !app_assoc; reflexivity|].
  rewrite !filter_app, Hev. cbn [filter is_evaluate app].
  rewrite !app_assoc. apply last_last.
Qed.


End LongRuns.

Section Reseeding.
Context {E H : Type}.
Variable C : collaborators E H.
Variable cfg : config E.

(** [initialize] leaves [model_untrained] and [time_start] alone and does
    nothing but draw, evaluate, log and save. *)
Lemma initialize_frame n (s s' : state E H) :
  initialize C cfg n s = (Ok tt, s') ->
  model_untrained (self s') = model_untrained (self s) /\
  time_start (self s') = time_start (self s) /\
  exists tr, trace s' = trace s ++ tr /\ forallb is_seed_event tr = true.
Proof.
  intros Hrun. unfold initialize in Hrun. unfold M.bind at 1 in Hrun.
  destruct (init_arrays C n s) as [[[]|e] s0] eqn:Harr; [|discriminate].
  unfold init_arrays in Harr. m_unfold Harr. injection Harr as <-.
  match type of Hrun with for_each _ _ ?st = _ =>
    assert (Hl : lengths (self st) = Some (Nat.max 1 0, 1%nat, n, n))
      by (cbn; unfold np_zeros; rewrite !repeat_length; reflexivity);
    assert (Hl' : lengths (self st) <> None) by (rewrite Hl; discriminate);
    destruct (init_loop_frame C cfg n 0 n 1%nat st s' Hl Hrun) as (Hm & Ht);
    destruct (init_loop_events C cfg n 0 st s' Hl' Hrun) as (tr & Htr & Hall)
  end.
  cbn in Hm, Ht, Htr. rewrite Hm, Ht. eauto.
Qed.

(** Without both arrays [choose_next] is a random initialization and
    returns the whole of the new [X]. *)
Lemma choose_next_reseeds o_x o_y b (s s1 : state E H) new_x :
  o_x = None \/ o_y = None ->
  choose_next C cfg o_x o_y b s = (Ok new_x, s1) ->
  initialize C cfg 3 s = (Ok tt, s1) /\ X (self s1) = Some new_x.
Proof.
  intros Hnone Hrun.
  assert (Hcn : choose_next C cfg o_x o_y b s =
                (initialize C cfg 3 ;;; x <- M.attr X ;; M.expect TypeError x) s).
  { destruct o_x, o_y; try reflexivity. destruct Hnone; discriminate. }
  rewrite Hcn in Hrun. unfold M.bind at 1 in Hrun.
  destruct (initialize C cfg 3 s) as [[[]|e] s2]; [|discriminate].
  m_unfold Hrun. destruct (X (self s2)) as [xs|] eqn:HX; m_unfold Hrun;
    [|discriminate].
  injection Hrun as <- <-. auto.
Qed.

(** X11.  An iteration that finds [X] or [Y] missing (a run started with
    only one of them) does not use what it was given: [choose_next] draws
    and evaluates three fresh seed points, returns all three as the
    candidate, and the iteration evaluates them once more as one batch and
    appends them again.  The model is not trained and the acquisition
    function is not maximized; [X] ends with six rows and the timing
    series with four entries. *)
Theorem iteration_without_history_reseeds it (s s' : state E H) :
  X (self s) = None \/ Y (self s) = None ->
  iteration C cfg it s = (Ok tt, s') ->
  exists seeds ys new_y tfe ovh tr,
    length seeds = 3%nat /\
    X (self s') = Some (seeds ++ seeds) /\
    Y (self s') = Some (ys ++ new_y) /\
    time_func_eval (self s') = Some tfe /\ length tfe = 4%nat /\
    time_optimization_overhead (self s') = Some ovh /\ length ovh = 4%nat /\
    model_untrained (self s') = model_untrained (self s) /\
    trace s' = trace s ++ tr /\
    flat_map event_training tr = [] /\ filter is_maximize tr = [] /\
    last (filter is_evaluate tr) (EvLog MsgBestSeen)
      = EvEvaluate seeds (Some new_y).
Proof.
  intros Hnone Hrun.
  destruct (iteration_ok_inv C cfg it s s' Hrun)
    as (new_x & s1 & s2 & xs & ys & ovh & tfe & new_y & e3 & v & y00 & s3
        & Hcn & Hrec & HX1 & HY1 & Hovh & Htfe & _ & _ & _ & -> & Hck).
  apply choose_next_reseeds in Hcn; [|assumption].
  destruct Hcn as (Hinit & HXn). rewrite HX1 in HXn. injection HXn as ->.
  destruct (initialize_effect C cfg 3 _ _ Hinit)
    as (tr0 & b0 & _ & _ & _ & _ & Hlen & _).
  destruct (lengths_some _ _ _ _ _ Hlen)
    as (xs1 & ys1 & tfe1 & ovh1 & HX1' & _ & Htfe' & Hovh' & Hlx & _ & Hlt & Hlo).
  rewrite HX1 in HX1'. rewrite Htfe in Htfe'. rewrite Hovh in Hovh'.
  injection HX1' as <-. injection Htfe' as <-. injection Hovh' as <-.
  destruct (initialize_frame 3 _ _ Hinit) as (Hm1 & _ & tri & Htri & Halli).
  cbn [self trace] in Hm1, Htri.
  destruct (recommend_any_outcome C cfg _ _ _ Hrec)
    as ((trec & Htrec & Hallr) & _).
  destruct (recommend_frame C cfg _ _ _ Hrec) as (_ & _ & _ & _ & Hm2 & _).
  destruct (checkpoint_ok_trace C cfg it new_x _ _ Hck) as (Hself & Htr).
  cbn [self trace env] in Hself, Htr.
  exists new_x, ys, new_y. do 2 eexists.
  eexists.
  rewrite Hself. cbn.
  split; [exact Hlx|]. split; [reflexivity|]. split; [reflexivity|].
  split; [reflexivity|]. split; [rewrite length_app, Hlt; reflexivity|].
  split; [reflexivity|]. split; [rewrite length_app, Hlo; reflexivity|].
  split; [rewrite Hm2, Hm1; reflexivity|].
  split; [rewrite Htr, Htrec, Htri, <- !app_assoc; reflexivity|].
  rewrite !flat_map_app, !filter_app.
  rewrite (flat_map_none is_seed_event event_training tri)
    by (assumption || (intros []; cbn; congruence)).
  rewrite (flat_map_none is_recommendation event_training trec)
    by (assumption || (intros []; cbn; congruence)).
  rewrite (filter_none is_seed_event is_maximize tri)
    by (assumption || (intros []; cbn; congruence)).
  rewrite (filter_none is_recommendation is_maximize trec)
    by (assumption || (intros []; cbn; congruence)).
  rewrite (filter_none is_recommendation is_evaluate trec)
    by (assumption || (intros []; cbn; congruence)).
  destruct (save_dir cfg); [destruct (it mod num_save cfg =? 0)|];
    cbn [flat_map event_training filter is_maximize is_evaluate
         evaluation_trace app];
    rewrite ?app_nil_r;
    (split; [reflexivity|]); (split; [reflexivity|]);
    rewrite ?app_assoc; apply last_last.
Qed.

(** X12.  When the evaluation of the first seed point fails, a run without
    arguments ends with that failure and leaves the placeholder arrays of
    [initialize] in the object: [X] is one row of zeros that was neither
    drawn nor evaluated, [Y] is one zero that was never observed, and no
    incumbent has been assigned. *)
Theorem failed_first_seed_leaves_placeholder n (s : state E H) p e1 e2 :
  uniform C (env s) = (p, e1) ->
  task_evaluate C [p] e1 = (None, e2) ->
  let r := run C cfg n None None s in
  fst r = Raise EvaluationFailure /\
  X (self (snd r)) = Some [np_zeros (n_dims C)] /\
  Y (self (snd r)) = Some [Num 0] /\
  time_func_eval (self (snd r)) = Some (np_zeros 3) /\
  incumbent (self (snd r)) = incumbent (self s) /\
  incumbent_value (self (snd r)) = incumbent_value (self s) /\
  env (snd r) = e2 /\
  trace (snd r) = trace s ++ [EvUniform p; EvEvaluate [p] None].
Proof.
  intros Hu He r. subst r.
  destruct (run C cfg n None None s) as [r0 s0] eqn:Hrun.
  unfold run in Hrun. unfold M.bind at 1 in Hrun.
  rewrite setup_unseeded in Hrun.
  unfold initialize, init_arrays in Hrun. cbn [seq for_each] in Hrun.
  unfold init_body in Hrun. m_unfold Hrun. rewrite Hu in Hrun.
  m_unfold Hrun. change (np_zeros 3) with [0; 0; 0] in Hrun.
  cbn [list_set repeat] in Hrun. m_unfold Hrun.
  rewrite He in Hrun. m_unfold Hrun.
  injection Hrun as <- <-. cbn. rewrite <- app_assoc.
  repeat split; reflexivity.
Qed.


End Reseeding.

Section Schedules.
Context {E H : Type}.
Variable C : collaborators E H.
Variable cfg : config E.

(** X14.  The evaluation time of an iteration.  In a completed iteration
    on an existing history each timing series grows by one entry, and the
    entry appended to [time_func_eval] is the clock right after the
    evaluation of the candidate minus the clock at which that evaluation
    started: it covers the task's call and nothing of the candidate
    selection and the recommendation step, which came before, or of the
    checkpoint, which comes after. *)
Theorem evaluation_time_spans_the_task_call it (s s' : state E H) xs ys :
  X (self s) = Some xs -> Y (self s) = Some ys ->
  iteration C cfg it s = (Ok tt, s') ->
  exists ovh tfe new_x s1 s2 new_y e3 dt,
    choose_next C cfg (Some xs) (Some ys) (it mod train_intervall cfg =? 0)
      {| self := self s; env := env s;
         trace := trace s ++ [EvLog (MsgStartIteration it)] |} = (Ok new_x, s1) /\
    recommend C cfg s1 = (Ok tt, s2) /\
    task_evaluate C new_x (env s2) = (Some new_y, e3) /\
    time_optimization_overhead (self s) = Some ovh /\
    time_func_eval (self s) = Some tfe /\
    time_optimization_overhead (self s') = Some (ovh ++ [dt]) /\
    time_func_eval (self s') = Some (tfe ++ [now C e3 - now C (env s2)]).
Proof.
  intros HX HY Hrun.
  destruct (iteration_ok_inv C cfg it s s' Hrun)
    as (new_x & s1 & s2 & xs1 & ys1 & ovh & tfe & new_y & e3 & v & y00 & s3
        & Hcn & Hrec & _ & _ & Hovh & Htfe & _ & Hev & _ & -> & Hck).
  rewrite HX, HY in Hcn.
  assert (Hs1 : time_optimization_overhead (self s1)
                  = time_optimization_overhead (self s) /\
                time_func_eval (self s1) = time_func_eval (self s)).
  { pose proof Hcn as Hcn'. rewrite choose_next_some in Hcn'.
    cbn [self env trace] in Hcn'.
    destruct (model_train C xs ys (it mod train_intervall cfg =? 0) (env s))
      as [[u|] e1]; [|discriminate].
    cbn zeta in Hcn'. destruct (maximize C (acquisition_update C e1)).
    injection Hcn' as _ <-. split; reflexivity. }
  destruct Hs1 as (Ho1 & Ht1). rewrite Ho1 in Hovh. rewrite Ht1 in Htfe.
  apply checkpoint_inv in Hck. destruct Hck as (Hself & _).
  cbn [self] in Hself.
  exists ovh, tfe, new_x, s1, s2, new_y, e3, (now C (env s2) - now C (env s)).
  rewrite Hself. cbn.
  repeat (split; [assumption || reflexivity|]). reflexivity.
Qed.

(** X15.  A training interval of zero.  With [train_intervall = 0] every
    iteration fails with [ZeroDivisionError] right after its first log
    message: nothing is trained, maximized or evaluated and the object is
    untouched, so no run with more than three iterations returns. *)
Theorem zero_train_interval_stops_the_loop :
  train_intervall cfg = 0 ->
  (forall it (s : state E H),
      iteration C cfg it s =
        (Raise ZeroDivisionError,
         {| self := self s; env := env s;
            trace := trace s ++ [EvLog (MsgStartIteration it)] |})) /\
  (forall n X0 Y0 (s : state E H) r,
      3 < n -> fst (run C cfg n X0 Y0 s) <> Ok r).
Proof.
  intros Hzero.
  assert (Hit : forall it (s : state E H),
      iteration C cfg it s =
        (Raise ZeroDivisionError,
         {| self := self s; env := env s;
            trace := trace s ++ [EvLog (MsgStartIteration it)] |})).
  { intros it s.
    destruct (iteration C cfg it s) as [r s1] eqn:Hrun.
    unfold iteration in Hrun. m_unfold Hrun. rewrite Hzero in Hrun.
    cbn [Z.eqb] in Hrun. m_unfold Hrun. injection Hrun as <- <-.
    reflexivity. }
  split; [exact Hit|].
  intros n X0 Y0 s [inc v] Hn Hok.
  destruct (run C cfg n X0 Y0 s) as [r s'] eqn:Hrun. cbn in Hok. subst r.
  destruct (run_ok_inv C cfg n X0 Y0 s s' inc v Hrun)
    as (s0 & s1 & _ & Hloop & _).
  unfold py_range in Hloop.
  destruct (Z.to_nat (n - 3)) as [|k] eqn:Hk; [lia|].
  cbn [seq map for_each] in Hloop. unfold M.bind in Hloop.
  rewrite Hit in Hloop. discriminate.
Qed.

(** X16.  A checkpoint interval of zero.  With a save directory and
    [num_save = 0] the first checkpoint test divides by zero: no run
    without arguments returns (the first seed point is evaluated, then
    the run fails), and no main-loop iteration completes. *)
Theorem zero_num_save_with_save_dir dir :
  save_dir cfg = Some dir -> num_save cfg = 0 ->
  (forall n (s : state E H) r, fst (run C cfg n None None s) <> Ok r) /\
  (forall it (s : state E H), fst (iteration C cfg it s) <> Ok tt).
Proof.
  intros Hdir Hzero. split.
  - intros n s [inc v] Hok.
    destruct (run C cfg n None None s) as [r s'] eqn:Hrun. cbn in Hok. subst r.
    destruct (run_ok_inv C cfg n None None s s' inc v Hrun)
      as (s0 & s1 & Hsetup & _).
    rewrite setup_unseeded in Hsetup.
    unfold initialize in Hsetup. unfold M.bind at 1 in Hsetup.
    match type of Hsetup with context [init_arrays C 3 ?st] =>
      destruct (init_arrays C 3 st) as [[[]|e] s2] eqn:Harr end;
      [|discriminate].
    unfold init_arrays in Harr. m_unfold Harr. injection Harr as <-.
    cbn [seq for_each] in Hsetup. unfold M.bind at 1 in Hsetup.
    match type of Hsetup with context [init_body C cfg 0 ?st] =>
      destruct (init_body C cfg 0 st) as [[[]|e] s2] eqn:Hb end;
      [|discriminate].
    eapply init_body_ok in Hb; try reflexivity.
    destruct Hb as (p0 & e1 & y0 & e2 & tfe' & ovh' & xs' & ys' & bi & i0 & w
                    & yi0 & ti0 & s3 & _ & _ & _ & _ & _ & _ & _ & _ & _ & _
                    & _ & Hck).
    unfold seed_checkpoint in Hck. rewrite Hdir, Hzero in Hck.
    m_unfold Hck. cbn [Z.eqb] in Hck. discriminate.
  - intros it s Hok.
    destruct (iteration C cfg it s) as [r s'] eqn:Hrun. cbn in Hok. subst r.
    destruct (iteration_ok_inv C cfg it s s' Hrun)
      as (new_x & s1 & s2 & xs1 & ys1 & ovh & tfe & new_y & e3 & v & y00 & s3
          & _ & _ & _ & _ & _ & _ & _ & _ & _ & _ & Hck).
    unfold checkpoint in Hck. rewrite Hdir, Hzero in Hck.
    m_unfold Hck. cbn [Z.eqb] in Hck. discriminate.
Qed.

(** X17.  The checkpoints of a whole run.  When a run without arguments
    returns, the checkpoint writer has written, with a save directory, the
    three seed checkpoints of index 0, 1 and 2 (without hyperparameters,
    with the acquisition value 0) whatever [num_save] is, followed by one
    checkpoint with hyperparameters for each multiple of [num_save] among
    3, ..., [num_iterations - 1], in order; without a save directory it has
    written nothing. *)
Theorem run_checkpoint_schedule (written : E -> list (Z * option H * Z))
    n (s s' : state E H) inc v :
  checkpoint_store written C -> strategy_keeps_view written cfg ->
  run C cfg n None None s = (Ok (inc, v), s') ->
  exists ws tr,
    written (env s') = written (env s) ++ ws /\
    match save_dir cfg with
    | Some _ =>
        exists later,
          ws = map seed_entry (seq 0 3) ++ later /\
          map entry_index later =
            filter (fun it => it mod num_save cfg =? 0) (py_range 3 n) /\
          Forall (fun w => snd (fst w) <> None) later
    | None => ws = []
    end /\
    trace s' = trace s ++ tr /\
    flat_map event_saved tr = map entry_index ws.
Proof.
  intros Hstore Hstrat Hrun.
  destruct (run_ok_inv C cfg n None None s s' inc v Hrun)
    as (s0 & s1 & Hsetup & Hloop & _ & _ & _ & Henv & Htr).
  rewrite setup_unseeded in Hsetup.
  pose proof (initialize_store C cfg written Hstore 3 _ s0 Hsetup) as Hw0.
  cbn [env] in Hw0.
  destruct (initialize_effect C cfg 3 _ _ Hsetup)
    as (tr0 & b0 & Htr0 & _ & Hsome & Hnone & Hlen & _).
  cbn [trace] in Htr0.
  destruct (lengths_some _ _ _ _ _ Hlen)
    as (xs & ys & tfe & ovh & HX & HY & _).
  destruct (main_loop_store C cfg written Hstore Hstrat _ s0 s1 xs ys
              HX HY Hloop) as (ws & Hw & Hidx & Hall).
  destruct (main_loop_saved C cfg _ s0 s1 xs ys HX HY Hloop)
    as (tr1 & Htr1 & Hsaved).
  destruct (save_dir cfg) as [d|] eqn:Hdir.
  - exists (map seed_entry (seq 0 3) ++ ws),
      (tr0 ++ tr1 ++ [EvLog (MsgReturn inc v)]).
    split; [rewrite Henv, Hw, Hw0, <- app_assoc; reflexivity|].
    split; [exists ws; auto|].
    split; [rewrite Htr, Htr1, Htr0, <- !app_assoc; reflexivity|].
    rewrite !flat_map_app, Hsaved, (event_saved_filter tr0).
    rewrite Hsome by discriminate. rewrite map_app, Hidx. cbn.
    rewrite app_nil_r. reflexivity.
  - destruct ws as [|w ws]; [|discriminate Hidx].
    exists [], (tr0 ++ tr1 ++ [EvLog (MsgReturn inc v)]).
    split; [rewrite Henv, Hw, Hw0, !app_nil_r; reflexivity|].
    split; [reflexivity|].
    split; [rewrite Htr, Htr1, Htr0, <- !app_assoc; reflexivity|].
    rewrite !flat_map_app, Hsaved, (event_saved_filter tr0).
    rewrite Hnone by reflexivity. reflexivity.
Qed.

End Schedules.

(** ** The further properties on scripted runs *)


(** X2 on a scripted model that cannot be fitted. *)
Lemma training_failure_changes_nothing_witness :
  let C := scripted_untrainable (nums [3; 2; 1; 5; 0]) in
  let cfg := policy_A in
  let s := scripted_seeded in
  train_intervall cfg <> 0 /\
  model_train C [[1]; [9]] (nums [20; 10]) (3 mod train_intervall cfg =? 0) (env s)
    = (None, tick 2 (env s)) /\
  for_each [3; 4] (iteration C cfg) s =
    (Raise TrainingFailure,
     {| self := self s; env := tick 2 (env s);
        trace := trace s ++ [EvLog (MsgStartIteration 3); EvLog MsgTrainModel;
                   EvTrain [[1]; [9]] (nums [20; 10])
                     (3 mod train_intervall cfg =? 0) None;
                   EvLog MsgNotTrained] |}).
Proof.
  intros C cfg s.
  assert (Hne : train_intervall cfg <> 0) by discriminate.
  split; [exact Hne|]. split; [reflexivity|].
  exact (training_failure_changes_nothing C cfg 3 [4] s [[1]; [9]] (nums [20; 10])
           (tick 2 (env s)) eq_refl eq_refl Hne eq_refl).
Defined.

(** X3 on two scripted iterations that save every second iteration: not
    in iteration 3, but in iteration 4. *)
Lemma checkpoint_follows_num_save_witness :
  let C := scripted (nums [3; 2; 1; 5; 0]) false in
  let cfg := policy_A_saving 2 in
  let s := scripted_seeded in
  let s1 := snd (iteration C cfg 3 s) in
  let s2 := snd (for_each [3; 4] (iteration C cfg) s) in
  (iteration C cfg 3 s = (Ok tt, s1) /\
   exists new_x sa sb new_y e3,
     choose_next C cfg (Some [[1]; [9]]) (Some (nums [20; 10]))
       (3 mod train_intervall cfg =? 0)
       {| self := self s; env := env s;
          trace := trace s ++ [EvLog (MsgStartIteration 3)] |}
       = (Ok new_x, sa) /\
     recommend C cfg sa = (Ok tt, sb) /\
     task_evaluate C new_x (env sb) = (Some new_y, e3) /\
     X (self s1) = Some ([[1]; [9]] ++ new_x) /\
     Y (self s1) = Some (nums [20; 10] ++ new_y) /\
     env s1 =
       match save_dir cfg with
       | Some _ =>
           if 3 mod num_save cfg =? 0
           then save_iteration C 3 (Some (model_hypers C e3))
                  (fst (acquisition_func C new_x e3))
                  (snd (acquisition_func C new_x e3))
           else e3
       | None => e3
       end) /\
  (checkpoint_store saved C /\ strategy_keeps_view saved cfg /\
   for_each [3; 4] (iteration C cfg) s = (Ok tt, s2) /\
   exists ws tr,
     saved (env s2) = saved (env s) ++ ws /\
     map entry_index ws =
       match save_dir cfg with
       | Some _ => filter (fun it => it mod num_save cfg =? 0) [3; 4]
       | None => []
       end /\
     Forall (fun w => snd (fst w) <> None) ws /\
     trace s2 = trace s ++ tr /\
     flat_map event_saved tr = map entry_index ws).
Proof.
  intros C cfg s s1 s2.
  assert (H1 : iteration C cfg 3 s = (Ok tt, s1)) by (vm_compute; reflexivity).
  assert (H2 : for_each [3; 4] (iteration C cfg) s = (Ok tt, s2))
    by (vm_compute; reflexivity).
  split.
  - split; [exact H1|].
    exact (proj1 (checkpoint_follows_num_save C cfg) 3 s s1 [[1]; [9]]
             (nums [20; 10]) eq_refl eq_refl H1).
  - split; [apply scripted_checkpoint_store|]. split; [exact I|].
    split; [exact H2|].
    exact (proj2 (checkpoint_follows_num_save C cfg) saved [3; 4] s s2
             [[1]; [9]] (nums [20; 10]) (scripted_checkpoint_store _ _) I
             eq_refl eq_refl H2).
Defined.


(** X5 on a fresh scripted solver with a seed of two points. *)
Lemma seeded_short_run_fails_witness :
  let C := scripted (nums [3; 2; 1; 5; 0]) false in
  let s := scripted_start in
  let r := run C policy_A 3 (Some [[1]; [9]]) (Some (nums [20; 10])) s in
  incumbent_value (self s) = None /\ 3 <= 3 /\
  fst r = Raise AttributeError /\
  X (self (snd r)) = Some [[1]; [9]] /\ Y (self (snd r)) = Some (nums [20; 10]) /\
  incumbent (self (snd r)) = incumbent (self s) /\
  env (snd r) = env s /\ trace (snd r) = trace s.
Proof.
  intros C s r. split; [reflexivity|]. split; [exact (Z.le_refl 3)|].
  exact (seeded_short_run_fails C policy_A 3 [[1]; [9]] (Some (nums [20; 10])) s
           eq_refl (Z.le_refl 3)).
Defined.

(** X6 on the scripted local search without restarts. *)
Lemma generic_policy_needs_a_restart_witness :
  let C := scripted (nums [3; 2; 1; 5; 0]) false in
  let cfg := policy_C 0 in
  recommendation_strategy cfg = Some (OtherStrategy script_local_search) /\
  n_restarts cfg = 0%nat /\
  fst (iteration C cfg 3 scripted_seeded) <> Ok tt /\
  fst (run C cfg 5 None None scripted_start) <> Ok (Some [2], Num 1).
Proof.
  intros C cfg. split; [reflexivity|]. split; [reflexivity|].
  pose proof (generic_policy_needs_a_restart C cfg script_local_search
                eq_refl eq_refl) as Hw.
  split.
  - exact (proj1 Hw 3 scripted_seeded).
  - exact (proj2 Hw 5 None None scripted_start (Some [2], Num 1) eq_refl).
Defined.

(** X7 on a scripted solver with an empty history. *)
Lemma empty_history_has_no_best_point_witness :
  let C := scripted (nums [3; 2; 1; 5; 0]) false in
  let s := scripted_empty_history in
  X (self s) = Some [] /\ Y (self s) = Some [] /\
  fst (iteration C policy_A 3 s) <> Ok tt /\
  fst (iteration C (policy_B 2) 3 s) <> Ok tt.
Proof.
  intros C s. split; [reflexivity|]. split; [reflexivity|]. split.
  - exact (empty_history_has_no_best_point C policy_A 3 s []
             (or_introl eq_refl) eq_refl eq_refl).
  - exact (empty_history_has_no_best_point C (policy_B 2) 3 s []
             (or_intror eq_refl) eq_refl eq_refl).
Defined.

(** X8 on a scripted run of three iterations with the posterior optimizer
    configured: the optimizer is not called. *)
Lemma short_run_returns_best_seed_witness :
  let C := scripted (nums [3; 2; 1; 5; 0]) false in
  let cfg := policy_B 2 in
  let s := scripted_start in
  let s' := snd (run C cfg 3 None None s) in
  3 <= 3 /\
  run C cfg 3 None None s = (Ok (Some [2], Num 1), s') /\
  exists xs ys i,
    X (self s') = Some xs /\ Y (self s') = Some ys /\ length xs = 3%nat /\
    np_argmin ys = Some i /\ nth_error ys i = Some (Num 1) /\
    Some [2] = nth_error xs i /\
    (no_nan ys ->
     (forall y, In y ys -> fle (Num 1) y) /\
     (forall j y, (j < i)%nat -> nth_error ys j = Some y -> flt (Num 1) y)) /\
    (In NaN ys ->
     Num 1 = NaN /\ forall j, (j < i)%nat -> nth_error ys j <> Some NaN) /\
    model_untrained (self s') = model_untrained (self s) /\
    exists tr, trace s' = trace s ++ tr /\
      flat_map event_training tr = [] /\ filter is_maximize tr = [] /\
      filter is_posterior tr = [] /\ filter is_strategy tr = [].
Proof.
  intros C cfg s s'.
  assert (Hrun : run C cfg 3 None None s = (Ok (Some [2], Num 1), s'))
    by (vm_compute; reflexivity).
  split; [exact (Z.le_refl 3)|]. split; [exact Hrun|].
  exact (short_run_returns_best_seed C cfg 3 s s' (Some [2]) (Num 1)
           (Z.le_refl 3) Hrun).
Defined.

(** X9 on a scripted run of five iterations: the last observation, 0, is
    the least, and the run returns the seed of value 1. *)
Lemma best_seen_lags_one_observation_witness :
  let C := scripted (nums [3; 2; 1; 5; 0]) false in
  let cfg := policy_A in
  let s := scripted_start in
  let s' := snd (run C cfg 5 None None s) in
  recommendation_strategy cfg = None /\ 3 < 5 /\
  run C cfg 5 None None s = (Ok (Some [2], Num 1), s') /\
  exists xs ys new_x new_y i,
    X (self s') = Some (xs ++ new_x) /\ Y (self s') = Some (ys ++ new_y) /\
    new_y <> [] /\
    np_argmin ys = Some i /\ nth_error ys i = Some (Num 1) /\
    Some [2] = nth_error xs i /\
    (no_nan ys ->
     (forall y, In y ys -> fle (Num 1) y) /\
     (forall j y, (j < i)%nat -> nth_error ys j = Some y -> flt (Num 1) y)) /\
    (In NaN ys ->
     Num 1 = NaN /\ forall j, (j < i)%nat -> nth_error ys j <> Some NaN) /\
    exists tr, trace s' = trace s ++ tr /\
      last (filter is_evaluate tr) (EvLog MsgBestSeen)
        = EvEvaluate new_x (Some new_y).
Proof.
  intros C cfg s s'.
  assert (Hrun : run C cfg 5 None None s = (Ok (Some [2], Num 1), s'))
    by (vm_compute; reflexivity).
  split; [reflexivity|]. split; [reflexivity|]. split; [exact Hrun|].
  exact (best_seen_lags_one_observation C cfg 5 None None s s' (Some [2]) (Num 1)
           eq_refl eq_refl (conj (fun _ => eq_refl) (fun _ => eq_refl)) Hrun).
Defined.


(** X11 on a scripted solver that was given [X] only. *)
Lemma iteration_without_history_reseeds_witness :
  let C := scripted (nums [3; 2; 1; 5; 0]) false in
  let cfg := policy_A in
  let s := scripted_only_X in
  let s' := snd (iteration C cfg 3 s) in
  Y (self s) = None /\
  iteration C cfg 3 s = (Ok tt, s') /\
  exists seeds ys new_y tfe ovh tr,
    length seeds = 3%nat /\
    X (self s') = Some (seeds ++ seeds) /\
    Y (self s') = Some (ys ++ new_y) /\
    time_func_eval (self s') = Some tfe /\ length tfe = 4%nat /\
    time_optimization_overhead (self s') = Some ovh /\ length ovh = 4%nat /\
    model_untrained (self s') = model_untrained (self s) /\
    trace s' = trace s ++ tr /\
    flat_map event_training tr = [] /\ filter is_maximize tr = [] /\
    last (filter is_evaluate tr) (EvLog MsgBestSeen)
      = EvEvaluate seeds (Some new_y).
Proof.
  intros C cfg s s'.
  assert (Hit : iteration C cfg 3 s = (Ok tt, s')) by (vm_compute; reflexivity).
  split; [reflexivity|]. split; [exact Hit|].
  exact (iteration_without_history_reseeds C cfg 3 s s' (or_intror eq_refl) Hit).
Defined.

(** X12 on a scripted task that raises from the first point on. *)
Lemma failed_first_seed_leaves_placeholder_witness :
  let C := scripted_failing 0 (nums [3; 2; 1; 5; 0]) in
  let s := scripted_start in
  let e1 := snd (script_uniform (env s)) in
  let r := run C policy_A 5 None None s in
  uniform C (env s) = ([0], e1) /\
  task_evaluate C [[0]] e1 = (None, tick 10 e1) /\
  fst r = Raise EvaluationFailure /\
  X (self (snd r)) = Some [np_zeros (n_dims C)] /\
  Y (self (snd r)) = Some [Num 0] /\
  time_func_eval (self (snd r)) = Some (np_zeros 3) /\
  incumbent (self (snd r)) = incumbent (self s) /\
  incumbent_value (self (snd r)) = incumbent_value (self s) /\
  env (snd r) = tick 10 e1 /\
  trace (snd r) = trace s ++ [EvUniform [0]; EvEvaluate [[0]] None].
Proof.
  intros C s e1 r. split; [reflexivity|]. split; [reflexivity|].
  exact (failed_first_seed_leaves_placeholder C policy_A 5 s [0] e1
           (tick 10 e1) eq_refl eq_refl).
Defined.


(** X14 on a scripted iteration with a checkpoint: the evaluation takes
    10 time units. *)
Lemma evaluation_time_spans_the_task_call_witness :
  let C := scripted (nums [3; 2; 1; 5; 0]) false in
  let cfg := policy_A_saving 1 in
  let s := scripted_seeded in
  let s' := snd (iteration C cfg 3 s) in
  iteration C cfg 3 s = (Ok tt, s') /\
  exists ovh tfe new_x s1 s2 new_y e3 dt,
    choose_next C cfg (Some [[1]; [9]]) (Some (nums [20; 10]))
      (3 mod train_intervall cfg =? 0)
      {| self := self s; env := env s;
         trace := trace s ++ [EvLog (MsgStartIteration 3)] |} = (Ok new_x, s1) /\
    recommend C cfg s1 = (Ok tt, s2) /\
    task_evaluate C new_x (env s2) = (Some new_y, e3) /\
    time_optimization_overhead (self s) = Some ovh /\
    time_func_eval (self s) = Some tfe /\
    time_optimization_overhead (self s') = Some (ovh ++ [dt]) /\
    time_func_eval (self s') = Some (tfe ++ [now C e3 - now C (env s2)]).
Proof.
  intros C cfg s s'.
  assert (Hit : iteration C cfg 3 s = (Ok tt, s')) by (vm_compute; reflexivity).
  split; [exact Hit|].
  exact (evaluation_time_spans_the_task_call C cfg 3 s s' [[1]; [9]]
           (nums [20; 10]) eq_refl eq_refl Hit).
Defined.

(** X15 on a scripted configuration with [train_intervall = 0]. *)
Lemma zero_train_interval_stops_the_loop_witness :
  let C := scripted (nums [3; 2; 1; 5; 0]) false in
  let cfg := policy_A_training 0 in
  let s := scripted_seeded in
  train_intervall cfg = 0 /\
  iteration C cfg 3 s =
    (Raise ZeroDivisionError,
     {| self := self s; env := env s;
        trace := trace s ++ [EvLog (MsgStartIteration 3)] |}) /\
  fst (run C cfg 5 None None scripted_start) <> Ok (Some [2], Num 1).
Proof.
  intros C cfg s. split; [reflexivity|].
  pose proof (zero_train_interval_stops_the_loop C cfg eq_refl) as Hw.
  split.
  - exact (proj1 Hw 3 s).
  - exact (proj2 Hw 5 None None scripted_start (Some [2], Num 1) eq_refl).
Defined.

(** X16 on a scripted configuration with a save directory and
    [num_save = 0]. *)
Lemma zero_num_save_with_save_dir_witness :
  let C := scripted (nums [3; 2; 1; 5; 0]) false in
  let cfg := policy_A_saving 0 in
  save_dir cfg = Some "runs"%string /\ num_save cfg = 0 /\
  fst (run C cfg 3 None None scripted_start) <> Ok (Some [2], Num 1) /\
  fst (iteration C cfg 3 scripted_seeded) <> Ok tt.
Proof.
  intros C cfg. split; [reflexivity|]. split; [reflexivity|].
  pose proof (zero_num_save_with_save_dir C cfg "runs"%string eq_refl eq_refl)
    as Hw.
  split.
  - exact (proj1 Hw 3 scripted_start (Some [2], Num 1)).
  - exact (proj2 Hw 3 scripted_seeded).
Defined.

(** X17 on a scripted run of six iterations that saves every second
    iteration: the indices 0, 1, 2 and 4. *)
Lemma run_checkpoint_schedule_witness :
  let C := scripted (nums [3; 2; 1; 5; 0]) false in
  let cfg := policy_A_saving 2 in
  let s := scripted_start in
  let s' := snd (run C cfg 6 None None s) in
  checkpoint_store saved C /\ strategy_keeps_view saved cfg /\
  run C cfg 6 None None s = (Ok (Some [5], Num 0), s') /\
  exists ws tr,
    saved (env s') = saved (env s) ++ ws /\
    match save_dir cfg with
    | Some _ =>
        exists later,
          ws = map seed_entry (seq 0 3) ++ later /\
          map entry_index later =
            filter (fun it => it mod num_save cfg =? 0) (py_range 3 6) /\
          Forall (fun w => snd (fst w) <> None) later
    | None => ws = []
    end /\
    trace s' = trace s ++ tr /\
    flat_map event_saved tr = map entry_index ws.
Proof.
  intros C cfg s s'.
  assert (Hrun : run C cfg 6 None None s = (Ok (Some [5], Num 0), s'))
    by (vm_compute; reflexivity).
  split; [apply scripted_checkpoint_store|]. split; [exact I|].
  split; [exact Hrun|].
  exact (run_checkpoint_schedule C cfg saved 6 s s' (Some [5]) (Num 0)
           (scripted_checkpoint_store _ _) I Hrun).
Defined.
